(** * SlicerNNUnet: the API segmentation logic and the widget's stop guard

    A shallow embedding of [SlicerNNUNetLib/ApiSegmentationLogic.py] and of
    the signal handlers of [SlicerNNUNetLib/Widget.py].

    Python [str] values are [string]s, [bytes] are lists of bytes, [int]s are
    [Z].  The file system is a finite map from paths to file contents, the
    host scene a finite map from node handles to node names.  Methods are
    computations in a state-and-exception monad: the state survives a raised
    exception, exactly as attribute assignments and file writes do in Python.
    Everything the methods do to the outside (signals, HTTP requests, log
    records, dialogs) is appended to a trace. *)

From Stdlib Require Import String Ascii ZArith List Lia DecimalString.
From stdpp Require Import gmap strings.

Import ListNotations.

(** * The model *)

(** ** Strings *)

(** [sub in s], as Python's [in] on strings. *)
Definition contains (s sub : string) : Prop :=
  exists pre post, s = pre +:+ sub +:+ post.

(** [s.endswith(suf)]. *)
Definition endswith (s suf : string) : Prop := exists pre, s = pre +:+ suf.

(** [s.rstrip(c)] for a one-character argument: every trailing [c] goes. *)
Fixpoint rstrip (c : ascii) (s : string) : string :=
  match s with
  | EmptyString => EmptyString
  | String a s' =>
      match rstrip c s' with
      | EmptyString => if Ascii.eqb a c then EmptyString else String a EmptyString
      | r => String a r
      end
  end.

(** [str(n)] for an [int]. *)
Definition str_int (n : Z) : string := NilZero.string_of_int (Z.to_int n).

(** What [rstrip] removes is a run of [c]s. *)
Fixpoint repeat_char (c : ascii) (n : nat) : string :=
  match n with O => "" | S n => String c (repeat_char c n) end.

(** ** Exceptions and the method monad *)

(** The two things the code asks of a caught exception: whether
    [except RuntimeError] matches it, and [str(e)].  Every value of this type
    is an instance of Python's [Exception]. *)
Inductive exc_class := RuntimeError | OtherError.

Record exception := Exc { exc_cls : exc_class; exc_str : string }.

Inductive outcome (A : Type) :=
| Return (a : A)
| Raise (e : exception).
Arguments Return {A} a.
Arguments Raise {A} e.

(** A method body over a state [S]: it ends by returning or by raising, and
    the state it leaves behind is kept either way. *)
Definition M (S A : Type) : Type := S -> outcome A * S.

Section Monad.
Context {S : Type}.

Definition ret {A} (a : A) : M S A := fun s => (Return a, s).

Definition raise {A} (e : exception) : M S A := fun s => (Raise e, s).

Definition bind {A B} (m : M S A) (k : A -> M S B) : M S B :=
  fun s => match m s with
           | (Return a, s') => k a s'
           | (Raise e, s') => (Raise e, s')
           end.

Definition gets {A} (f : S -> A) : M S A := fun s => (Return (f s), s).

Definition modify (f : S -> S) : M S unit := fun s => (Return tt, f s).

(** [try: body  except Exception as e: handler(e)] *)
Definition try_except {A} (body : M S A) (handler : exception -> M S A) : M S A :=
  fun s => match body s with
           | (Return a, s') => (Return a, s')
           | (Raise e, s') => handler e s'
           end.

(** [try: body  except RuntimeError as e: handler(e)]: any other exception
    passes through. *)
Definition try_except_RuntimeError {A}
    (body : M S A) (handler : exception -> M S A) : M S A :=
  fun s => match body s with
           | (Return a, s') => (Return a, s')
           | (Raise e, s') =>
               match exc_cls e with
               | RuntimeError => handler e s'
               | OtherError => (Raise e, s')
               end
           end.

(** [try: body  finally: fin]: [fin] always runs; an exception of [fin]
    replaces the outcome of [body]. *)
Definition try_finally {A} (body : M S A) (fin : M S unit) : M S A :=
  fun s => match body s with
           | (r, s') =>
               match fin s' with
               | (Return _, s'') => (r, s'')
               | (Raise e, s'') => (Raise e, s'')
               end
           end.

(** An external call whose outcome [o] the environment decides. *)
Definition extern {A} (o : outcome A) : M S A := fun s => (o, s).

End Monad.

(** Running a computation of a component inside a larger state. *)
Definition lift {S T A} (get : T -> S) (put : S -> T -> T) (m : M S A) : M T A :=
  fun t => match m (get t) with (r, s') => (r, put s' t) end.

Notation "x <- m ;; k" := (bind m (fun x => k))
  (at level 100, m at next level, right associativity).
Notation "m ;; k" := (bind m (fun _ => k))
  (at level 100, right associativity).

(** ** The world outside the logic *)

Abbreviation bytes := (list Byte.byte).

(** A path as its components ([pathlib.Path.parts]). *)
Abbreviation path := (list string).

(** A handle on a node of the host scene. *)
Abbreviation node := nat.

(** What can be observed of a run: the three signals of a logic, the HTTP
    requests and log records it makes, the widget's calls into its current
    logic, and what the widget does to the user interface. *)
Inductive event :=
| inferenceFinished
| errorOccurred (msg : string)
| progressInfo (msg : string)
| requests_post (url : string) (file_name : string) (file_body : bytes)
                (data : list (string * string))
| logging_error (msg : string)
| logic_call (method : string)
| insertPlainText (text : string)
| processEvents
| errorDisplay (msg : string) (withTraceback : bool)
| infoDisplay (msg : string).

Record World := mkWorld {
  fs : gmap path bytes;       (* the files that exist, with their contents *)
  scene : gmap node string;   (* the nodes of the scene, with their names *)
  trace : list event          (* what has happened so far, oldest first *)
}.

Definition with_fs (f : gmap path bytes -> gmap path bytes) (w : World) : World :=
  mkWorld (f (fs w)) (scene w) (trace w).
Definition with_scene (f : gmap node string -> gmap node string) (w : World) : World :=
  mkWorld (fs w) (f (scene w)) (trace w).
Definition log_event (ev : event) (w : World) : World :=
  mkWorld (fs w) (scene w) (trace w ++ [ev]).

(** An HTTP response as [requests] hands it back. *)
Record Response := mkResponse {
  status_code : Z;
  text : string;
  content : bytes;
  headers : gmap string string   (* keyed by the lower-cased header name *)
}.

Definition lower_ascii (a : ascii) : ascii :=
  let n := nat_of_ascii a in
  if (65 <=? n)%nat && (n <=? 90)%nat then ascii_of_nat (n + 32) else a.

Fixpoint lower (s : string) : string :=
  match s with
  | EmptyString => EmptyString
  | String a s' => String (lower_ascii a) (lower s')
  end.

(** [response.headers.get(key)]: [requests] keeps the headers in a
    case-insensitive dictionary, which looks a name up by its lower-cased
    form. *)
Definition headers_get (hs : gmap string string) (key : string) : option string :=
  hs !! lower key.

(** Python truthiness of a [str] and of an [Optional[str]]. *)
Definition truthy (s : string) : bool := negb (String.eqb s "").

Definition truthy_opt (o : option string) : bool :=
  match o with Some s => truthy s | None => false end.

(** How an f-string renders an [Optional[str]]. *)
Definition fmt_opt (o : option string) : string :=
  match o with Some s => s | None => "None" end.

(** ** ApiSegmentationLogic *)

(** The attributes of an [ApiSegmentationLogic] instance.  The three signal
    objects are represented by the events they put on the trace; the stored
    nnUNet parameter, which no method of this class reads, is left out. *)
Record ApiSegmentationLogic := mkLogic {
  _apiBaseUrl : string;
  _tmpDir : path;
  _currentSegmentationNode : option node;
  _currentVolumeNode : option node;
  _currentFileId : option string
}.

(** [__init__]; [tmpDir] is the directory the fresh [QTemporaryDir] got. *)
Definition init (tmpDir : path) : ApiSegmentationLogic :=
  mkLogic "" tmpDir None None None.

Definition setApiUrl (apiUrl : string) (l : ApiSegmentationLogic) : ApiSegmentationLogic :=
  mkLogic (rstrip "/" apiUrl) (_tmpDir l) (_currentSegmentationNode l)
          (_currentVolumeNode l) (_currentFileId l).

Definition getApiUrl (l : ApiSegmentationLogic) : string := _apiBaseUrl l.

Definition getPredictUrl (l : ApiSegmentationLogic) : string :=
  _apiBaseUrl l +:+ "/predict".

(** The f-string renders whatever it is given, so the argument is taken as
    the [Optional[str]] that [_currentFileId] is. *)
Definition getUploadUrl (l : ApiSegmentationLogic) (file_id : option string) : string :=
  _apiBaseUrl l +:+ "/upload_correction/" +:+ fmt_opt file_id.

Definition nnUNetOutDir (l : ApiSegmentationLogic) : path :=
  _tmpDir l ++ ["output"].

Definition getCurrentSegmentation (l : ApiSegmentationLogic) : option node :=
  _currentSegmentationNode l.

(** A logic instance together with the world it acts on. *)
Record State := mkState { self : ApiSegmentationLogic; world : World }.

Definition on_self (f : ApiSegmentationLogic -> ApiSegmentationLogic) : M State unit :=
  modify (fun s => mkState (f (self s)) (world s)).
Definition on_world (f : World -> World) : M State unit :=
  modify (fun s => mkState (self s) (f (world s))).

Definition set_currentVolumeNode (v : option node) : M State unit :=
  on_self (fun l => mkLogic (_apiBaseUrl l) (_tmpDir l) (_currentSegmentationNode l)
                            v (_currentFileId l)).
Definition set_currentFileId (i : option string) : M State unit :=
  on_self (fun l => mkLogic (_apiBaseUrl l) (_tmpDir l) (_currentSegmentationNode l)
                            (_currentVolumeNode l) i).
Definition set_currentSegmentationNode (n : option node) : M State unit :=
  on_self (fun l => mkLogic (_apiBaseUrl l) (_tmpDir l) n
                            (_currentVolumeNode l) (_currentFileId l)).

(** Modelled from the spec: the [Signal] class lives in [Signal.py], which is
    not part of the sources at hand.  The spec describes the three signals as
    fire-and-forget notifications, each a synchronous dispatch to the
    subscribers; raising a signal is an event on the trace and hands control
    straight back. *)
Definition Signal_call (ev : event) : M State unit := on_world (log_event ev).

(** *** The library and host calls the methods make

    Each takes the outcome the environment decided for it.  A call that
    raises leaves files and scene as they were. *)

(** The name [tempfile.NamedTemporaryFile] picks: directory and random part. *)
Record TempName := mkTempName { tn_dir : path; tn_random : string }.

Definition temp_path_of (t : TempName) (suffix : string) : path :=
  tn_dir t ++ ["tmp" +:+ tn_random t +:+ suffix].

(** [with tempfile.NamedTemporaryFile(suffix=..., delete=False) as f: f.name] *)
Definition NamedTemporaryFile (o : outcome TempName) (suffix : string) : M State path :=
  t <- extern o ;;
  on_world (with_fs (insert (temp_path_of t suffix) [])) ;;
  ret (temp_path_of t suffix).

(** [slicer.util.exportNode(n, p)]; [o] carries the bytes of the file. *)
Definition exportNode (o : outcome bytes) (n : node) (p : path) : M State unit :=
  b <- extern o ;;
  on_world (with_fs (insert p b)).

(** [open(p, 'rb')], read to the end. *)
Definition open_rb (o : outcome unit) (p : path) : M State bytes :=
  f <- gets (fun s => fs (world s) !! p) ;;
  match f with
  | None => raise (Exc OtherError "[Errno 2] No such file or directory")
  | Some b => extern o ;; ret b
  end.

(** [requests.post(url, files={'file': (name, f, ...)}, data=data)] *)
Definition post (o : outcome Response) (url name : string) (f : bytes)
    (data : list (string * string)) : M State Response :=
  on_world (log_event (requests_post url name f data)) ;;
  extern o.

Definition basename (p : path) : string := List.last p "".

(** [os.unlink(p)] *)
Definition unlink (o : outcome unit) (p : path) : M State unit :=
  extern o ;;
  on_world (with_fs (delete p)).

(** [p.mkdir(parents=True, exist_ok=True)]; directories are not tracked. *)
Definition mkdir (o : outcome unit) (p : path) : M State unit := extern o.

(** [open(p, 'wb')]: the file is created or cut to length zero. *)
Definition open_wb (o : outcome unit) (p : path) : M State unit :=
  extern o ;;
  on_world (with_fs (insert p [])).

(** [f.write(b)] on the file at [p]. *)
Definition write (o : outcome unit) (p : path) (b : bytes) : M State unit :=
  extern o ;;
  on_world (with_fs (fun m => <[p := default [] (m !! p) ++ b]> m)).

(** [logging.error(msg, exc_info=True)] *)
Definition logging_error_ (msg : string) : M State unit :=
  on_world (log_event (logging_error msg)).

(** [slicer.mrmlScene.AddNewNodeByClass(cls)] and
    [slicer.util.loadLabelVolume(p)]: a new node, named by the host. *)
Definition AddNewNodeByClass (o : outcome (node * string)) (cls : string) : M State node :=
  nn <- extern o ;;
  on_world (with_scene (insert (fst nn) (snd nn))) ;;
  ret (fst nn).

Definition loadLabelVolume (o : outcome (node * string)) (p : path) : M State node :=
  nn <- extern o ;;
  on_world (with_scene (insert (fst nn) (snd nn))) ;;
  ret (fst nn).

Definition RemoveNode (n : node) : M State unit :=
  on_world (with_scene (delete n)).

Definition GetName (n : node) : M State string :=
  gets (fun s => default "" (scene (world s) !! n)).

Definition SetName (n : node) (name : string) : M State unit :=
  on_world (with_scene (insert n name)).

(** *** startSegmentation *)

(** What the environment answers to the calls of one [startSegmentation]. *)
Record PredictIO := mkPredictIO {
  io_tempfile : outcome TempName;
  io_exportNode : outcome bytes;
  io_open : outcome unit;
  io_post : outcome Response;
  io_unlink : outcome unit;
  io_mkdir : outcome unit;
  io_open_wb : outcome unit;
  io_write : outcome unit
}.

(** Lines 67 to 84, the first half of the [try] block: the volume goes to a
    temporary file and from there to the predict endpoint. *)
Definition startSegmentation_send (io : PredictIO) (volumeNode : node) : M State Response :=
  predict_url <- gets (fun s => getPredictUrl (self s)) ;;
  Signal_call (progressInfo ("Sending volume to API: " +:+ predict_url)) ;;
  temp_path <- NamedTemporaryFile (io_tempfile io) ".nii.gz" ;;
  exportNode (io_exportNode io) volumeNode temp_path ;;
  response <- (f <- open_rb (io_open io) temp_path ;;
               Signal_call (progressInfo "Uploading volume to API...") ;;
               post (io_post io) predict_url (basename temp_path) f []) ;;
  unlink (io_unlink io) temp_path ;;
  ret response.

(** Lines 86 to 104, the second half: the response is handled. *)
Definition startSegmentation_receive (io : PredictIO) (response : Response) : M State unit :=
  if negb (status_code response =? 200)%Z then
    Signal_call (errorOccurred ("API returned error: " +:+ str_int (status_code response)
                                +:+ " - " +:+ text response))
  else
    set_currentFileId (headers_get (headers response) "X-File-ID") ;;
    fileId <- gets (fun s => _currentFileId (self s)) ;;
    (if negb (truthy_opt fileId)
     then Signal_call (progressInfo "Warning: No file ID received from API")
     else ret tt) ;;
    outDir <- gets (fun s => nnUNetOutDir (self s)) ;;
    mkdir (io_mkdir io) outDir ;;
    let out_file := outDir ++ ["segmentation.nii.gz"] in
    open_wb (io_open_wb io) out_file ;;
    write (io_write io) out_file (content response) ;;
    Signal_call (progressInfo ("Segmentation received from API with ID: " +:+ fmt_opt fileId)) ;;
    Signal_call inferenceFinished.

(** The whole [try] block. *)
Definition startSegmentation_try (io : PredictIO) (volumeNode : node) : M State unit :=
  response <- startSegmentation_send io volumeNode ;;
  startSegmentation_receive io response.

Definition startSegmentation (io : PredictIO) (volumeNode : node) : M State unit :=
  apiBaseUrl <- gets (fun s => _apiBaseUrl (self s)) ;;
  if negb (truthy apiBaseUrl) then
    Signal_call (errorOccurred "API URL is not configured.")
  else
    set_currentVolumeNode (Some volumeNode) ;;
    try_except
      (startSegmentation_try io volumeNode)
      (fun e =>
         Signal_call (errorOccurred ("Error during API communication: " +:+ exc_str e)) ;;
         logging_error_ ("API error: " +:+ exc_str e)).

(** *** uploadSegmentation *)

Record UploadIO := mkUploadIO {
  up_tempfile : outcome TempName;
  up_AddNewNode : outcome (node * string);
  up_ExportAllSegments : outcome unit;
  up_exportNode : outcome bytes;
  up_open : outcome unit;
  up_post : outcome Response;
  up_unlink : outcome unit
}.

Definition uploadSegmentation (io : UploadIO) (segmentationNode : node) : M State bool :=
  apiBaseUrl <- gets (fun s => _apiBaseUrl (self s)) ;;
  if negb (truthy apiBaseUrl) then
    Signal_call (errorOccurred "API URL is not configured.") ;;
    ret false
  else
    fileId <- gets (fun s => _currentFileId (self s)) ;;
    if negb (truthy_opt fileId) then
      Signal_call (errorOccurred "No file ID available. Please run inference first.") ;;
      ret false
    else
      try_except
        (upload_url <- gets (fun s => getUploadUrl (self s) fileId) ;;
         Signal_call (progressInfo ("Uploading corrected segmentation to: " +:+ upload_url)) ;;
         temp_path <- NamedTemporaryFile (up_tempfile io) ".nii.gz" ;;
         labelmapVolumeNode <- AddNewNodeByClass (up_AddNewNode io) "vtkMRMLLabelMapVolumeNode" ;;
         extern (up_ExportAllSegments io) ;;
         exportNode (up_exportNode io) labelmapVolumeNode temp_path ;;
         RemoveNode labelmapVolumeNode ;;
         response <- (f <- open_rb (up_open io) temp_path ;;
                      volume <- gets (fun s => _currentVolumeNode (self s)) ;;
                      data <- match volume with
                              | Some v => name <- GetName v ;;
                                          ret [("original_volume_name", name)]
                              | None => ret []
                              end ;;
                      Signal_call (progressInfo "Uploading segmentation to API...") ;;
                      post (up_post io) upload_url (basename temp_path) f data) ;;
         unlink (up_unlink io) temp_path ;;
         if negb (status_code response =? 200)%Z then
           Signal_call (errorOccurred ("API returned error: " +:+ str_int (status_code response)
                                       +:+ " - " +:+ text response)) ;;
           ret false
         else
           Signal_call (progressInfo ("Segmentation successfully uploaded to API with ID: "
                                      +:+ fmt_opt fileId)) ;;
           ret true)
        (fun e =>
           Signal_call (errorOccurred ("Error during upload: " +:+ exc_str e)) ;;
           logging_error_ ("Upload error: " +:+ exc_str e) ;;
           ret false).

(** *** stopSegmentation, waitForSegmentationFinished: both are [pass] *)

Definition stopSegmentation : M State unit := ret tt.

Definition waitForSegmentationFinished : M State unit := ret tt.

(** *** loadSegmentation *)

Record LoadIO := mkLoadIO {
  ld_loadLabelVolume : outcome (node * string);
  ld_AddNewNode : outcome (node * string);
  ld_ImportLabelmap : outcome unit
}.

(** The [try] block. *)
Definition loadSegmentation_try (io : LoadIO) : M State node :=
  segmentation_file <- gets (fun s => nnUNetOutDir (self s) ++ ["segmentation.nii.gz"]) ;;
  file <- gets (fun s => fs (world s) !! segmentation_file) ;;
  (if negb (bool_decide (is_Some file))
   then raise (Exc RuntimeError "Segmentation file not found. API segmentation may have failed.")
   else ret tt) ;;
  labelmapVolumeNode <- loadLabelVolume (ld_loadLabelVolume io) segmentation_file ;;
  segmentationNode <- AddNewNodeByClass (ld_AddNewNode io) "vtkMRMLSegmentationNode" ;;
  volume <- gets (fun s => _currentVolumeNode (self s)) ;;
  name <- match volume with
          | Some v => GetName v
          | None => raise (Exc OtherError "'NoneType' object has no attribute 'GetName'")
          end ;;
  SetName segmentationNode (name +:+ "_ApiSegmentation") ;;
  extern (ld_ImportLabelmap io) ;;
  RemoveNode labelmapVolumeNode ;;
  set_currentSegmentationNode (Some segmentationNode) ;;
  ret segmentationNode.

Definition loadSegmentation (io : LoadIO) : M State node :=
  try_except
    (loadSegmentation_try io)
    (fun e => raise (Exc RuntimeError ("Failed to load segmentation: " +:+ exc_str e))).

(** ** Widget: the signal handlers and the stop button *)

(** Which of its two logic instances [self.logic] points at. *)
Inductive LogicRef := localLogic | apiLogic.

Record Widget := mkWidget {
  logic : LogicRef;
  isStopping : bool;
  _doShowErrorWindows : bool;
  useApi : bool;                           (* _parameterNode.useApi *)
  applyButton_visible : bool;
  applyButton_enabled : bool;
  stopButton_visible : bool;
  installButton_enabled : bool;
  inputSelector_enabled : bool;
  inputSelector_currentNode : option node;
  uploadButton_enabled : bool
}.

(** The widget, its API logic and the world. *)
Record WState := mkWState { widget : Widget; sys : State }.

Definition on_widget (f : Widget -> Widget) : M WState unit :=
  modify (fun t => mkWState (f (widget t)) (sys t)).

(** A call into the API logic, or any other computation on logic and world. *)
Definition in_sys {A} (m : M State A) : M WState A :=
  lift sys (fun s t => mkWState (widget t) s) m.

Definition set_isStopping (b : bool) : M WState unit :=
  on_widget (fun w =>
    mkWidget (logic w) b (_doShowErrorWindows w) (useApi w)
             (applyButton_visible w) (applyButton_enabled w) (stopButton_visible w)
             (installButton_enabled w) (inputSelector_enabled w)
             (inputSelector_currentNode w) (uploadButton_enabled w)).

Definition set_buttons_visible (apply stop : bool) : M WState unit :=
  on_widget (fun w =>
    mkWidget (logic w) (isStopping w) (_doShowErrorWindows w) (useApi w)
             apply (applyButton_enabled w) stop
             (installButton_enabled w) (inputSelector_enabled w)
             (inputSelector_currentNode w) (uploadButton_enabled w)).

Definition set_buttons_enabled (install apply input upload : bool) : M WState unit :=
  on_widget (fun w =>
    mkWidget (logic w) (isStopping w) (_doShowErrorWindows w) (useApi w)
             (applyButton_visible w) apply (stopButton_visible w)
             install input
             (inputSelector_currentNode w) upload).

(** What a logic hands to [errorOccurred]: a message or an exception. *)
Inductive error_value := error_str (msg : string) | error_exc (e : exception).

Definition nl : string := String (ascii_of_nat 10) "".

Fixpoint stars (n : nat) : string :=
  match n with O => "" | S n => String "*" (stars n) end.

(** What the environment answers when [onInferenceFinished] loads the result:
    to the API logic's [loadSegmentation], or, the local logic's source not
    being at hand, the outcome of its [loadSegmentation]. *)
Record FinishedIO := mkFinishedIO {
  fin_api : LoadIO;
  fin_local : outcome node
}.

(** A signal arriving at the widget's handlers. *)
Inductive delivery :=
| deliver_inferenceFinished (io : FinishedIO)
| deliver_errorOccurred (errorMsg : error_value)
| deliver_progressInfo (infoMsg : string).

(** The signals that arrive while [onStopClicked] waits: inside the local
    logic's [stopSegmentation] and [waitForSegmentationFinished] (the API
    logic's are [pass]) and inside [slicer.app.processEvents()]. *)
Record StopIO := mkStopIO {
  during_stop : list delivery;
  during_wait : list delivery;
  during_processEvents : list delivery
}.

Section WidgetHandlers.

(** Python's [str.strip] and [str.splitlines]. *)
Variable str_strip : string -> string.
Variable str_splitlines : string -> list string.

Definition _formatMsg (infoMsg : string) : string :=
  String.concat nl (str_splitlines (str_strip infoMsg)).

Definition ui_event (ev : event) : M WState unit := in_sys (on_world (log_event ev)).

Definition onProgressInfo (infoMsg : string) : M WState unit :=
  ui_event (insertPlainText (_formatMsg infoMsg +:+ nl)) ;;
  ui_event processEvents.

Definition _reportError (msg : string) (doTraceback : bool) : M WState unit :=
  onProgressInfo msg ;;
  show <- gets (fun t => _doShowErrorWindows (widget t)) ;;
  if show then ui_event (errorDisplay msg doTraceback) else ret tt.

Definition _reportFinished (msg : string) : M WState unit :=
  onProgressInfo (stars 80) ;;
  onProgressInfo msg ;;
  show <- gets (fun t => _doShowErrorWindows (widget t)) ;;
  if show then ui_event (infoDisplay msg) else ret tt.

Definition _setButtonsEnabled (isEnabled : bool) : M WState unit :=
  api <- gets (fun t => useApi (widget t)) ;;
  current <- gets (fun t => getCurrentSegmentation (self (sys t))) ;;
  let shouldEnableUpload := isEnabled && api && bool_decide (is_Some current) in
  set_buttons_enabled isEnabled isEnabled isEnabled shouldEnableUpload.

Definition _setApplyVisible (isVisible : bool) : M WState unit :=
  set_buttons_visible isVisible (negb isVisible) ;;
  _setButtonsEnabled isVisible.

Definition getCurrentVolumeNode : M WState (option node) :=
  gets (fun t => inputSelector_currentNode (widget t)).

(** [self.logic.loadSegmentation()] *)
Definition logic_loadSegmentation (io : FinishedIO) : M WState node :=
  ui_event (logic_call "loadSegmentation") ;;
  which <- gets (fun t => logic (widget t)) ;;
  match which with
  | apiLogic => in_sys (loadSegmentation (fin_api io))
  | localLogic => extern (fin_local io)
  end.

Definition onInferenceFinished (io : FinishedIO) : M WState unit :=
  stopping <- gets (fun t => isStopping (widget t)) ;;
  if stopping then
    _setApplyVisible true
  else
    try_finally
      (try_except_RuntimeError
         (onProgressInfo "Loading inference results..." ;;
          segmentation <- logic_loadSegmentation io ;;
          volume <- getCurrentVolumeNode ;;
          name <- match volume with
                  | Some v => in_sys (GetName v)
                  | None => raise (Exc OtherError "'NoneType' object has no attribute 'GetName'")
                  end ;;
          in_sys (SetName segmentation (name +:+ "Segmentation")) ;;
          _reportFinished "Inference ended successfully.")
         (fun e => _reportError ("Inference ended in error:" +:+ nl +:+ exc_str e) true))
      (_setApplyVisible true).

Definition onInferenceError (errorMsg : error_value) : M WState unit :=
  stopping <- gets (fun t => isStopping (widget t)) ;;
  if stopping then
    ret tt
  else
    _setApplyVisible true ;;
    let errorMsg := match errorMsg with
                    | error_exc e => exc_str e
                    | error_str s => s
                    end in
    _reportError ("Encountered error during inference :" +:+ nl +:+ errorMsg) false.

(** The slot each signal is connected to. *)
Definition dispatch (d : delivery) : M WState unit :=
  match d with
  | deliver_inferenceFinished io => onInferenceFinished io
  | deliver_errorOccurred errorMsg => onInferenceError errorMsg
  | deliver_progressInfo infoMsg => onProgressInfo infoMsg
  end.

Fixpoint dispatch_all (ds : list delivery) : M WState unit :=
  match ds with
  | [] => ret tt
  | d :: ds' => dispatch d ;; dispatch_all ds'
  end.

(** [self.logic.stopSegmentation()], [self.logic.waitForSegmentationFinished()] *)
Definition logic_stopSegmentation (io : StopIO) : M WState unit :=
  ui_event (logic_call "stopSegmentation") ;;
  which <- gets (fun t => logic (widget t)) ;;
  match which with
  | apiLogic => in_sys stopSegmentation
  | localLogic => dispatch_all (during_stop io)
  end.

Definition logic_waitForSegmentationFinished (io : StopIO) : M WState unit :=
  ui_event (logic_call "waitForSegmentationFinished") ;;
  which <- gets (fun t => logic (widget t)) ;;
  match which with
  | apiLogic => in_sys waitForSegmentationFinished
  | localLogic => dispatch_all (during_wait io)
  end.

Definition onStopClicked (io : StopIO) : M WState unit :=
  set_isStopping true ;;
  logic_stopSegmentation io ;;
  logic_waitForSegmentationFinished io ;;
  (ui_event processEvents ;; dispatch_all (during_processEvents io)) ;;
  set_isStopping false ;;
  _setApplyVisible true.

End WidgetHandlers.

(** ** Reading the trace *)

Definition is_inferenceFinished (ev : event) : bool :=
  match ev with inferenceFinished => true | _ => false end.

Definition is_errorOccurred (ev : event) : bool :=
  match ev with errorOccurred _ => true | _ => false end.

Definition is_requests_post (ev : event) : bool :=
  match ev with requests_post _ _ _ _ => true | _ => false end.

Definition is_load_call (ev : event) : bool :=
  match ev with logic_call method => String.eqb method "loadSegmentation" | _ => false end.

Definition is_infoDisplay (ev : event) : bool :=
  match ev with infoDisplay _ => true | _ => false end.

(** How often an event of one kind occurs. *)
Definition count (p : event -> bool) (tr : list event) : nat :=
  length (List.filter p tr).

(** The URLs of the HTTP requests on a trace. *)
Definition post_url (ev : event) : option string :=
  match ev with requests_post url _ _ _ => Some url | _ => None end.

Definition post_urls (tr : list event) : list string := omap post_url tr.

(** ** The vocabulary of the statements *)

(** The fixed place of the last result. *)
Definition out_file (l : ApiSegmentationLogic) : path :=
  nnUNetOutDir l ++ ["segmentation.nii.gz"].

(** An external call that came back without raising. *)
Definition returned {A} (o : outcome A) : Prop := exists a, o = Return a.

(** The file operations of the first half of [startSegmentation] come back
    without raising. *)
Definition send_io_ok (io : PredictIO) : Prop :=
  returned (io_tempfile io) /\ returned (io_exportNode io) /\
  returned (io_open io) /\ returned (io_unlink io).

(** So do those of the second half. *)
Definition receive_io_ok (io : PredictIO) : Prop :=
  returned (io_mkdir io) /\ returned (io_open_wb io) /\ returned (io_write io).

(** The state in which the [try] block of [startSegmentation] starts: the
    volume is stored. *)
Definition with_volume (volumeNode : node) (s : State) : State :=
  snd (set_currentVolumeNode (Some volumeNode) s).

(** The call fails before the response headers are read: the first half
    raises, or it brings back a status outside 200..299. *)
Definition fails_early (io : PredictIO) (volumeNode : node) (s : State) : Prop :=
  match startSegmentation_send io volumeNode s with
  | (Raise _, _) => True
  | (Return response, _) => ~ (200 <= status_code response < 300)%Z
  end.

(** The widget with the guard set. *)
Definition stopping (t : WState) : WState := snd (set_isStopping true t).

(** What a handler may do while the guard is set: the guard and the choice
    of logic stay, and neither a [loadSegmentation] call nor a success dialog
    is added to the trace. *)
Definition suppressed (t t' : WState) : Prop :=
  isStopping (widget t') = true /\
  logic (widget t') = logic (widget t) /\
  exists new,
    trace (world (sys t')) = trace (world (sys t)) ++ new /\
    count is_load_call new = 0 /\
    count is_infoDisplay new = 0.

(** ** Sample states and environments *)

Definition blank_world : World := mkWorld ∅ ∅ [].

(** A fresh logic whose URL has been set. *)
Definition configured_state : State :=
  mkState (setApiUrl "http://host:8000/" (init ["tmp"; "qt"])) blank_world.

(** A logic that holds the job of an earlier, successful predict call. *)
Definition state_with_job : State :=
  mkState (mkLogic "http://host:8000" ["tmp"; "qt"] None (Some 3) (Some "abc123"))
          blank_world.

(** Every call comes back; the server answers [r]. *)
Definition io_all_fine (r : Response) : PredictIO :=
  mkPredictIO (Return (mkTempName ["tmp"] "k3j2")) (Return [Byte.x1f; Byte.x8b])
              (Return tt) (Return r) (Return tt) (Return tt) (Return tt) (Return tt).

(** The request itself raises [e]. *)
Definition io_post_raises (e : exception) : PredictIO :=
  mkPredictIO (Return (mkTempName ["tmp"] "k3j2")) (Return [Byte.x1f; Byte.x8b])
              (Return tt) (Raise e) (Return tt) (Return tt) (Return tt) (Return tt).

Definition upload_io_all_fine : UploadIO :=
  mkUploadIO (Return (mkTempName ["tmp"] "p0q1")) (Return (11, "LabelMapVolume"))
             (Return tt) (Return [Byte.x1f; Byte.x8b]) (Return tt)
             (Return (mkResponse 200 "ok" [] ∅)) (Return tt).

Definition load_io_all_fine : LoadIO :=
  mkLoadIO (Return (21, "segmentation")) (Return (22, "Segmentation")) (Return tt).

(** A widget in API mode while a segmentation runs: stop button shown,
    apply button hidden, volume 7 selected. *)
Definition running_widget : Widget :=
  mkWidget apiLogic false true true false false true false false (Some 7) false.

(** The logic after a predict call that went through, volume 7 being named
    [CT] in the scene. *)
Definition state_after_predict : State :=
  snd (startSegmentation
         (io_all_fine (mkResponse 200 "" [Byte.x42] {[ "x-file-id" := "abc123" ]}))
         7 (mkState (self configured_state) (mkWorld ∅ {[ 7 := "CT" ]} []))).

(** On a message of one line without blanks around it, [str.strip] and
    [str.splitlines] do this. *)
Definition strip_one_line (s : string) : string := s.

Definition splitlines_one_line (s : string) : list string := [s].

(** ** Tactics *)

(** Unfolds the monad and the primitive calls, then computes on the records. *)
Ltac run_m :=
  cbv beta iota zeta delta
    [bind ret raise gets modify extern try_except on_self on_world Signal_call
     logging_error_ set_currentVolumeNode set_currentFileId
     set_currentSegmentationNode NamedTemporaryFile exportNode open_rb post
     unlink mkdir open_wb write AddNewNodeByClass loadLabelVolume RemoveNode
     GetName SetName with_fs with_scene log_event];
  cbn [self world fs scene trace
       _apiBaseUrl _tmpDir _currentSegmentationNode _currentVolumeNode
       _currentFileId fst snd].

(** The same for the widget. *)
Ltac run_w :=
  cbv beta iota zeta delta
    [bind ret raise gets modify extern try_except on_self on_world on_widget
     in_sys lift ui_event set_isStopping set_buttons_visible set_buttons_enabled
     _setApplyVisible _setButtonsEnabled onProgressInfo stopSegmentation
     waitForSegmentationFinished with_fs with_scene log_event stopping];
  cbn [widget sys self world fs scene trace fst snd
       logic isStopping _doShowErrorWindows useApi applyButton_visible
       applyButton_enabled stopButton_visible installButton_enabled
       inputSelector_enabled inputSelector_currentNode uploadButton_enabled].

(** Brings a trace into the shape [old ++ [ev1; ...; evn]]. *)
Ltac norm_trace := rewrite <- ?app_assoc; cbn [app].

(** Destructs, one after the other, the outcomes a stuck computation waits
    for. *)
Ltac next_outcome :=
  match goal with
  | |- context [match ?o with Return _ => _ | Raise _ => _ end] =>
      destruct o eqn:?; run_m
  | |- context [match ?o with Some _ => _ | None => _ end] =>
      destruct o eqn:?; run_m
  end.

(** ** More vocabulary: the environments of the other methods *)

(** Every call of one [uploadSegmentation] comes back without raising. *)
Definition upload_io_ok (io : UploadIO) : Prop :=
  returned (up_tempfile io) /\ returned (up_AddNewNode io) /\
  returned (up_ExportAllSegments io) /\ returned (up_exportNode io) /\
  returned (up_open io) /\ returned (up_unlink io).

(** The form data [uploadSegmentation] sends along. *)
Definition upload_data (s : State) : list (string * string) :=
  match _currentVolumeNode (self s) with
  | Some v => [("original_volume_name", default "" (scene (world s) !! v))]
  | None => []
  end.

(** Decides the tests on a status code and on a file id that a stuck
    computation waits for. *)
Ltac split_status :=
  match goal with
  | |- context [(status_code ?r =? 200)%Z] =>
      destruct (status_code r =? 200)%Z eqn:?; cbn [negb]; run_m
  | |- context [truthy_opt ?o] =>
      destruct (truthy_opt o) eqn:?; cbn [negb]; run_m
  end.

(** ** More sample environments *)

(** Everything goes through until the body is written: the disk is full. *)
Definition io_disk_full (r : Response) : PredictIO :=
  mkPredictIO (Return (mkTempName ["tmp"] "k3j2")) (Return [Byte.x1f; Byte.x8b])
              (Return tt) (Return r) (Return tt) (Return tt) (Return tt)
              (Raise (Exc OtherError "[Errno 28] No space left on device")).

(** ** The logic with its signals connected *)

(** The methods of [ApiSegmentationLogic] once more, this time with the
    subscribers of the signals as a parameter: [emit] is what raising a
    signal does, and [run] carries the other steps into the state [T] the
    subscribers live in.  With [Signal_call] for [emit] and nothing to carry
    these are [startSegmentation] and [uploadSegmentation] as above. *)
Section Wired.

Context {T : Type}.
Variable emit : event -> M T unit.
Variable run : forall A, M State A -> M T A.

(** [slicer.util.exportNode(n, p)] where [n] may be [None]; what the host
    makes of that is up to the environment as well. *)
Definition exportNode_opt (o : outcome (list Byte.byte)) (n : option node) (p : path)
    : M State unit :=
  match n with
  | Some n => exportNode o n p
  | None => b <- extern o ;; on_world (with_fs (insert p b))
  end.

Definition startSegmentation_send_wired (io : PredictIO) (volumeNode : option node)
    : M T Response :=
  predict_url <- run _ (gets (fun s => getPredictUrl (self s))) ;;
  emit (progressInfo ("Sending volume to API: " +:+ predict_url)) ;;
  temp_path <- run _ (NamedTemporaryFile (io_tempfile io) ".nii.gz") ;;
  run _ (exportNode_opt (io_exportNode io) volumeNode temp_path) ;;
  response <- (f <- run _ (open_rb (io_open io) temp_path) ;;
               emit (progressInfo "Uploading volume to API...") ;;
               run _ (post (io_post io) predict_url (basename temp_path) f [])) ;;
  run _ (unlink (io_unlink io) temp_path) ;;
  ret response.

Definition startSegmentation_receive_wired (io : PredictIO) (response : Response)
    : M T unit :=
  if negb (status_code response =? 200)%Z then
    emit (errorOccurred ("API returned error: " +:+ str_int (status_code response)
                         +:+ " - " +:+ text response))
  else
    run _ (set_currentFileId (headers_get (headers response) "X-File-ID")) ;;
    fileId <- run _ (gets (fun s => _currentFileId (self s))) ;;
    (if negb (truthy_opt fileId)
     then emit (progressInfo "Warning: No file ID received from API")
     else ret tt) ;;
    outDir <- run _ (gets (fun s => nnUNetOutDir (self s))) ;;
    run _ (mkdir (io_mkdir io) outDir) ;;
    let out_file := outDir ++ ["segmentation.nii.gz"] in
    run _ (open_wb (io_open_wb io) out_file) ;;
    run _ (write (io_write io) out_file (content response)) ;;
    emit (progressInfo ("Segmentation received from API with ID: " +:+ fmt_opt fileId)) ;;
    emit inferenceFinished.

Definition startSegmentation_wired (io : PredictIO) (volumeNode : option node)
    : M T unit :=
  apiBaseUrl <- run _ (gets (fun s => _apiBaseUrl (self s))) ;;
  if negb (truthy apiBaseUrl) then
    emit (errorOccurred "API URL is not configured.")
  else
    run _ (set_currentVolumeNode volumeNode) ;;
    try_except
      (response <- startSegmentation_send_wired io volumeNode ;;
       startSegmentation_receive_wired io response)
      (fun e =>
         emit (errorOccurred ("Error during API communication: " +:+ exc_str e)) ;;
         run _ (logging_error_ ("API error: " +:+ exc_str e))).

Definition uploadSegmentation_wired (io : UploadIO) (segmentationNode : node)
    : M T bool :=
  apiBaseUrl <- run _ (gets (fun s => _apiBaseUrl (self s))) ;;
  if negb (truthy apiBaseUrl) then
    emit (errorOccurred "API URL is not configured.") ;;
    ret false
  else
    fileId <- run _ (gets (fun s => _currentFileId (self s))) ;;
    if negb (truthy_opt fileId) then
      emit (errorOccurred "No file ID available. Please run inference first.") ;;
      ret false
    else
      try_except
        (upload_url <- run _ (gets (fun s => getUploadUrl (self s) fileId)) ;;
         emit (progressInfo ("Uploading corrected segmentation to: " +:+ upload_url)) ;;
         temp_path <- run _ (NamedTemporaryFile (up_tempfile io) ".nii.gz") ;;
         labelmapVolumeNode <-
           run _ (AddNewNodeByClass (up_AddNewNode io) "vtkMRMLLabelMapVolumeNode") ;;
         run _ (extern (up_ExportAllSegments io)) ;;
         run _ (exportNode (up_exportNode io) labelmapVolumeNode temp_path) ;;
         run _ (RemoveNode labelmapVolumeNode) ;;
         response <- (f <- run _ (open_rb (up_open io) temp_path) ;;
                      volume <- run _ (gets (fun s => _currentVolumeNode (self s))) ;;
                      data <- match volume with
                              | Some v => name <- run _ (GetName v) ;;
                                          ret [("original_volume_name", name)]
                              | None => ret []
                              end ;;
                      emit (progressInfo "Uploading segmentation to API...") ;;
                      run _ (post (up_post io) upload_url (basename temp_path) f data)) ;;
         run _ (unlink (up_unlink io) temp_path) ;;
         if negb (status_code response =? 200)%Z then
           emit (errorOccurred ("API returned error: " +:+ str_int (status_code response)
                                +:+ " - " +:+ text response)) ;;
           ret false
         else
           emit (progressInfo ("Segmentation successfully uploaded to API with ID: "
                               +:+ fmt_opt fileId)) ;;
           ret true)
        (fun e =>
           emit (errorOccurred ("Error during upload: " +:+ exc_str e)) ;;
           run _ (logging_error_ ("Upload error: " +:+ exc_str e)) ;;
           ret false).

End Wired.

(** ** The rest of the widget *)

(** What the handlers below need beyond [Widget]: the URL of the parameter
    node, the two collapsible sections, the version label, and where in the
    trace the text of the log starts ([clear()] moves that to the end). *)
Record Panel := mkPanel {
  apiUrl : string;                                  (* _parameterNode.apiUrl *)
  nnUNetSettingsCollapsibleButton_enabled : bool;
  nnUNetInstallCollapsibleButton_visible : bool;
  currentVersionLabel_text : string;
  logTextEdit_start : nat
}.

Record App := mkApp { wstate : WState; panel : Panel }.

Definition in_widget {A} (m : M WState A) : M App A :=
  lift wstate (fun t a => mkApp t (panel a)) m.

Definition on_panel (f : Panel -> Panel) : M App unit :=
  modify (fun a => mkApp (wstate a) (f (panel a))).

Definition set_logic (r : LogicRef) : M WState unit :=
  on_widget (fun w =>
    mkWidget r (isStopping w) (_doShowErrorWindows w) (useApi w)
             (applyButton_visible w) (applyButton_enabled w) (stopButton_visible w)
             (installButton_enabled w) (inputSelector_enabled w)
             (inputSelector_currentNode w) (uploadButton_enabled w)).

Definition set_useApi (b : bool) : M WState unit :=
  on_widget (fun w =>
    mkWidget (logic w) (isStopping w) (_doShowErrorWindows w) b
             (applyButton_visible w) (applyButton_enabled w) (stopButton_visible w)
             (installButton_enabled w) (inputSelector_enabled w)
             (inputSelector_currentNode w) (uploadButton_enabled w)).

Definition set_uploadButton_enabled (b : bool) : M WState unit :=
  on_widget (fun w =>
    mkWidget (logic w) (isStopping w) (_doShowErrorWindows w) (useApi w)
             (applyButton_visible w) (applyButton_enabled w) (stopButton_visible w)
             (installButton_enabled w) (inputSelector_enabled w)
             (inputSelector_currentNode w) b).

Definition set_applyButton_enabled (b : bool) : M WState unit :=
  on_widget (fun w =>
    mkWidget (logic w) (isStopping w) (_doShowErrorWindows w) (useApi w)
             (applyButton_visible w) b (stopButton_visible w)
             (installButton_enabled w) (inputSelector_enabled w)
             (inputSelector_currentNode w) (uploadButton_enabled w)).

Definition set_settings_enabled (b : bool) : M App unit :=
  on_panel (fun p => mkPanel (apiUrl p) b (nnUNetInstallCollapsibleButton_visible p)
                             (currentVersionLabel_text p) (logTextEdit_start p)).

Definition set_install_visible (b : bool) : M App unit :=
  on_panel (fun p => mkPanel (apiUrl p) (nnUNetSettingsCollapsibleButton_enabled p) b
                             (currentVersionLabel_text p) (logTextEdit_start p)).

Definition set_version_label (v : string) : M App unit :=
  on_panel (fun p => mkPanel (apiUrl p) (nnUNetSettingsCollapsibleButton_enabled p)
                             (nnUNetInstallCollapsibleButton_visible p)
                             v (logTextEdit_start p)).

(** [self.ui.logTextEdit.clear()] *)
Definition logTextEdit_clear : M App unit :=
  modify (fun a =>
    mkApp (wstate a)
          (mkPanel (apiUrl (panel a)) (nnUNetSettingsCollapsibleButton_enabled (panel a))
                   (nnUNetInstallCollapsibleButton_visible (panel a))
                   (currentVersionLabel_text (panel a))
                   (length (trace (world (sys (wstate a))))))).

(** What the environment answers during one action of the widget.  The
    install logic and the local segmentation logic are not among the sources
    at hand; of them the model keeps what they hand back and the signals they
    raise on the way. *)
Record WidgetIO := mkWidgetIO {
  w_predict : PredictIO;
  w_upload : UploadIO;
  w_finished : FinishedIO;
  w_install_progress : list string;     (* installLogic.progressInfo, in order *)
  w_install_result : outcome bool;      (* setupPythonRequirements(...) *)
  w_installed_version : string;         (* str(getInstalledNNUnetVersion()) *)
  w_needsRestart : bool;                (* installLogic.needsRestart *)
  w_local_start : list delivery         (* signals raised inside localLogic.startSegmentation *)
}.

Section WidgetActions.

Variable str_strip : string -> string.
Variable str_splitlines : string -> list string.

(** Modelled from the spec: [Signal.py] is not among the sources at hand.
    According to the spec a signal is a synchronous dispatch to its
    subscribers, so raising one runs the slot the widget's constructor
    connected to it (lines 70 to 72) before the logic goes on; an exception
    of the slot surfaces in the logic. *)
Definition slot (io : WidgetIO) (ev : event) : M WState unit :=
  match ev with
  | inferenceFinished => onInferenceFinished str_strip str_splitlines (w_finished io)
  | errorOccurred msg => onInferenceError str_strip str_splitlines (error_str msg)
  | progressInfo msg => onProgressInfo str_strip str_splitlines msg
  | _ => ret tt
  end.

Definition emit (io : WidgetIO) (ev : event) : M WState unit :=
  in_sys (Signal_call ev) ;;
  slot io ev.

(** The API logic as the widget holds it. *)
Definition apiLogic_startSegmentation (io : WidgetIO) (volumeNode : option node)
    : M WState unit :=
  startSegmentation_wired (emit io) (@in_sys) (w_predict io) volumeNode.

Definition apiLogic_uploadSegmentation (io : WidgetIO) (segmentationNode : node)
    : M WState bool :=
  uploadSegmentation_wired (emit io) (@in_sys) (w_upload io) segmentationNode.

Definition _updateModeBasedUI : M App unit :=
  api <- gets (fun a => useApi (widget (wstate a))) ;;
  (if api then
     in_widget (set_logic apiLogic) ;;
     url <- gets (fun a => apiUrl (panel a)) ;;
     in_widget (in_sys (on_self (setApiUrl url))) ;;
     set_settings_enabled false
   else
     in_widget (set_logic localLogic) ;;
     set_settings_enabled true) ;;
  current <- gets (fun a => getCurrentSegmentation (self (sys (wstate a)))) ;;
  let shouldEnableUpload := api && bool_decide (is_Some current) in
  in_widget (set_uploadButton_enabled shouldEnableUpload) ;;
  set_install_visible (negb api).

Definition onLocalRadioButtonToggled (checked : bool) : M App unit :=
  if checked then
    in_widget (set_useApi false) ;;
    _updateModeBasedUI
  else ret tt.

Definition onApiRadioButtonToggled (checked : bool) : M App unit :=
  if checked then
    in_widget (set_useApi true) ;;
    _updateModeBasedUI
  else ret tt.

Definition onUploadClicked (io : WidgetIO) : M App unit :=
  currentSegmentation <- gets (fun a => getCurrentSegmentation (self (sys (wstate a)))) ;;
  match currentSegmentation with
  | None =>
      in_widget (_reportError str_strip str_splitlines
                   "No segmentation available to upload." true)
  | Some segmentation =>
      url <- gets (fun a => apiUrl (panel a)) ;;
      if negb (truthy url) then
        in_widget (_reportError str_strip str_splitlines "API URL is not configured." true)
      else
        in_widget (in_sys (on_self (setApiUrl url))) ;;
        in_widget (onProgressInfo str_strip str_splitlines
                     "Uploading corrected segmentation to the server...") ;;
        success <- in_widget (ui_event (logic_call "uploadSegmentation") ;;
                              apiLogic_uploadSegmentation io segmentation) ;;
        if success then
          in_widget (_reportFinished str_strip str_splitlines
            "Segmentation successfully uploaded to API. Thank you for your contribution!")
        else
          in_widget (_reportError str_strip str_splitlines
            "Failed to upload segmentation. Check logs for details." true)
  end.

Fixpoint progress_all (msgs : list string) : M WState unit :=
  match msgs with
  | [] => ret tt
  | msg :: msgs' => onProgressInfo str_strip str_splitlines msg ;; progress_all msgs'
  end.

Definition updateInstalledVersion (io : WidgetIO) : M App unit :=
  set_version_label (w_installed_version io).

Definition onInstall (io : WidgetIO) (doReportFinished : bool) : M App bool :=
  in_widget (_setButtonsEnabled false) ;;
  (if doReportFinished then logTextEdit_clear else ret tt) ;;
  success <- in_widget (ui_event (logic_call "setupPythonRequirements") ;;
                        progress_all (w_install_progress io) ;;
                        extern (w_install_result io)) ;;
  (if doReportFinished then
     if success
     then in_widget (_reportFinished str_strip str_splitlines "Install finished correctly.")
     else in_widget (_reportError str_strip str_splitlines "Install failed." true)
   else ret tt) ;;
  updateInstalledVersion io ;;
  in_widget (_setButtonsEnabled true) ;;
  ret success.

(** [self.logic.startSegmentation(volumeNode)] *)
Definition logic_startSegmentation (io : WidgetIO) (volumeNode : option node)
    : M WState unit :=
  ui_event (logic_call "startSegmentation") ;;
  which <- gets (fun t => logic (widget t)) ;;
  match which with
  | apiLogic => apiLogic_startSegmentation io volumeNode
  | localLogic => dispatch_all str_strip str_splitlines (w_local_start io)
  end.

Definition _runSegmentation (io : WidgetIO) : M WState unit :=
  api <- gets (fun t => useApi (widget t)) ;;
  if negb api && w_needsRestart io then
    onInferenceFinished str_strip str_splitlines (w_finished io)
  else
    (if negb api then
       ui_event (logic_call "parameter.toSettings") ;;
       ui_event (logic_call "setParameter")
     else ret tt) ;;
    volume <- getCurrentVolumeNode ;;
    logic_startSegmentation io volume.

Definition onInputChanged : M WState unit :=
  volume <- getCurrentVolumeNode ;;
  set_applyButton_enabled (bool_decide (is_Some volume)).

Definition onApply (io : WidgetIO) : M App unit :=
  volume <- in_widget getCurrentVolumeNode ;;
  match volume with
  | None =>
      in_widget (_reportError str_strip str_splitlines
                   "Please select a valid volume to proceed." true)
  | Some _ =>
      logTextEdit_clear ;;
      in_widget (onProgressInfo str_strip str_splitlines "Start") ;;
      in_widget (onProgressInfo str_strip str_splitlines (stars 80)) ;;
      api <- gets (fun a => useApi (widget (wstate a))) ;;
      if api then
        url <- gets (fun a => apiUrl (panel a)) ;;
        if negb (truthy url) then
          in_widget (_reportError str_strip str_splitlines
            "Please enter an API URL to proceed with API-based segmentation." true)
        else
          in_widget (in_sys (on_self (setApiUrl url))) ;;
          in_widget (_setApplyVisible false) ;;
          in_widget (_runSegmentation io)
      else
        installed <- onInstall io false ;;
        if negb installed then ret tt
        else if w_needsRestart io then
          in_widget (_reportFinished str_strip str_splitlines
                       "Please restart 3D Slicer to proceed with segmentation.")
        else
          in_widget (_setApplyVisible false) ;;
          in_widget (_runSegmentation io)
  end.

Definition onSceneChanged (io : StopIO) : M WState unit :=
  onStopClicked str_strip str_splitlines io.

End WidgetActions.

(** An idle widget in API mode, volume 7 selected, with its panel. *)
Definition idle_widget : Widget :=
  mkWidget apiLogic false true true true true false true true (Some 7) false.

Definition api_panel : Panel := mkPanel "http://host:8000/" false false "" 0.

Definition widget_io_all_fine (r : Response) : WidgetIO :=
  mkWidgetIO (io_all_fine r) upload_io_all_fine
             (mkFinishedIO load_io_all_fine (Return 22))
             [] (Return true) "2.5" false [].

(** The answer of a server that went through, with a file id. *)
Definition response_with_id : Response :=
  mkResponse 200 "" [Byte.x42] {[ "x-file-id" := "abc123" ]}.

(** The idle widget on a configured logic, volume 7 being named [CT]. *)
Definition idle_app : App :=
  mkApp (mkWState idle_widget
           (mkState (self configured_state) (mkWorld ∅ {[ 7 := "CT" ]} [])))
        api_panel.

(** The same with another URL in the panel. *)
Definition idle_app_with_url (url : string) : App :=
  mkApp (wstate idle_app) (mkPanel url false false "" 0).

(** The idle widget once a result has been loaded as node 22. *)
Definition app_with_result : App :=
  mkApp (mkWState idle_widget
           (mkState (mkLogic "http://host:8000" ["tmp"; "qt"] (Some 22) (Some 7)
                             (Some "abc123"))
                    (mkWorld ∅ {[ 7 := "CT"; 22 := "CTSegmentation" ]} [])))
        api_panel.

(** An idle widget in local mode, and an environment whose install fails. *)
Definition local_app : App :=
  mkApp (mkWState
           (mkWidget localLogic false true false true true false true true (Some 7) false)
           (mkState (self configured_state) (mkWorld ∅ {[ 7 := "CT" ]} [])))
        (mkPanel "" true true "" 0).

Definition widget_io_install_fails : WidgetIO :=
  mkWidgetIO (io_all_fine response_with_id) upload_io_all_fine
             (mkFinishedIO load_io_all_fine (Return 22))
             ["Installing nnunetv2"] (Return false) "None" false [].

(** The buttons as [_setApplyVisible(True)] leaves them. *)
Definition idle_buttons (w : Widget) (hasSegmentation : bool) : Widget :=
  mkWidget (logic w) (isStopping w) (_doShowErrorWindows w) (useApi w)
           true true false true true (inputSelector_currentNode w)
           (useApi w && hasSegmentation).

(** Whether the API logic holds a current segmentation. *)
Definition has_segmentation (t : WState) : bool :=
  bool_decide (is_Some (getCurrentSegmentation (self (sys t)))).

Definition is_errorDisplay (ev : event) : bool :=
  match ev with errorDisplay _ _ => true | _ => false end.

Definition is_logic_call (ev : event) : bool :=
  match ev with logic_call _ => true | _ => false end.

(** What [onProgressInfo] leaves in the trace for each of the messages. *)
Definition log_lines (str_strip : string -> string) (str_splitlines : string -> list string)
    (msgs : list string) : list event :=
  flat_map (fun msg => [insertPlainText (_formatMsg str_strip str_splitlines msg +:+ nl);
                        processEvents]) msgs.

(** Neither a dialog nor a call nor a request nor a signal. *)
Definition is_log_text (ev : event) : bool :=
  match ev with insertPlainText _ | processEvents => true | _ => false end.

(** ** More tactics *)

(** Unfolds the handlers of the widget down to the records. *)
Ltac run_a :=
  cbv beta iota zeta delta
    [bind ret raise gets modify extern try_except try_finally
     try_except_RuntimeError on_self on_world on_widget on_panel in_sys in_widget
     lift ui_event set_isStopping set_buttons_visible set_buttons_enabled
     set_logic set_useApi set_uploadButton_enabled set_applyButton_enabled
     set_settings_enabled set_install_visible set_version_label logTextEdit_clear
     _setApplyVisible _setButtonsEnabled onProgressInfo _reportError
     _reportFinished getCurrentVolumeNode logic_loadSegmentation
     Signal_call logging_error_ set_currentVolumeNode set_currentFileId
     set_currentSegmentationNode NamedTemporaryFile exportNode open_rb post
     unlink mkdir open_wb write AddNewNodeByClass loadLabelVolume RemoveNode
     GetName SetName with_fs with_scene log_event];
  cbn [wstate panel widget sys self world fs scene trace fst snd
       logic isStopping _doShowErrorWindows useApi applyButton_visible
       applyButton_enabled stopButton_visible installButton_enabled
       inputSelector_enabled inputSelector_currentNode uploadButton_enabled
       apiUrl nnUNetSettingsCollapsibleButton_enabled
       nnUNetInstallCollapsibleButton_visible currentVersionLabel_text
       logTextEdit_start _apiBaseUrl _tmpDir _currentSegmentationNode
       _currentVolumeNode _currentFileId exc_cls exc_str negb].

(** Decides what a stuck handler waits for: an outcome, an optional value, a
    class of exception, the choice of logic, a flag. *)
Ltac next_a :=
  match goal with
  | |- context [match ?o with Return _ => _ | Raise _ => _ end] =>
      destruct o eqn:?; run_a
  | |- context [match ?o with Some _ => _ | None => _ end] =>
      destruct o eqn:?; run_a
  | |- context [match ?c with RuntimeError => _ | OtherError => _ end] =>
      destruct c eqn:?; run_a
  | |- context [match ?r with localLogic => _ | apiLogic => _ end] =>
      destruct r eqn:?; run_a
  | |- context [if ?b then _ else _] =>
      destruct b eqn:?; run_a
  end.

(** ** Pre- and postconditions *)

(** From a state in [Pre], the computation ends in an outcome and a state
    that [Post] holds of. *)
Definition hoare {S A} (Pre : S -> Prop) (m : M S A) (Post : outcome A -> S -> Prop)
    : Prop :=
  forall s o s', Pre s -> m s = (o, s') -> Post o s'.

(** The guard of the widget is clear. *)
Definition guard_clear (t : WState) : Prop := isStopping (widget t) = false.

(** The widget shows the apply button and not the stop button. *)
Definition shows_apply (t : WState) : Prop :=
  applyButton_visible (widget t) = true /\ stopButton_visible (widget t) = false.

(** What one expects of a step in between: the guard stays clear. *)
Definition stays_clear {A} (o : outcome A) (t : WState) : Prop := guard_clear t.

(** What one expects of a run that closes by raising a signal: if it
    returns, the apply button is back; at any rate the guard is clear. *)
Definition back_if_returned {A} (o : outcome A) (t : WState) : Prop :=
  guard_clear t /\ match o with Return _ => shows_apply t | Raise _ => True end.

(** What one expects of a whole action: it returns, and the apply button is
    back. *)
Definition returned_idle {A} (o : outcome A) (t : WState) : Prop :=
  (exists a, o = Return a) /\ guard_clear t /\ shows_apply t.

(** * Properties *)

(** ** Strings *)

Lemma append_nil_l (s : string) : "" +:+ s = s.
Proof. reflexivity. Qed.

Lemma append_cons (c : ascii) (s t : string) :
  String c s +:+ t = String c (s +:+ t).
Proof. reflexivity. Qed.

Lemma append_nil_r (s : string) : s +:+ "" = s.
Proof.
  induction s as [|c s IH]; [reflexivity | now rewrite append_cons, IH].
Qed.

Lemma append_assoc (s t u : string) : (s +:+ t) +:+ u = s +:+ (t +:+ u).
Proof.
  induction s as [|c s IH]; [reflexivity | now rewrite !append_cons, IH].
Qed.

Lemma length_append (s t : string) :
  String.length (s +:+ t) = String.length s + String.length t.
Proof.
  induction s as [|c s IH]; [reflexivity |].
  rewrite append_cons. cbn [String.length]. now rewrite IH.
Qed.

(** Two strings with a common tail have equal heads. *)
Lemma append_cancel_r (t s1 s2 : string) : s1 +:+ t = s2 +:+ t -> s1 = s2.
Proof.
  revert s2; induction s1 as [|c s1 IH]; intros [|d s2] H.
  - reflexivity.
  - apply (f_equal String.length) in H.
    rewrite append_nil_l, append_cons in H. cbn [String.length] in H.
    rewrite length_append in H; lia.
  - apply (f_equal String.length) in H.
    rewrite append_nil_l, append_cons in H. cbn [String.length] in H.
    rewrite length_append in H; lia.
  - rewrite !append_cons in H. injection H as -> H. f_equal. now apply IH.
Qed.

Lemma endswith_nil (c : ascii) : ~ endswith "" (String c "").
Proof. intros [[|d pre] H]; discriminate H. Qed.

Lemma endswith_cons (a c : ascii) (s : string) :
  s <> "" -> endswith (String a s) (String c "") -> endswith s (String c "").
Proof.
  intros Hs [[|d pre] H]; simpl in H.
  - injection H as _ H. congruence.
  - injection H as _ H. now exists pre.
Qed.

Lemma rstrip_no_trailing (c : ascii) (s : string) :
  ~ endswith (rstrip c s) (String c "").
Proof.
  induction s as [|a s IH]; simpl.
  - apply endswith_nil.
  - destruct (rstrip c s) as [|b r] eqn:E.
    + destruct (Ascii.eqb a c) eqn:Eac.
      * apply endswith_nil.
      * intros [[|d pre] H]; simpl in H.
        -- injection H as H. subst a. now rewrite Ascii.eqb_refl in Eac.
        -- injection H as _ H. destruct pre; discriminate H.
    + intros H. apply IH. apply endswith_cons in H; [exact H | discriminate].
Qed.

Lemma rstrip_decompose (c : ascii) (s : string) :
  exists n, s = rstrip c s +:+ repeat_char c n.
Proof.
  induction s as [|a s [n IH]]; cbn [rstrip].
  - now exists 0.
  - destruct (rstrip c s) as [|b r] eqn:E.
    + rewrite append_nil_l in IH. destruct (Ascii.eqb a c) eqn:Eac.
      * apply Ascii.eqb_eq in Eac. subst a.
        exists (S n). rewrite append_nil_l. cbn [repeat_char]. now f_equal.
      * exists n. rewrite append_cons, append_nil_l. now f_equal.
    + exists n. rewrite append_cons. now f_equal.
Qed.

(** ** Endpoint URLs *)

Lemma setApiUrl_no_trailing_slash (url : string) (l : ApiSegmentationLogic) :
  ~ endswith (getApiUrl (setApiUrl url l)) "/".
Proof. apply rstrip_no_trailing. Qed.

Lemma getPredictUrl_single_slash (l : ApiSegmentationLogic) :
  ~ endswith (_apiBaseUrl l) "/" -> ~ endswith (getPredictUrl l) "//predict".
Proof.
  intros Hbase [pre H]. apply Hbase. exists pre.
  unfold getPredictUrl in H.
  change "//predict" with ("/" +:+ "/predict") in H.
  rewrite <- append_assoc in H.
  now apply append_cancel_r in H.
Qed.

Lemma getUploadUrl_single_slash (l : ApiSegmentationLogic) (file_id : option string) :
  ~ endswith (_apiBaseUrl l) "/" ->
  ~ endswith (getUploadUrl l file_id) ("//upload_correction/" +:+ fmt_opt file_id).
Proof.
  intros Hbase [pre H]. apply Hbase. exists pre.
  unfold getUploadUrl in H.
  change ("//upload_correction/" +:+ fmt_opt file_id)
    with ("/" +:+ ("/upload_correction/" +:+ fmt_opt file_id)) in H.
  rewrite <- (append_assoc pre) in H.
  now apply append_cancel_r in H.
Qed.

(** C5. For a base URL that ends in one or more slashes, [setApiUrl] stores
    it with all of them removed, so the stored base URL does not end in a
    slash; and neither [getPredictUrl] nor [getUploadUrl] (for any file id)
    then has a second slash right in front of [/predict], respectively
    [/upload_correction/<id>]. *)
Theorem setApiUrl_strips_trailing_slashes
    (url : string) (l : ApiSegmentationLogic)
    (Hslash : endswith url "/") :
  let l' := setApiUrl url l in
  (exists n, url = getApiUrl l' +:+ repeat_char "/" (S n)) /\
  ~ endswith (getApiUrl l') "/" /\
  ~ endswith (getPredictUrl l') "//predict" /\
  (forall file_id,
      ~ endswith (getUploadUrl l' file_id) ("//upload_correction/" +:+ fmt_opt file_id)).
Proof.
  intros l'.
  assert (Hno : ~ endswith (getApiUrl l') "/") by apply setApiUrl_no_trailing_slash.
  split; [| split; [exact Hno | split]].
  - destruct (rstrip_decompose "/" url) as [[|n] Hn].
    + exfalso. apply Hno. unfold l', getApiUrl, setApiUrl; cbn [_apiBaseUrl].
      cbn [repeat_char] in Hn. rewrite append_nil_r in Hn. now rewrite <- Hn.
    + exists n. exact Hn.
  - now apply getPredictUrl_single_slash.
  - intros file_id. now apply getUploadUrl_single_slash.
Qed.

Lemma setApiUrl_strips_trailing_slashes_witness :
  let l' := setApiUrl "http://host:8000///" (init ["tmp"; "qt"]) in
  endswith "http://host:8000///" "/" /\
  getApiUrl l' = "http://host:8000" /\
  ~ endswith (getPredictUrl l') "//predict".
Proof.
  split; [now exists "http://host:8000//" |].
  split; [reflexivity |].
  apply (setApiUrl_strips_trailing_slashes "http://host:8000///" (init ["tmp"; "qt"])).
  now exists "http://host:8000//".
Defined.

Lemma truthy_true (s : string) : truthy s = true <-> s <> "".
Proof.
  unfold truthy. destruct (String.eqb_spec s ""); cbn; split; congruence.
Qed.

(** ** startSegmentation without a URL *)

Lemma startSegmentation_without_url (io : PredictIO) (v : node) (s : State) :
  _apiBaseUrl (self s) = "" ->
  startSegmentation io v s =
  (Return tt,
   mkState (self s) (log_event (errorOccurred "API URL is not configured.") (world s))).
Proof.
  intros Hurl. unfold startSegmentation. run_m. rewrite Hurl. reflexivity.
Qed.

(** C2. With the empty string as base URL, [startSegmentation] returns
    without raising, whatever the volume; the only thing it does is to raise
    the error signal, once: no HTTP request is on the trace, and the logic
    (the stored file id with it) and every file are as they were. *)
Theorem startSegmentation_no_url
    (io : PredictIO) (volumeNode : node) (s : State)
    (Hurl : _apiBaseUrl (self s) = "") :
  exists s',
    startSegmentation io volumeNode s = (Return tt, s') /\
    trace (world s') = trace (world s) ++ [errorOccurred "API URL is not configured."] /\
    count is_requests_post (trace (world s')) = count is_requests_post (trace (world s)) /\
    count is_errorOccurred (trace (world s')) = S (count is_errorOccurred (trace (world s))) /\
    self s' = self s /\
    _currentFileId (self s') = _currentFileId (self s) /\
    fs (world s') = fs (world s).
Proof.
  rewrite (startSegmentation_without_url _ _ _ Hurl).
  eexists; split; [reflexivity |]. cbn [world self trace fs log_event].
  unfold count. rewrite !List.filter_app, !length_app. cbn.
  repeat split; try reflexivity; lia.
Qed.

Lemma startSegmentation_no_url_witness :
  let s := mkState (init ["tmp"; "qt"]) blank_world in
  let io := io_all_fine (mkResponse 200 "" [] ∅) in
  _apiBaseUrl (self s) = "" /\
  (exists s',
    startSegmentation io 7 s = (Return tt, s') /\
    trace (world s') = trace (world s) ++ [errorOccurred "API URL is not configured."] /\
    count is_requests_post (trace (world s')) = count is_requests_post (trace (world s)) /\
    count is_errorOccurred (trace (world s')) = S (count is_errorOccurred (trace (world s))) /\
    self s' = self s /\
    _currentFileId (self s') = _currentFileId (self s) /\
    fs (world s') = fs (world s)).
Proof.
  intros s io. split; [reflexivity |].
  exact (startSegmentation_no_url io 7 s eq_refl).
Defined.

(** ** startSegmentation with a URL *)

(** The temporary file is never the output file: its name starts with
    [tmp]. *)
Lemma temp_path_ne_out_file (t : TempName) (l : ApiSegmentationLogic) :
  temp_path_of t ".nii.gz" <> out_file l.
Proof.
  unfold temp_path_of, out_file. intros H.
  apply app_inj_tail in H as [_ H]. discriminate H.
Qed.

Lemma startSegmentation_send_ok (io : PredictIO) (v : node) (s : State) (r : Response) :
  send_io_ok io -> io_post io = Return r ->
  exists t b,
    startSegmentation_send io v s =
    (Return r,
     mkState (self s)
       (mkWorld (delete (temp_path_of t ".nii.gz")
                   (<[temp_path_of t ".nii.gz" := b]>
                      (<[temp_path_of t ".nii.gz" := []]> (fs (world s)))))
                (scene (world s))
                (trace (world s) ++
                   [progressInfo ("Sending volume to API: " +:+ getPredictUrl (self s));
                    progressInfo "Uploading volume to API...";
                    requests_post (getPredictUrl (self s))
                      (basename (temp_path_of t ".nii.gz")) b []]))).
Proof.
  intros ([t Ht] & [b Hb] & [[] Ho] & [[] Hu]) Hp.
  exists t, b.
  unfold startSegmentation_send. run_m.
  rewrite Ht, Hb. run_m. rewrite lookup_insert_eq. rewrite Ho, Hp, Hu. run_m.
  norm_trace. reflexivity.
Qed.

(** The files after a first half that went through: only the temporary file
    was touched. *)
Lemma sent_fs_other (m : gmap path bytes) (tp p : path) (b : bytes) :
  tp <> p -> delete tp (<[tp := b]> (<[tp := []]> m)) !! p = m !! p.
Proof.
  intros Hne. now rewrite lookup_delete_ne, !lookup_insert_ne.
Qed.

Lemma startSegmentation_receive_200 (io : PredictIO) (r : Response) (s : State) :
  receive_io_ok io -> status_code r = 200%Z ->
  let fileId := headers_get (headers r) "X-File-ID" in
  startSegmentation_receive io r s =
  (Return tt,
   mkState (mkLogic (_apiBaseUrl (self s)) (_tmpDir (self s))
                    (_currentSegmentationNode (self s)) (_currentVolumeNode (self s))
                    fileId)
     (mkWorld (<[out_file (self s) := content r]>
                 (<[out_file (self s) := []]> (fs (world s))))
              (scene (world s))
              (trace (world s) ++
                 (if truthy_opt fileId then []
                  else [progressInfo "Warning: No file ID received from API"]) ++
                 [progressInfo ("Segmentation received from API with ID: " +:+ fmt_opt fileId);
                  inferenceFinished]))).
Proof.
  intros ([[] Hm] & [[] Ho] & [[] Hw]) Hst fileId.
  unfold startSegmentation_receive. rewrite Hst. cbn [Z.eqb Pos.eqb negb].
  run_m. fold fileId. destruct (truthy_opt fileId); cbn [negb]; run_m;
    rewrite Hm, Ho, Hw; run_m; rewrite lookup_insert_eq; cbn [default app];
    norm_trace; reflexivity.
Qed.

Lemma startSegmentation_receive_not_200 (io : PredictIO) (r : Response) (s : State) :
  status_code r <> 200%Z ->
  startSegmentation_receive io r s =
  (Return tt,
   mkState (self s)
     (log_event (errorOccurred ("API returned error: " +:+ str_int (status_code r)
                                +:+ " - " +:+ text r)) (world s))).
Proof.
  intros Hst. unfold startSegmentation_receive.
  apply Z.eqb_neq in Hst. rewrite Hst. cbn [negb]. run_m. reflexivity.
Qed.

(** What the first half does in any environment: the logic is left alone,
    and neither the finished nor the error signal is raised. *)
Lemma startSegmentation_send_frame (io : PredictIO) (v : node) (s : State) :
  let (o, s') := startSegmentation_send io v s in
  self s' = self s /\
  exists new, trace (world s') = trace (world s) ++ new /\
              count is_inferenceFinished new = 0 /\
              count is_errorOccurred new = 0.
Proof.
  unfold startSegmentation_send. run_m.
  repeat next_outcome; (split; [reflexivity |]); norm_trace;
    eexists; (split; [reflexivity |]); split; reflexivity.
Qed.

(** What the second half does to the logic in any environment: at most the
    file id changes. *)
Lemma startSegmentation_receive_frame (io : PredictIO) (r : Response) (s : State) :
  let (o, s') := startSegmentation_receive io r s in
  _apiBaseUrl (self s') = _apiBaseUrl (self s) /\
  _tmpDir (self s') = _tmpDir (self s) /\
  _currentSegmentationNode (self s') = _currentSegmentationNode (self s) /\
  _currentVolumeNode (self s') = _currentVolumeNode (self s).
Proof.
  unfold startSegmentation_receive.
  destruct (status_code r =? 200)%Z; cbn [negb]; run_m; [| easy].
  destruct (truthy_opt _); cbn [negb]; run_m; repeat next_outcome; easy.
Qed.

Lemma startSegmentation_with_url (io : PredictIO) (v : node) (s : State) :
  _apiBaseUrl (self s) <> "" ->
  startSegmentation io v s =
  try_except (startSegmentation_try io v)
    (fun e =>
       Signal_call (errorOccurred ("Error during API communication: " +:+ exc_str e)) ;;
       logging_error_ ("API error: " +:+ exc_str e))
    (with_volume v s).
Proof.
  intros Hurl. apply truthy_true in Hurl.
  unfold startSegmentation, bind at 1, gets at 1. rewrite Hurl. reflexivity.
Qed.

Lemma count_app (p : event -> bool) (l1 l2 : list event) :
  count p (l1 ++ l2) = count p l1 + count p l2.
Proof. unfold count. now rewrite List.filter_app, length_app. Qed.

(** C1. A URL is configured, the file operations of the call come back
    without raising, and the predict request is answered with status 200, a
    header [X-File-ID: fileId] and a body.  Then [startSegmentation] returns;
    the file [output/segmentation.nii.gz] under the logic's temporary
    directory exists and holds the body; the stored file id is [fileId], and
    [getUploadUrl] of it is [{base}/upload_correction/{fileId}]; the call
    raised the finished signal exactly once and the error signal not at
    all. *)
Theorem startSegmentation_success
    (io : PredictIO) (volumeNode : node) (s : State) (response : Response)
    (fileId : string)
    (Hurl : _apiBaseUrl (self s) <> "")
    (Hsend : send_io_ok io) (Hreceive : receive_io_ok io)
    (Hpost : io_post io = Return response)
    (Hstatus : status_code response = 200%Z)
    (Hheader : headers_get (headers response) "X-File-ID" = Some fileId) :
  exists s' new,
    startSegmentation io volumeNode s = (Return tt, s') /\
    fs (world s') !! (_tmpDir (self s) ++ ["output"; "segmentation.nii.gz"])
      = Some (content response) /\
    _currentFileId (self s') = Some fileId /\
    getUploadUrl (self s') (_currentFileId (self s'))
      = _apiBaseUrl (self s) +:+ "/upload_correction/" +:+ fileId /\
    trace (world s') = trace (world s) ++ new /\
    count is_inferenceFinished new = 1 /\
    count is_errorOccurred new = 0.
Proof.
  rewrite (startSegmentation_with_url _ _ _ Hurl).
  unfold try_except, startSegmentation_try, bind.
  destruct (startSegmentation_send_ok io volumeNode (with_volume volumeNode s)
              response Hsend Hpost) as (t & b & ->).
  rewrite (startSegmentation_receive_200 _ _ _ Hreceive Hstatus), Hheader.
  do 2 eexists. split; [reflexivity |].
  cbn [self world fs trace _currentFileId _apiBaseUrl _tmpDir with_volume
       set_currentVolumeNode on_self modify snd out_file nnUNetOutDir].
  split; [| split; [reflexivity | split; [reflexivity |]]].
  - unfold out_file, nnUNetOutDir. cbn [_tmpDir].
    rewrite <- app_assoc. cbn [app]. apply lookup_insert_eq.
  - rewrite <- app_assoc. split; [reflexivity |].
    rewrite !count_app. destruct (truthy_opt (Some fileId)); split; reflexivity.
Qed.

Lemma startSegmentation_success_witness :
  let r := mkResponse 200 "" [Byte.x42] {[ "x-file-id" := "abc123" ]} in
  exists s' new,
    startSegmentation (io_all_fine r) 7 configured_state = (Return tt, s') /\
    fs (world s') !! ["tmp"; "qt"; "output"; "segmentation.nii.gz"] = Some [Byte.x42] /\
    _currentFileId (self s') = Some "abc123" /\
    getUploadUrl (self s') (_currentFileId (self s'))
      = "http://host:8000" +:+ "/upload_correction/" +:+ "abc123" /\
    trace (world s') = [] ++ new /\
    count is_inferenceFinished new = 1 /\
    count is_errorOccurred new = 0.
Proof.
  intros r.
  apply (startSegmentation_success (io_all_fine r) 7 configured_state r "abc123").
  - discriminate.
  - repeat split; eexists; reflexivity.
  - repeat split; eexists; reflexivity.
  - reflexivity.
  - reflexivity.
  - reflexivity.
Defined.

Lemma contains_intro (pre sub post : string) : contains (pre +:+ sub +:+ post) sub.
Proof. now exists pre, post. Qed.

(** C3. A URL is configured, the file operations of the first half come back
    without raising, and the predict request is answered with a status
    outside 200..299.  Then [startSegmentation] returns; it raised the error
    signal exactly once, with a message that contains the status code and the
    body text; it did not raise the finished signal; it sent one request and
    no second one; and [output/segmentation.nii.gz] is as it was: absent if
    it was absent, with its old contents otherwise. *)
Theorem startSegmentation_error_status
    (io : PredictIO) (volumeNode : node) (s : State) (response : Response)
    (Hurl : _apiBaseUrl (self s) <> "")
    (Hsend : send_io_ok io)
    (Hpost : io_post io = Return response)
    (Hstatus : ~ (200 <= status_code response < 300)%Z) :
  exists s' new msg,
    startSegmentation io volumeNode s = (Return tt, s') /\
    trace (world s') = trace (world s) ++ new /\
    List.filter is_errorOccurred new = [errorOccurred msg] /\
    contains msg (str_int (status_code response)) /\
    contains msg (text response) /\
    count is_inferenceFinished new = 0 /\
    count is_requests_post new = 1 /\
    fs (world s') !! (_tmpDir (self s) ++ ["output"; "segmentation.nii.gz"])
      = fs (world s) !! (_tmpDir (self s) ++ ["output"; "segmentation.nii.gz"]).
Proof.
  rewrite (startSegmentation_with_url _ _ _ Hurl).
  unfold try_except, startSegmentation_try, bind.
  destruct (startSegmentation_send_ok io volumeNode (with_volume volumeNode s)
              response Hsend Hpost) as (t & b & ->).
  rewrite startSegmentation_receive_not_200 by lia.
  do 3 eexists. split; [reflexivity |].
  cbn [self world fs trace log_event with_volume set_currentVolumeNode on_self
       modify snd _tmpDir].
  split; [norm_trace; reflexivity |].
  split; [reflexivity |].
  split; [apply (contains_intro "API returned error: ") |].
  split; [exists ("API returned error: " +:+ str_int (status_code response) +:+ " - "), "";
          now rewrite append_nil_r, !append_assoc |].
  split; [reflexivity |]. split; [reflexivity |].
  apply sent_fs_other.
  replace (_tmpDir (self s) ++ ["output"; "segmentation.nii.gz"])
    with (out_file (self s)).
  - apply temp_path_ne_out_file.
  - unfold out_file, nnUNetOutDir. now rewrite <- app_assoc.
Qed.

Lemma startSegmentation_error_status_witness :
  let r := mkResponse 500 "boom" [] ∅ in
  exists s' new msg,
    startSegmentation (io_all_fine r) 7 configured_state = (Return tt, s') /\
    trace (world s') = [] ++ new /\
    List.filter is_errorOccurred new = [errorOccurred msg] /\
    contains msg (str_int 500) /\
    contains msg "boom" /\
    count is_inferenceFinished new = 0 /\
    count is_requests_post new = 1 /\
    fs (world s') !! ["tmp"; "qt"; "output"; "segmentation.nii.gz"]
      = (∅ : gmap path bytes) !! ["tmp"; "qt"; "output"; "segmentation.nii.gz"].
Proof.
  intros r.
  apply (startSegmentation_error_status (io_all_fine r) 7 configured_state r).
  - discriminate.
  - repeat split; eexists; reflexivity.
  - reflexivity.
  - cbn. lia.
Defined.

(** The message of that run, spelled out. *)
Example startSegmentation_500_boom :
  let r := mkResponse 500 "boom" [] ∅ in
  trace (world (snd (startSegmentation (io_all_fine r) 7 configured_state)))
  = [progressInfo "Sending volume to API: http://host:8000/predict";
     progressInfo "Uploading volume to API...";
     requests_post "http://host:8000/predict" "tmpk3j2.nii.gz" [Byte.x1f; Byte.x8b] [];
     errorOccurred "API returned error: 500 - boom"].
Proof. vm_compute. reflexivity. Qed.

(** [startSegmentation] returns in every environment. *)
Lemma startSegmentation_returns (io : PredictIO) (v : node) (s : State) :
  fst (startSegmentation io v s) = Return tt.
Proof.
  destruct (String.eqb_spec (_apiBaseUrl (self s)) "") as [Hurl | Hurl].
  - now rewrite (startSegmentation_without_url _ _ _ Hurl).
  - rewrite (startSegmentation_with_url _ _ _ Hurl). unfold try_except.
    destruct (startSegmentation_try io v (with_volume v s)) as [[[] | e] s1];
      reflexivity.
Qed.

(** A [try] block that ends by raising has raised neither the finished nor
    the error signal. *)
Lemma startSegmentation_try_raise_quiet (io : PredictIO) (v : node) (s : State) :
  let (o, s1) := startSegmentation_try io v s in
  match o with
  | Return _ => True
  | Raise _ =>
      exists new, trace (world s1) = trace (world s) ++ new /\
                  count is_inferenceFinished new = 0 /\
                  count is_errorOccurred new = 0
  end.
Proof.
  unfold startSegmentation_try, bind.
  pose proof (startSegmentation_send_frame io v s) as Hsend.
  destruct (startSegmentation_send io v s) as [[r | e] s0];
    destruct Hsend as (_ & new0 & Htr0 & Hfin0 & Herr0).
  - unfold startSegmentation_receive.
    destruct (status_code r =? 200)%Z; cbn [negb]; run_m; [| exact I].
    destruct (truthy_opt _); cbn [negb]; run_m; repeat next_outcome; try exact I;
      rewrite Htr0; norm_trace; eexists; (split; [reflexivity |]);
      rewrite ?count_app, Hfin0, Herr0; split; reflexivity.
  - now exists new0.
Qed.

(** C6. Whatever exception [e] the [try] block of [startSegmentation] ends
    with (it holds the serialization of the volume, the HTTP request, the
    removal of the temporary file and the writing of the output file), the
    call itself returns: the exception goes no further.  It is reported: to
    the state the block left behind, the call adds one error signal, whose
    message carries [str(e)], and one log record; that error signal is the
    only one of the call, and the finished signal is not raised.  And for
    every volume, in every state and environment, the call ends by
    returning, not by raising. *)
Theorem startSegmentation_catches
    (io : PredictIO) (volumeNode : node) (s s1 : State) (e : exception)
    (Hurl : _apiBaseUrl (self s) <> "")
    (Hraise : startSegmentation_try io volumeNode (with_volume volumeNode s)
              = (Raise e, s1)) :
  (exists s' new,
      startSegmentation io volumeNode s = (Return tt, s') /\
      self s' = self s1 /\
      fs (world s') = fs (world s1) /\
      trace (world s')
        = trace (world s1) ++
          [errorOccurred ("Error during API communication: " +:+ exc_str e);
           logging_error ("API error: " +:+ exc_str e)] /\
      trace (world s') = trace (world s) ++ new /\
      List.filter is_errorOccurred new
        = [errorOccurred ("Error during API communication: " +:+ exc_str e)] /\
      count is_inferenceFinished new = 0) /\
  (forall (io' : PredictIO) (volumeNode' : node) (s' : State),
      fst (startSegmentation io' volumeNode' s') = Return tt).
Proof.
  split; [| apply startSegmentation_returns].
  rewrite (startSegmentation_with_url _ _ _ Hurl). unfold try_except.
  pose proof (startSegmentation_try_raise_quiet io volumeNode
                (with_volume volumeNode s)) as Hquiet.
  rewrite Hraise in Hquiet. destruct Hquiet as (new & Htr & Hfin & Herr).
  rewrite Hraise. run_m. norm_trace.
  do 2 eexists. split; [reflexivity |]. cbn [self world fs trace].
  split; [reflexivity |]. split; [reflexivity |]. split; [reflexivity |].
  rewrite Htr. cbn [with_volume set_currentVolumeNode on_self modify snd world trace].
  rewrite <- app_assoc. split; [reflexivity |].
  unfold count in *. rewrite !List.filter_app, length_app. cbn.
  apply length_zero_iff_nil in Herr. rewrite Herr, Hfin. now split.
Qed.

(** The four places the block can fail at, in the order of the code. *)
Lemma startSegmentation_try_export_raises (io : PredictIO) (v : node) (s : State)
    (e : exception) :
  returned (io_tempfile io) -> io_exportNode io = Raise e ->
  fst (startSegmentation_try io v s) = Raise e.
Proof.
  intros [t Ht] He. unfold startSegmentation_try, startSegmentation_send.
  run_m. rewrite Ht. run_m. rewrite He. reflexivity.
Qed.

Lemma startSegmentation_try_post_raises (io : PredictIO) (v : node) (s : State)
    (e : exception) :
  returned (io_tempfile io) -> returned (io_exportNode io) ->
  returned (io_open io) -> io_post io = Raise e ->
  fst (startSegmentation_try io v s) = Raise e.
Proof.
  intros [t Ht] [b Hb] [[] Ho] He.
  unfold startSegmentation_try, startSegmentation_send.
  run_m. rewrite Ht. run_m. rewrite Hb. run_m. rewrite lookup_insert_eq.
  rewrite Ho. run_m. rewrite He. reflexivity.
Qed.

Lemma startSegmentation_try_unlink_raises (io : PredictIO) (v : node) (s : State)
    (e : exception) :
  returned (io_tempfile io) -> returned (io_exportNode io) ->
  returned (io_open io) -> returned (io_post io) -> io_unlink io = Raise e ->
  fst (startSegmentation_try io v s) = Raise e.
Proof.
  intros [t Ht] [b Hb] [[] Ho] [r Hr] He.
  unfold startSegmentation_try, startSegmentation_send.
  run_m. rewrite Ht. run_m. rewrite Hb. run_m. rewrite lookup_insert_eq.
  rewrite Ho. run_m. rewrite Hr. run_m. rewrite He. reflexivity.
Qed.

Lemma startSegmentation_try_write_raises (io : PredictIO) (v : node) (s : State)
    (r : Response) (e : exception) :
  send_io_ok io -> io_post io = Return r -> status_code r = 200%Z ->
  returned (io_mkdir io) -> returned (io_open_wb io) -> io_write io = Raise e ->
  fst (startSegmentation_try io v s) = Raise e.
Proof.
  intros Hsend Hpost Hst [[] Hm] [[] Ho] He.
  unfold startSegmentation_try, bind.
  destruct (startSegmentation_send_ok io v s r Hsend Hpost) as (t & b & ->).
  unfold startSegmentation_receive. rewrite Hst. cbn [Z.eqb Pos.eqb negb]. run_m.
  destruct (truthy_opt _); cbn [negb]; run_m; rewrite Hm, Ho; run_m;
    rewrite He; reflexivity.
Qed.

Lemma startSegmentation_catches_witness :
  let e := Exc OtherError "Connection refused" in
  let io := io_post_raises e in
  let s1 := snd (startSegmentation_try io 7 (with_volume 7 configured_state)) in
  startSegmentation_try io 7 (with_volume 7 configured_state) = (Raise e, s1) /\
  (exists s' new,
      startSegmentation io 7 configured_state = (Return tt, s') /\
      self s' = self s1 /\
      fs (world s') = fs (world s1) /\
      trace (world s')
        = trace (world s1) ++
          [errorOccurred "Error during API communication: Connection refused";
           logging_error "API error: Connection refused"] /\
      trace (world s') = [] ++ new /\
      List.filter is_errorOccurred new
        = [errorOccurred "Error during API communication: Connection refused"] /\
      count is_inferenceFinished new = 0).
Proof.
  intros e io s1. split; [vm_compute; reflexivity |].
  apply (startSegmentation_catches io 7 configured_state s1 e).
  - discriminate.
  - vm_compute. reflexivity.
Defined.

(** That run, spelled out. *)
Example startSegmentation_connection_refused :
  let r := startSegmentation (io_post_raises (Exc OtherError "Connection refused"))
             7 configured_state in
  fst r = Return tt /\
  trace (world (snd r))
  = [progressInfo "Sending volume to API: http://host:8000/predict";
     progressInfo "Uploading volume to API...";
     requests_post "http://host:8000/predict" "tmpk3j2.nii.gz" [Byte.x1f; Byte.x8b] [];
     errorOccurred "Error during API communication: Connection refused";
     logging_error "API error: Connection refused"].
Proof. vm_compute. split; reflexivity. Qed.

Lemma uploadSegmentation_no_url (io : UploadIO) (seg : node) (s : State) :
  _apiBaseUrl (self s) = "" ->
  uploadSegmentation io seg s =
  (Return false,
   mkState (self s) (log_event (errorOccurred "API URL is not configured.") (world s))).
Proof.
  intros Hurl. unfold uploadSegmentation. run_m. rewrite Hurl. reflexivity.
Qed.

Lemma uploadSegmentation_no_fileId (io : UploadIO) (seg : node) (s : State) :
  _apiBaseUrl (self s) <> "" ->
  truthy_opt (_currentFileId (self s)) = false ->
  uploadSegmentation io seg s =
  (Return false,
   mkState (self s)
     (log_event (errorOccurred "No file ID available. Please run inference first.")
        (world s))).
Proof.
  intros Hurl Hid. apply truthy_true in Hurl.
  unfold uploadSegmentation. run_m. rewrite Hurl. cbn [negb]. run_m.
  rewrite Hid. reflexivity.
Qed.

(** In any environment [uploadSegmentation] leaves the logic alone, and a
    request it sends goes to the upload URL of the stored file id. *)
Lemma uploadSegmentation_frame (io : UploadIO) (seg : node) (s : State) :
  let (o, s') := uploadSegmentation io seg s in
  self s' = self s /\
  exists new, trace (world s') = trace (world s) ++ new /\
              Forall (fun url => url = getUploadUrl (self s) (_currentFileId (self s)))
                     (post_urls new).
Proof.
  unfold uploadSegmentation. run_m.
  destruct (truthy (_apiBaseUrl (self s))); cbn [negb]; run_m.
  2: { split; [reflexivity |]. eexists. split; [reflexivity |]. constructor. }
  destruct (truthy_opt (_currentFileId (self s))); cbn [negb]; run_m.
  2: { split; [reflexivity |]. eexists. split; [reflexivity |]. constructor. }
  repeat (first [ next_outcome
                  | match goal with
                    | |- context [(status_code ?r =? 200)%Z] =>
                        destruct (status_code r =? 200)%Z; cbn [negb]; run_m
                    end ]);
    (split; [reflexivity |]); norm_trace;
    eexists; (split; [reflexivity |]);
    cbn [post_urls omap list_omap post_url]; repeat constructor.
Qed.

(** C4. When no file id is stored (none since construction, or an empty
    one), or when the base URL is empty, [uploadSegmentation] returns
    [False] for every segmentation; all it does is to raise the error signal
    once: no HTTP request is sent, and logic and files are as they were. *)
Theorem uploadSegmentation_fails_fast
    (io : UploadIO) (segmentationNode : node) (s : State)
    (Hmissing : truthy_opt (_currentFileId (self s)) = false \/
                _apiBaseUrl (self s) = "") :
  exists s' msg,
    uploadSegmentation io segmentationNode s = (Return false, s') /\
    trace (world s') = trace (world s) ++ [errorOccurred msg] /\
    post_urls (trace (world s')) = post_urls (trace (world s)) /\
    self s' = self s /\
    fs (world s') = fs (world s).
Proof.
  assert (Hposts : forall msg,
             post_urls (trace (world s) ++ [errorOccurred msg])
             = post_urls (trace (world s))).
  { intros msg. unfold post_urls. rewrite omap_app. cbn. apply app_nil_r. }
  destruct (String.eqb_spec (_apiBaseUrl (self s)) "") as [Hurl | Hurl].
  - rewrite (uploadSegmentation_no_url _ _ _ Hurl).
    do 2 eexists. split; [reflexivity |]. cbn [self world trace fs log_event].
    split; [reflexivity |]. split; [apply Hposts |]. split; reflexivity.
  - destruct Hmissing as [Hid | Hempty]; [| contradiction].
    rewrite (uploadSegmentation_no_fileId _ _ _ Hurl Hid).
    do 2 eexists. split; [reflexivity |]. cbn [self world trace fs log_event].
    split; [reflexivity |]. split; [apply Hposts |]. split; reflexivity.
Qed.

Lemma uploadSegmentation_fails_fast_witness :
  exists s' msg,
    uploadSegmentation upload_io_all_fine 9 configured_state = (Return false, s') /\
    trace (world s') = trace (world configured_state) ++ [errorOccurred msg] /\
    post_urls (trace (world s')) = post_urls (trace (world configured_state)) /\
    self s' = self configured_state /\
    fs (world s') = fs (world configured_state).
Proof.
  apply (uploadSegmentation_fails_fast upload_io_all_fine 9 configured_state).
  left. reflexivity.
Defined.

(** C8. A URL is configured, the file operations of the call come back
    without raising, and the predict request is answered with status 200 and
    without an [X-File-ID] header.  Then [startSegmentation] returns, having
    written the body to [output/segmentation.nii.gz] and raised the finished
    signal once and the error signal not at all; of the missing header there
    is only the progress message.  No file id is stored, and as long as that
    is so and the URL is configured, in whatever world and for whatever the
    other attributes of the logic have become, [uploadSegmentation] returns
    [False], raises the error signal with the no-file-id message, and
    leaves the logic as it is. *)
Theorem startSegmentation_without_file_id
    (io : PredictIO) (volumeNode : node) (s : State) (response : Response)
    (Hurl : _apiBaseUrl (self s) <> "")
    (Hsend : send_io_ok io) (Hreceive : receive_io_ok io)
    (Hpost : io_post io = Return response)
    (Hstatus : status_code response = 200%Z)
    (Hheader : headers_get (headers response) "X-File-ID" = None) :
  exists s' new,
    startSegmentation io volumeNode s = (Return tt, s') /\
    fs (world s') !! (_tmpDir (self s) ++ ["output"; "segmentation.nii.gz"])
      = Some (content response) /\
    trace (world s') = trace (world s) ++ new /\
    count is_inferenceFinished new = 1 /\
    count is_errorOccurred new = 0 /\
    In (progressInfo "Warning: No file ID received from API") new /\
    _currentFileId (self s') = None /\
    forall (uio : UploadIO) (segmentationNode : node) (l : ApiSegmentationLogic)
           (w : World),
      _currentFileId l = _currentFileId (self s') -> _apiBaseUrl l <> "" ->
      uploadSegmentation uio segmentationNode (mkState l w) =
      (Return false,
       mkState l
         (log_event (errorOccurred "No file ID available. Please run inference first.") w)).
Proof.
  rewrite (startSegmentation_with_url _ _ _ Hurl).
  unfold try_except, startSegmentation_try, bind.
  destruct (startSegmentation_send_ok io volumeNode (with_volume volumeNode s)
              response Hsend Hpost) as (t & b & ->).
  rewrite (startSegmentation_receive_200 _ _ _ Hreceive Hstatus), Hheader.
  do 2 eexists. split; [reflexivity |].
  cbn [self world fs trace _currentFileId _apiBaseUrl _tmpDir with_volume
       set_currentVolumeNode on_self modify snd truthy_opt].
  split; [| split; [rewrite <- app_assoc; reflexivity |]].
  - unfold out_file, nnUNetOutDir. cbn [_tmpDir].
    rewrite <- app_assoc. cbn [app]. apply lookup_insert_eq.
  - split; [reflexivity |]. split; [reflexivity |].
    split; [cbn; tauto |]. split; [reflexivity |].
    intros uio seg l w Hid Hl. apply uploadSegmentation_no_fileId; [exact Hl |].
    cbn [self]. now rewrite Hid.
Qed.

Lemma startSegmentation_without_file_id_witness :
  let r := mkResponse 200 "" [Byte.x42] {[ "content-type" := "application/gzip" ]} in
  exists s' new,
    startSegmentation (io_all_fine r) 7 configured_state = (Return tt, s') /\
    fs (world s') !! ["tmp"; "qt"; "output"; "segmentation.nii.gz"] = Some [Byte.x42] /\
    trace (world s') = [] ++ new /\
    count is_inferenceFinished new = 1 /\
    count is_errorOccurred new = 0 /\
    In (progressInfo "Warning: No file ID received from API") new /\
    _currentFileId (self s') = None /\
    forall (uio : UploadIO) (segmentationNode : node) (l : ApiSegmentationLogic)
           (w : World),
      _currentFileId l = _currentFileId (self s') -> _apiBaseUrl l <> "" ->
      uploadSegmentation uio segmentationNode (mkState l w) =
      (Return false,
       mkState l
         (log_event (errorOccurred "No file ID available. Please run inference first.") w)).
Proof.
  intros r.
  apply (startSegmentation_without_file_id (io_all_fine r) 7 configured_state r).
  - discriminate.
  - repeat split; eexists; reflexivity.
  - repeat split; eexists; reflexivity.
  - reflexivity.
  - reflexivity.
  - reflexivity.
Defined.

(** With a URL configured the volume is stored, in every environment. *)
Lemma startSegmentation_stores_volume (io : PredictIO) (v : node) (s : State) :
  _apiBaseUrl (self s) <> "" ->
  _currentVolumeNode (self (snd (startSegmentation io v s))) = Some v.
Proof.
  intros Hurl. rewrite (startSegmentation_with_url _ _ _ Hurl).
  unfold try_except, startSegmentation_try, bind.
  pose proof (startSegmentation_send_frame io v (with_volume v s)) as Hsend.
  destruct (startSegmentation_send io v (with_volume v s)) as [[r | e] s1].
  - destruct Hsend as [Hself _].
    pose proof (startSegmentation_receive_frame io r s1) as Hrec.
    destruct (startSegmentation_receive io r s1) as [[[] | e] s2];
      destruct Hrec as (_ & _ & _ & Hvol); run_m; now rewrite Hvol, Hself.
  - destruct Hsend as [Hself _]. run_m. now rewrite Hself.
Qed.

(** C10. A URL is configured and the call fails early: the first half of the
    [try] block raises, or the response has a status outside 200..299.  Then
    the stored file id is the one from before the call, and so is the base
    URL: [getUploadUrl] of the stored id gives what it gave before, and a
    request that a later [uploadSegmentation] sends, as long as file id and
    base URL are still those, goes to that URL.  The stored volume is the new
    one; that much holds in every environment, also in those where no
    request is ever sent. *)
Theorem startSegmentation_failure_keeps_job
    (io : PredictIO) (volumeNode : node) (s : State)
    (Hurl : _apiBaseUrl (self s) <> "")
    (Hfail : fails_early io volumeNode (with_volume volumeNode s)) :
  exists s',
    startSegmentation io volumeNode s = (Return tt, s') /\
    _currentFileId (self s') = _currentFileId (self s) /\
    getUploadUrl (self s') (_currentFileId (self s'))
      = getUploadUrl (self s) (_currentFileId (self s)) /\
    _apiBaseUrl (self s') = _apiBaseUrl (self s) /\
    (forall (uio : UploadIO) (segmentationNode : node) (l : ApiSegmentationLogic)
            (w : World),
        _currentFileId l = _currentFileId (self s') ->
        _apiBaseUrl l = _apiBaseUrl (self s') ->
        exists new,
          trace (world (snd (uploadSegmentation uio segmentationNode (mkState l w))))
            = trace w ++ new /\
          Forall (fun url => url = getUploadUrl (self s) (_currentFileId (self s)))
                 (post_urls new)) /\
    _currentVolumeNode (self s') = Some volumeNode /\
    (forall io' : PredictIO,
        _currentVolumeNode (self (snd (startSegmentation io' volumeNode s)))
        = Some volumeNode).
Proof.
  assert (Hkeep : exists s',
             startSegmentation io volumeNode s = (Return tt, s') /\
             _currentFileId (self s') = _currentFileId (self s) /\
             _apiBaseUrl (self s') = _apiBaseUrl (self s)).
  { rewrite (startSegmentation_with_url _ _ _ Hurl).
    unfold try_except, startSegmentation_try, bind. unfold fails_early in Hfail.
    pose proof (startSegmentation_send_frame io volumeNode (with_volume volumeNode s))
      as Hsend.
    destruct (startSegmentation_send io volumeNode (with_volume volumeNode s))
      as [[r | e] s1]; destruct Hsend as [Hself _].
    - rewrite startSegmentation_receive_not_200 by lia.
      eexists. split; [reflexivity |]. cbn [self]. now rewrite Hself.
    - run_m. eexists. split; [reflexivity |]. cbn [self]. now rewrite Hself. }
  destruct Hkeep as (s' & Hrun & Hid & Hbase).
  exists s'. split; [exact Hrun |]. split; [exact Hid |].
  assert (Hsame : getUploadUrl (self s') (_currentFileId (self s'))
                  = getUploadUrl (self s) (_currentFileId (self s))).
  { unfold getUploadUrl. now rewrite Hid, Hbase. }
  split; [exact Hsame |]. split; [exact Hbase |]. split; [| split].
  - intros uio seg l w Hl Hu.
    pose proof (uploadSegmentation_frame uio seg (mkState l w)) as Hup.
    destruct (uploadSegmentation uio seg (mkState l w)) as [o s2].
    destruct Hup as (_ & new & Htr & Hposts). exists new.
    cbn [self world snd] in *. split; [exact Htr |].
    replace (getUploadUrl l (_currentFileId l))
      with (getUploadUrl (self s) (_currentFileId (self s))) in Hposts; [exact Hposts |].
    unfold getUploadUrl. now rewrite Hl, Hu, Hid, Hbase.
  - pose proof (startSegmentation_stores_volume io volumeNode s Hurl) as Hvol.
    now rewrite Hrun in Hvol.
  - intros io'. now apply startSegmentation_stores_volume.
Qed.

Lemma startSegmentation_failure_keeps_job_witness :
  let io := io_all_fine (mkResponse 503 "busy" [] {[ "x-file-id" := "zzz999" ]}) in
  exists s',
    startSegmentation io 7 state_with_job = (Return tt, s') /\
    _currentFileId (self s') = Some "abc123" /\
    getUploadUrl (self s') (_currentFileId (self s'))
      = "http://host:8000/upload_correction/abc123" /\
    _apiBaseUrl (self s') = "http://host:8000" /\
    (forall (uio : UploadIO) (segmentationNode : node) (l : ApiSegmentationLogic)
            (w : World),
        _currentFileId l = _currentFileId (self s') ->
        _apiBaseUrl l = _apiBaseUrl (self s') ->
        exists new,
          trace (world (snd (uploadSegmentation uio segmentationNode (mkState l w))))
            = trace w ++ new /\
          Forall (fun url => url = "http://host:8000/upload_correction/abc123")
                 (post_urls new)) /\
    _currentVolumeNode (self s') = Some 7 /\
    (forall io' : PredictIO,
        _currentVolumeNode (self (snd (startSegmentation io' 7 state_with_job)))
        = Some 7).
Proof.
  intros io.
  apply (startSegmentation_failure_keeps_job io 7 state_with_job).
  - discriminate.
  - vm_compute. intros [_ H]. discriminate H.
Defined.

(** ** loadSegmentation *)

Lemma loadSegmentation_try_missing_file (io : LoadIO) (s : State) :
  fs (world s) !! out_file (self s) = None ->
  loadSegmentation_try io s =
  (Raise (Exc RuntimeError "Segmentation file not found. API segmentation may have failed."), s).
Proof.
  intros Hmissing. unfold loadSegmentation_try. run_m.
  unfold out_file in Hmissing. rewrite Hmissing. reflexivity.
Qed.

(** Whatever the [try] block ends with is what the method ends with, except
    that an exception comes out wrapped. *)
Lemma loadSegmentation_wraps (io : LoadIO) (s : State) :
  loadSegmentation io s =
  match loadSegmentation_try io s with
  | (Return n, s1) => (Return n, s1)
  | (Raise e, s1) =>
      (Raise (Exc RuntimeError ("Failed to load segmentation: " +:+ exc_str e)), s1)
  end.
Proof.
  unfold loadSegmentation, try_except.
  destruct (loadSegmentation_try io s) as [[n | e] s1]; reflexivity.
Qed.

(** C7. When [output/segmentation.nii.gz] does not exist, as before the
    first successful predict call, [loadSegmentation] raises a
    [RuntimeError] instead of returning, and the message says that the
    segmentation file was not found.  Any other exception [e] the [try]
    block ends with, in whatever state and environment, comes out as a
    [RuntimeError] whose message ends with [str(e)]. *)
Theorem loadSegmentation_raises
    (io : LoadIO) (s : State)
    (Hmissing : fs (world s) !! (_tmpDir (self s) ++ ["output"; "segmentation.nii.gz"])
                = None) :
  (exists msg,
      loadSegmentation io s = (Raise (Exc RuntimeError msg), s) /\
      contains msg "Segmentation file not found") /\
  (forall (io' : LoadIO) (s' s1 : State) (e : exception),
      loadSegmentation_try io' s' = (Raise e, s1) ->
      loadSegmentation io' s' =
      (Raise (Exc RuntimeError ("Failed to load segmentation: " +:+ exc_str e)), s1)).
Proof.
  split.
  - eexists. split.
    + rewrite loadSegmentation_wraps, loadSegmentation_try_missing_file; [reflexivity |].
      unfold out_file, nnUNetOutDir. now rewrite <- app_assoc.
    + now exists "Failed to load segmentation: ", ". API segmentation may have failed.".
  - intros io' s' s1 e Hraise. now rewrite loadSegmentation_wraps, Hraise.
Qed.

Lemma loadSegmentation_raises_witness :
  fs (world configured_state) !! (["tmp"; "qt"] ++ ["output"; "segmentation.nii.gz"])
    = None /\
  (exists msg,
      loadSegmentation load_io_all_fine configured_state
        = (Raise (Exc RuntimeError msg), configured_state) /\
      contains msg "Segmentation file not found") /\
  (forall (io' : LoadIO) (s' s1 : State) (e : exception),
      loadSegmentation_try io' s' = (Raise e, s1) ->
      loadSegmentation io' s' =
      (Raise (Exc RuntimeError ("Failed to load segmentation: " +:+ exc_str e)), s1)).
Proof.
  split; [reflexivity |].
  exact (loadSegmentation_raises load_io_all_fine configured_state eq_refl).
Defined.

(** The exception of that call, spelled out. *)
Example loadSegmentation_before_predict :
  loadSegmentation load_io_all_fine configured_state =
  (Raise (Exc RuntimeError
     "Failed to load segmentation: Segmentation file not found. API segmentation may have failed."),
   configured_state).
Proof. reflexivity. Qed.

(** Two of the other causes: the host cannot read the file, and no volume
    was ever stored. *)
Lemma loadSegmentation_host_failure (io : LoadIO) (s : State) (b : bytes) (e : exception) :
  fs (world s) !! out_file (self s) = Some b ->
  ld_loadLabelVolume io = Raise e ->
  loadSegmentation io s =
  (Raise (Exc RuntimeError ("Failed to load segmentation: " +:+ exc_str e)), s).
Proof.
  intros Hfile He. rewrite loadSegmentation_wraps.
  unfold loadSegmentation_try. run_m.
  unfold out_file in Hfile. rewrite Hfile, He. reflexivity.
Qed.

Lemma loadSegmentation_no_volume (io : LoadIO) (s : State) (b : bytes) :
  fs (world s) !! out_file (self s) = Some b ->
  returned (ld_loadLabelVolume io) -> returned (ld_AddNewNode io) ->
  _currentVolumeNode (self s) = None ->
  fst (loadSegmentation io s) =
  Raise (Exc RuntimeError
    "Failed to load segmentation: 'NoneType' object has no attribute 'GetName'").
Proof.
  intros Hfile [n1 H1] [n2 H2] Hvol. rewrite loadSegmentation_wraps.
  unfold loadSegmentation_try. run_m.
  unfold out_file in Hfile. rewrite Hfile, H1. run_m. rewrite H2. run_m.
  rewrite bool_decide_eq_true_2 by eauto. cbn [negb]. run_m.
  rewrite Hvol. reflexivity.
Qed.

(** The file id and the base URL are out of reach of [loadSegmentation], in
    any environment. *)
Lemma loadSegmentation_frame (io : LoadIO) (s : State) :
  let (o, s') := loadSegmentation io s in
  _currentFileId (self s') = _currentFileId (self s) /\
  _apiBaseUrl (self s') = _apiBaseUrl (self s).
Proof.
  rewrite loadSegmentation_wraps.
  assert (Htry : let (o, s') := loadSegmentation_try io s in
                 _currentFileId (self s') = _currentFileId (self s) /\
                 _apiBaseUrl (self s') = _apiBaseUrl (self s)).
  { unfold loadSegmentation_try. run_m.
    destruct (bool_decide _); cbn [negb]; run_m; [| easy].
    repeat next_outcome; easy. }
  destruct (loadSegmentation_try io s) as [[n | e] s1]; exact Htry.
Qed.

Lemma setApiUrl_frame (apiUrl : string) (l : ApiSegmentationLogic) :
  _currentFileId (setApiUrl apiUrl l) = _currentFileId l.
Proof. reflexivity. Qed.

(** And a run that goes through. *)
Example loadSegmentation_after_success :
  let s := snd (startSegmentation
                  (io_all_fine (mkResponse 200 "" [Byte.x42] {[ "x-file-id" := "abc123" ]}))
                  7 (mkState (self configured_state) (mkWorld ∅ {[ 7 := "CT" ]} []))) in
  let r := loadSegmentation load_io_all_fine s in
  fst r = Return 22 /\
  _currentSegmentationNode (self (snd r)) = Some 22 /\
  scene (world (snd r)) !! 22 = Some "CT_ApiSegmentation".
Proof. vm_compute. repeat split; reflexivity. Qed.

(** ** The stop guard of the widget *)

Section StopGuard.

Variable str_strip : string -> string.
Variable str_splitlines : string -> list string.

Lemma suppressed_refl (t : WState) :
  isStopping (widget t) = true -> suppressed t t.
Proof.
  intros H. split; [exact H |]. split; [reflexivity |].
  exists []. now rewrite app_nil_r.
Qed.

Lemma suppressed_trans (t1 t2 t3 : WState) :
  suppressed t1 t2 -> suppressed t2 t3 -> suppressed t1 t3.
Proof.
  intros (_ & Hl1 & n1 & Ht1 & Hc1 & Hd1) (Hs & Hl2 & n2 & Ht2 & Hc2 & Hd2).
  split; [exact Hs |]. split; [congruence |].
  exists (n1 ++ n2). rewrite Ht2, Ht1, <- app_assoc, !count_app.
  split; [reflexivity |]. lia.
Qed.

Lemma onInferenceFinished_guarded (io : FinishedIO) (t : WState) :
  isStopping (widget t) = true ->
  exists t',
    onInferenceFinished str_strip str_splitlines io t = (Return tt, t') /\
    sys t' = sys t /\
    isStopping (widget t') = true /\
    logic (widget t') = logic (widget t) /\
    applyButton_visible (widget t') = true /\
    stopButton_visible (widget t') = false.
Proof.
  intros Hstop. unfold onInferenceFinished. run_w. rewrite Hstop.
  eexists. split; [reflexivity |]. run_w. now rewrite Hstop.
Qed.

Lemma dispatch_guarded (d : delivery) (t : WState) :
  isStopping (widget t) = true ->
  exists t', dispatch str_strip str_splitlines d t = (Return tt, t') /\ suppressed t t'.
Proof.
  intros Hstop. destruct d as [io | errorMsg | infoMsg]; cbn [dispatch].
  - destruct (onInferenceFinished_guarded io t Hstop)
      as (t' & Hrun & Hsys & Hs & Hl & _).
    exists t'. split; [exact Hrun |]. split; [exact Hs |]. split; [exact Hl |].
    exists []. rewrite Hsys, app_nil_r. now split.
  - unfold onInferenceError. run_w. rewrite Hstop.
    eexists. split; [reflexivity |]. now apply suppressed_refl.
  - run_w. eexists. split; [reflexivity |].
    split; [exact Hstop |]. split; [reflexivity |]. run_w.
    rewrite <- app_assoc. eexists. split; [reflexivity |]. now split.
Qed.

Lemma dispatch_all_guarded (ds : list delivery) (t : WState) :
  isStopping (widget t) = true ->
  exists t', dispatch_all str_strip str_splitlines ds t = (Return tt, t') /\
             suppressed t t'.
Proof.
  revert t. induction ds as [| d ds IH]; intros t Hstop; cbn [dispatch_all].
  - exists t. split; [reflexivity | now apply suppressed_refl].
  - destruct (dispatch_guarded d t Hstop) as (t1 & Hrun1 & Hsup1).
    destruct (IH t1 (proj1 Hsup1)) as (t2 & Hrun2 & Hsup2).
    exists t2. unfold bind. rewrite Hrun1, Hrun2.
    split; [reflexivity | now apply (suppressed_trans t t1 t2)].
Qed.

Lemma ui_event_suppressed (ev : event) (t : WState) :
  isStopping (widget t) = true ->
  is_load_call ev = false -> is_infoDisplay ev = false ->
  suppressed t (snd (ui_event ev t)).
Proof.
  intros Hstop Hload Hinfo. run_w.
  split; [exact Hstop |]. split; [reflexivity |].
  exists [ev]. split; [reflexivity |].
  unfold count. cbn [List.filter]. now rewrite Hload, Hinfo.
Qed.

Lemma logic_stopSegmentation_guarded (io : StopIO) (t : WState) :
  isStopping (widget t) = true ->
  exists t', logic_stopSegmentation str_strip str_splitlines io t = (Return tt, t') /\
             suppressed t t'.
Proof.
  intros Hstop. unfold logic_stopSegmentation.
  pose proof (ui_event_suppressed (logic_call "stopSegmentation") t Hstop eq_refl eq_refl)
    as Hev.
  unfold bind at 1.
  change (ui_event (logic_call "stopSegmentation") t)
    with (Return tt, snd (ui_event (logic_call "stopSegmentation") t)).
  cbv beta iota. unfold bind at 1, gets.
  destruct (logic (widget (snd (ui_event (logic_call "stopSegmentation") t)))).
  - destruct (dispatch_all_guarded (during_stop io) _ (proj1 Hev)) as (t' & -> & Hsup).
    exists t'. split; [reflexivity |]. exact (suppressed_trans _ _ _ Hev Hsup).
  - eexists. split; [reflexivity |]. exact Hev.
Qed.

Lemma logic_waitForSegmentationFinished_guarded (io : StopIO) (t : WState) :
  isStopping (widget t) = true ->
  exists t',
    logic_waitForSegmentationFinished str_strip str_splitlines io t = (Return tt, t') /\
    suppressed t t'.
Proof.
  intros Hstop. unfold logic_waitForSegmentationFinished.
  pose proof (ui_event_suppressed (logic_call "waitForSegmentationFinished") t Hstop
                eq_refl eq_refl) as Hev.
  unfold bind at 1.
  change (ui_event (logic_call "waitForSegmentationFinished") t)
    with (Return tt, snd (ui_event (logic_call "waitForSegmentationFinished") t)).
  cbv beta iota. unfold bind at 1, gets.
  destruct (logic (widget (snd (ui_event (logic_call "waitForSegmentationFinished") t)))).
  - destruct (dispatch_all_guarded (during_wait io) _ (proj1 Hev)) as (t' & -> & Hsup).
    exists t'. split; [reflexivity |]. exact (suppressed_trans _ _ _ Hev Hsup).
  - eexists. split; [reflexivity |]. exact Hev.
Qed.

(** C9. [onStopClicked] returns with the apply button visible, the stop
    button hidden and the guard cleared, and whatever signals were delivered
    while it waited (a finished signal right after the stop among them), no
    [loadSegmentation] call and no success dialog came of them.  For the
    finished signal in particular: with the guard set, [onInferenceFinished]
    touches neither logic nor world (nothing is loaded, nothing is shown,
    nothing is logged) and leaves the apply button visible and the stop
    button hidden. *)
Theorem onStopClicked_suppresses_finished (io : StopIO) (t : WState) :
  (exists t' new,
      onStopClicked str_strip str_splitlines io t = (Return tt, t') /\
      trace (world (sys t')) = trace (world (sys t)) ++ new /\
      count is_load_call new = 0 /\
      count is_infoDisplay new = 0 /\
      isStopping (widget t') = false /\
      applyButton_visible (widget t') = true /\
      stopButton_visible (widget t') = false) /\
  (forall fio : FinishedIO,
      exists t',
        onInferenceFinished str_strip str_splitlines fio (stopping t) = (Return tt, t') /\
        sys t' = sys t /\
        applyButton_visible (widget t') = true /\
        stopButton_visible (widget t') = false).
Proof.
  split.
  - assert (Hstop : isStopping (widget (stopping t)) = true) by reflexivity.
    destruct (logic_stopSegmentation_guarded io _ Hstop) as (t1 & Hrun1 & Hsup1).
    destruct (logic_waitForSegmentationFinished_guarded io t1 (proj1 Hsup1))
      as (t2 & Hrun2 & Hsup2).
    pose proof (ui_event_suppressed processEvents t2 (proj1 Hsup2) eq_refl eq_refl)
      as Hsup3.
    destruct (dispatch_all_guarded (during_processEvents io) _ (proj1 Hsup3))
      as (t4 & Hrun4 & Hsup4).
    pose proof (suppressed_trans _ _ _ (suppressed_trans _ _ _ Hsup1 Hsup2)
                  (suppressed_trans _ _ _ Hsup3 Hsup4)) as (_ & _ & new & Htr & Hl & Hi).
    unfold onStopClicked.
    unfold bind at 1. change (set_isStopping true t) with (Return tt, stopping t).
    cbv beta iota. unfold bind at 1. rewrite Hrun1.
    unfold bind at 1. rewrite Hrun2.
    unfold bind at 1. unfold bind at 1.
    change (ui_event processEvents t2) with (Return tt, snd (ui_event processEvents t2)).
    cbv beta iota. rewrite Hrun4. run_w.
    do 2 eexists. split; [reflexivity |]. run_w.
    split; [exact Htr |]. now repeat split.
  - intros fio.
    destruct (onInferenceFinished_guarded fio (stopping t) eq_refl)
      as (t' & Hrun & Hsys & _ & _ & Happly & Hstopb).
    exists t'. now repeat split.
Qed.

End StopGuard.

(** A stop during which the finished signal arrives: nothing but the stop
    itself is on the trace, and the apply button is back. *)
Example onStopClicked_then_finished :
  let io := mkStopIO [] [] [deliver_inferenceFinished (mkFinishedIO load_io_all_fine (Return 22))] in
  let t := mkWState running_widget (mkState (self state_after_predict) blank_world) in
  let r := onStopClicked strip_one_line splitlines_one_line io t in
  fst r = Return tt /\
  trace (world (sys (snd r)))
  = [logic_call "stopSegmentation"; logic_call "waitForSegmentationFinished";
     processEvents] /\
  _currentSegmentationNode (self (sys (snd r))) = None /\
  applyButton_visible (widget (snd r)) = true /\
  stopButton_visible (widget (snd r)) = false.
Proof. vm_compute. repeat split; reflexivity. Qed.

(** The same signal without the guard: the result is loaded and the success
    dialog shown. *)
Example onInferenceFinished_unguarded :
  let t := mkWState running_widget
             (mkState (self state_after_predict)
                (mkWorld (fs (world state_after_predict)) {[ 7 := "CT" ]} [])) in
  let r := onInferenceFinished strip_one_line splitlines_one_line
             (mkFinishedIO load_io_all_fine (Return 22)) t in
  fst r = Return tt /\
  _currentSegmentationNode (self (sys (snd r))) = Some 22 /\
  scene (world (sys (snd r))) !! 22 = Some "CTSegmentation" /\
  count is_load_call (trace (world (sys (snd r)))) = 1 /\
  List.filter is_infoDisplay (trace (world (sys (snd r))))
  = [infoDisplay "Inference ended successfully."] /\
  applyButton_visible (widget (snd r)) = true /\
  uploadButton_enabled (widget (snd r)) = true.
Proof. vm_compute. repeat split; reflexivity. Qed.

(** * Further properties *)

(** ** setApiUrl *)

Lemma rstrip_repeat_char (c : ascii) (n : nat) : rstrip c (repeat_char c n) = "".
Proof.
  induction n as [| n IH]; [reflexivity |].
  cbn [repeat_char rstrip]. rewrite IH. now rewrite Ascii.eqb_refl.
Qed.

(** [rstrip] gives back the part in front of the trailing run. *)
Lemma rstrip_app_repeat (c : ascii) (p : string) (n : nat) :
  ~ endswith p (String c "") -> rstrip c (p +:+ repeat_char c n) = p.
Proof.
  induction p as [| a p IH]; intros Hp.
  - rewrite append_nil_l. apply rstrip_repeat_char.
  - rewrite append_cons. cbn [rstrip]. destruct p as [| b p].
    + rewrite append_nil_l, rstrip_repeat_char.
      destruct (Ascii.eqb_spec a c) as [-> | Hne]; [| reflexivity].
      exfalso. apply Hp. now exists "".
    + rewrite IH; [reflexivity |].
      intros [pre H]. apply Hp. exists (String a pre).
      rewrite append_cons. now f_equal.
Qed.

(** X1. [setApiUrl] stores exactly what stands in front of the trailing
    slashes: for a string [p] that does not end in a slash, followed by any
    number of slashes (none included), the stored base URL is [p], and the
    other attributes of the logic stay.  Setting the stored URL again
    changes nothing. *)
Theorem setApiUrl_normalises
    (p : string) (n : nat) (l : ApiSegmentationLogic)
    (Hp : ~ endswith p "/") :
  let l' := setApiUrl (p +:+ repeat_char "/" n) l in
  getApiUrl l' = p /\
  _tmpDir l' = _tmpDir l /\
  _currentSegmentationNode l' = _currentSegmentationNode l /\
  _currentVolumeNode l' = _currentVolumeNode l /\
  _currentFileId l' = _currentFileId l /\
  setApiUrl (getApiUrl l') l' = l'.
Proof.
  intros l'. unfold l', setApiUrl, getApiUrl. cbn [_apiBaseUrl _tmpDir
    _currentSegmentationNode _currentVolumeNode _currentFileId].
  rewrite (rstrip_app_repeat _ _ _ Hp).
  repeat split. f_equal.
  rewrite <- (append_nil_r p) at 1. change "" with (repeat_char "/" 0).
  now apply rstrip_app_repeat.
Qed.

Lemma setApiUrl_normalises_witness :
  ~ endswith "https://seg.example.org/api" "/" /\
  getApiUrl (setApiUrl ("https://seg.example.org/api" +:+ repeat_char "/" 2)
                       (init ["tmp"; "qt"]))
  = "https://seg.example.org/api".
Proof.
  assert (H : ~ endswith "https://seg.example.org/api" "/").
  { change "https://seg.example.org/api"
      with (rstrip "/" "https://seg.example.org/api").
    apply rstrip_no_trailing. }
  split; [exact H |].
  apply (setApiUrl_normalises "https://seg.example.org/api" 2 (init ["tmp"; "qt"]) H).
Defined.

(** X2. A URL that consists of slashes only (the empty one included) is
    stored as the empty string, so the logic counts as not configured:
    [startSegmentation] and [uploadSegmentation] both report so through the
    error signal and do nothing else. *)
Theorem setApiUrl_only_slashes
    (n : nat) (l : ApiSegmentationLogic) (w : World)
    (io : PredictIO) (uio : UploadIO) (volumeNode segmentationNode : node) :
  let l' := setApiUrl (repeat_char "/" n) l in
  getApiUrl l' = "" /\
  startSegmentation io volumeNode (mkState l' w)
    = (Return tt, mkState l' (log_event (errorOccurred "API URL is not configured.") w)) /\
  uploadSegmentation uio segmentationNode (mkState l' w)
    = (Return false, mkState l' (log_event (errorOccurred "API URL is not configured.") w)).
Proof.
  intros l'.
  assert (Hurl : _apiBaseUrl l' = "") by apply rstrip_repeat_char.
  split; [exact Hurl |]. split.
  - now apply startSegmentation_without_url.
  - now apply uploadSegmentation_no_url.
Qed.

(** ** startSegmentation in every environment *)


(** X4. The test is on 200 alone: any other status, a 2xx such as 201 or 204
    included, is a failure.  With a URL configured and the file operations
    of the first half not raising, the call then adds the two progress
    messages, the request and one error signal to the trace and returns;
    apart from the stored volume the logic is as before, and the output file
    is neither written nor changed. *)
Theorem startSegmentation_status_not_200
    (io : PredictIO) (volumeNode : node) (s : State) (response : Response)
    (Hurl : _apiBaseUrl (self s) <> "")
    (Hsend : send_io_ok io)
    (Hpost : io_post io = Return response)
    (Hstatus : status_code response <> 200%Z) :
  exists s' name body,
    startSegmentation io volumeNode s = (Return tt, s') /\
    trace (world s')
      = trace (world s) ++
        [progressInfo ("Sending volume to API: " +:+ getPredictUrl (self s));
         progressInfo "Uploading volume to API...";
         requests_post (getPredictUrl (self s)) name body [];
         errorOccurred ("API returned error: " +:+ str_int (status_code response)
                        +:+ " - " +:+ text response)] /\
    self s' = self (with_volume volumeNode s) /\
    fs (world s') !! out_file (self s) = fs (world s) !! out_file (self s).
Proof.
  rewrite (startSegmentation_with_url _ _ _ Hurl).
  unfold try_except, startSegmentation_try, bind.
  destruct (startSegmentation_send_ok io volumeNode (with_volume volumeNode s)
              response Hsend Hpost) as (t & b & ->).
  rewrite startSegmentation_receive_not_200 by exact Hstatus.
  do 3 eexists. split; [reflexivity |].
  cbn [self world fs trace log_event with_volume set_currentVolumeNode on_self
       modify snd].
  split; [norm_trace; reflexivity |]. split; [reflexivity |].
  apply sent_fs_other, temp_path_ne_out_file.
Qed.

Lemma startSegmentation_status_not_200_witness :
  let r := mkResponse 204 "" [] ∅ in
  exists s' name body,
    startSegmentation (io_all_fine r) 7 configured_state = (Return tt, s') /\
    trace (world s')
      = [] ++
        [progressInfo ("Sending volume to API: " +:+ "http://host:8000/predict");
         progressInfo "Uploading volume to API...";
         requests_post "http://host:8000/predict" name body [];
         errorOccurred ("API returned error: " +:+ str_int 204 +:+ " - " +:+ "")] /\
    self s' = self (with_volume 7 configured_state) /\
    fs (world s') !! out_file (self configured_state)
      = fs (world configured_state) !! out_file (self configured_state).
Proof.
  intros r.
  apply (startSegmentation_status_not_200 (io_all_fine r) 7 configured_state r).
  - discriminate.
  - repeat split; eexists; reflexivity.
  - reflexivity.
  - discriminate.
Defined.

(** X5. A failure after the headers are read comes too late for the stored
    job: with status 200, if creating the directory, opening the output file
    or writing it raises, the call reports the error (one error signal, no
    finished signal), but the stored file id is already the one of this
    response, or none if the response carried no [X-File-ID]. *)
Theorem startSegmentation_late_failure_replaces_job
    (io : PredictIO) (volumeNode : node) (s : State) (response : Response)
    (Hurl : _apiBaseUrl (self s) <> "")
    (Hsend : send_io_ok io)
    (Hpost : io_post io = Return response)
    (Hstatus : status_code response = 200%Z)
    (Hlate : ~ receive_io_ok io) :
  exists s' new,
    startSegmentation io volumeNode s = (Return tt, s') /\
    _currentFileId (self s') = headers_get (headers response) "X-File-ID" /\
    trace (world s') = trace (world s) ++ new /\
    count is_errorOccurred new = 1 /\
    count is_inferenceFinished new = 0.
Proof.
  rewrite (startSegmentation_with_url _ _ _ Hurl).
  unfold try_except, startSegmentation_try, bind.
  destruct (startSegmentation_send_ok io volumeNode (with_volume volumeNode s)
              response Hsend Hpost) as (t & b & ->).
  unfold startSegmentation_receive. rewrite Hstatus. cbn [Z.eqb Pos.eqb negb].
  unfold with_volume. run_m.
  split_status;
    (destruct (io_mkdir io) as [[] |] eqn:Hm; run_m;
     [destruct (io_open_wb io) as [[] |] eqn:Ho; run_m;
      [destruct (io_write io) as [[] |] eqn:Hw; run_m;
       [exfalso; apply Hlate; repeat split; eexists; eassumption |] |] |]);
    norm_trace; do 2 eexists; (split; [reflexivity |]);
    (split; [reflexivity |]); (split; [reflexivity |]); split; reflexivity.
Qed.

Lemma startSegmentation_late_failure_replaces_job_witness :
  let r := mkResponse 200 "" [Byte.x42] {[ "x-file-id" := "zzz999" ]} in
  exists s' new,
    startSegmentation (io_disk_full r) 7 state_with_job = (Return tt, s') /\
    _currentFileId (self s') = Some "zzz999" /\
    trace (world s') = [] ++ new /\
    count is_errorOccurred new = 1 /\
    count is_inferenceFinished new = 0.
Proof.
  intros r.
  apply (startSegmentation_late_failure_replaces_job (io_disk_full r) 7 state_with_job r).
  - discriminate.
  - repeat split; eexists; reflexivity.
  - reflexivity.
  - reflexivity.
  - intros (_ & _ & [u Hu]). discriminate Hu.
Defined.



(** X7. No other file is touched, in any environment: a path that is
    neither the output file nor the temporary file of the call holds after
    [startSegmentation] what it held before. *)
Theorem startSegmentation_other_files
    (io : PredictIO) (volumeNode : node) (s : State) (p : path)
    (Hout : p <> out_file (self s))
    (Htmp : forall t, io_tempfile io = Return t -> p <> temp_path_of t ".nii.gz") :
  fs (world (snd (startSegmentation io volumeNode s))) !! p = fs (world s) !! p.
Proof.
  destruct (String.eqb_spec (_apiBaseUrl (self s)) "") as [Hurl | Hurl].
  - now rewrite (startSegmentation_without_url _ _ _ Hurl).
  - rewrite (startSegmentation_with_url _ _ _ Hurl).
    unfold out_file, nnUNetOutDir in Hout.
    unfold try_except, startSegmentation_try, startSegmentation_send,
      startSegmentation_receive, with_volume.
    run_m.
    destruct (io_tempfile io) as [t |] eqn:Ht; run_m; [| reflexivity].
    specialize (Htmp t eq_refl).
    repeat (first [next_outcome | split_status]); cbn [snd world fs];
      unfold nnUNetOutDir; cbn [_tmpDir];
      rewrite ?lookup_insert_ne, ?lookup_delete_ne, ?lookup_insert_ne by congruence;
      reflexivity.
Qed.

Lemma startSegmentation_other_files_witness :
  let r := mkResponse 200 "" [Byte.x42] ∅ in
  let s := mkState (self configured_state)
             (mkWorld {[ ["home"; "scan.nrrd"] := [Byte.x09] ]} ∅ []) in
  fs (world (snd (startSegmentation (io_all_fine r) 7 s))) !! ["home"; "scan.nrrd"]
  = Some [Byte.x09].
Proof.
  intros r s.
  apply (startSegmentation_other_files (io_all_fine r) 7 s ["home"; "scan.nrrd"]).
  - discriminate.
  - intros t Ht. injection Ht as <-. discriminate.
Defined.

(** X8. What becomes of the temporary file that holds the exported volume.
    If the request comes back and [os.unlink] goes through, the file is gone
    when the call ends, whatever the status and whatever happens afterwards.
    In every other case, the request raising or [os.unlink] itself raising,
    the file stays behind with the exported bytes. *)
Theorem startSegmentation_temp_file
    (io : PredictIO) (volumeNode : node) (s : State) (t : TempName) (b : list Byte.byte)
    (Hurl : _apiBaseUrl (self s) <> "")
    (Htmp : io_tempfile io = Return t)
    (Hexport : io_exportNode io = Return b)
    (Hopen : returned (io_open io)) :
  fs (world (snd (startSegmentation io volumeNode s))) !! temp_path_of t ".nii.gz"
    = match io_post io, io_unlink io with
      | Return _, Return _ => None
      | _, _ => Some b
      end.
Proof.
  destruct Hopen as [[] Hopen].
  rewrite (startSegmentation_with_url _ _ _ Hurl).
  pose proof (temp_path_ne_out_file t (self s)) as Hne.
  unfold out_file, nnUNetOutDir in Hne.
  unfold try_except, startSegmentation_try, startSegmentation_send,
    startSegmentation_receive, with_volume.
  run_m. rewrite Htmp. run_m. rewrite Hexport. run_m.
  rewrite lookup_insert_eq, Hopen. run_m.
  destruct (io_post io) as [r | e]; run_m; [| apply lookup_insert_eq].
  destruct (io_unlink io) as [[] | e]; run_m; [| apply lookup_insert_eq].
  repeat (first [next_outcome | split_status]); cbn [snd world fs];
    unfold nnUNetOutDir; cbn [_tmpDir];
    rewrite ?lookup_insert_ne by congruence; apply lookup_delete_eq.
Qed.

Lemma startSegmentation_temp_file_witness :
  let e := Exc OtherError "Connection refused" in
  let s' := snd (startSegmentation (io_post_raises e) 7 configured_state) in
  fs (world s') !! ["tmp"; "tmpk3j2.nii.gz"] = Some [Byte.x1f; Byte.x8b].
Proof.
  intros e s'.
  apply (startSegmentation_temp_file (io_post_raises e) 7 configured_state
           (mkTempName ["tmp"] "k3j2") [Byte.x1f; Byte.x8b]).
  - discriminate.
  - reflexivity.
  - reflexivity.
  - eexists; reflexivity.
Defined.

(** ** uploadSegmentation *)

(** The run of an upload in which nothing fails. *)
Lemma uploadSegmentation_goes_through
    (io : UploadIO) (segmentationNode : node) (s : State)
    (t : TempName) (n : node) (nm : string) (b : list Byte.byte) (r : Response)
    (Hurl : _apiBaseUrl (self s) <> "")
    (Hid : truthy_opt (_currentFileId (self s)) = true)
    (Htmp : up_tempfile io = Return t)
    (Hnode : up_AddNewNode io = Return (n, nm))
    (Hfresh : scene (world s) !! n = None)
    (Hsegments : returned (up_ExportAllSegments io))
    (Hexport : up_exportNode io = Return b)
    (Hopen : returned (up_open io))
    (Hpost : up_post io = Return r)
    (Hunlink : returned (up_unlink io))
    (Hstatus : status_code r = 200%Z) :
  let url := getUploadUrl (self s) (_currentFileId (self s)) in
  exists s',
    uploadSegmentation io segmentationNode s = (Return true, s') /\
    trace (world s')
      = trace (world s) ++
        [progressInfo ("Uploading corrected segmentation to: " +:+ url);
         progressInfo "Uploading segmentation to API...";
         requests_post url (basename (temp_path_of t ".nii.gz")) b (upload_data s);
         progressInfo ("Segmentation successfully uploaded to API with ID: "
                       +:+ fmt_opt (_currentFileId (self s)))] /\
    self s' = self s /\
    scene (world s') = scene (world s) /\
    fs (world s') = delete (temp_path_of t ".nii.gz") (fs (world s)).
Proof.
  destruct Hsegments as [[] Hsegments], Hopen as [[] Hopen], Hunlink as [[] Hunlink].
  intros url. apply truthy_true in Hurl.
  unfold uploadSegmentation. run_m. rewrite Hurl. cbn [negb]. run_m.
  rewrite Hid. cbn [negb]. run_m.
  rewrite Htmp. run_m. rewrite Hnode. run_m. rewrite Hsegments, Hexport. run_m.
  rewrite lookup_insert_eq, Hopen. run_m.
  assert (Hscene : delete n (<[n:=nm]> (scene (world s))) = scene (world s)).
  { rewrite delete_insert_eq. now apply delete_id. }
  unfold upload_data.
  destruct (_currentVolumeNode (self s)) as [v |]; run_m;
    rewrite Hpost, Hunlink; run_m; rewrite Hstatus; cbn [Z.eqb Pos.eqb negb]; run_m;
    (eexists; split; [reflexivity |]); cbn [world self trace scene fs];
    rewrite Hscene, !delete_insert_eq; norm_trace; repeat split.
Qed.

(** X9. An upload that goes through.  A URL is configured, a file id is
    stored, every local call comes back, the node the host hands out for the
    label map is a new one, and the server answers 200.  Then
    [uploadSegmentation] returns [True]; it sent one request, to
    [{base}/upload_correction/{id}], with the exported bytes and with the
    name of the stored volume as [original_volume_name] (no form data if no
    volume is stored); it raised no error signal; the logic and the scene
    are as before, and the temporary file is gone. *)
Theorem uploadSegmentation_success
    (io : UploadIO) (segmentationNode : node) (s : State)
    (t : TempName) (n : node) (nm : string) (b : list Byte.byte) (r : Response)
    (Hurl : _apiBaseUrl (self s) <> "")
    (Hid : truthy_opt (_currentFileId (self s)) = true)
    (Htmp : up_tempfile io = Return t)
    (Hnode : up_AddNewNode io = Return (n, nm))
    (Hfresh : scene (world s) !! n = None)
    (Hsegments : returned (up_ExportAllSegments io))
    (Hexport : up_exportNode io = Return b)
    (Hopen : returned (up_open io))
    (Hpost : up_post io = Return r)
    (Hunlink : returned (up_unlink io))
    (Hstatus : status_code r = 200%Z) :
  let url := getUploadUrl (self s) (_currentFileId (self s)) in
  exists s',
    uploadSegmentation io segmentationNode s = (Return true, s') /\
    trace (world s')
      = trace (world s) ++
        [progressInfo ("Uploading corrected segmentation to: " +:+ url);
         progressInfo "Uploading segmentation to API...";
         requests_post url (basename (temp_path_of t ".nii.gz")) b (upload_data s);
         progressInfo ("Segmentation successfully uploaded to API with ID: "
                       +:+ fmt_opt (_currentFileId (self s)))] /\
    self s' = self s /\
    scene (world s') = scene (world s) /\
    fs (world s') = delete (temp_path_of t ".nii.gz") (fs (world s)).
Proof.
  intros url.
  exact (uploadSegmentation_goes_through io segmentationNode s t n nm b r Hurl Hid
           Htmp Hnode Hfresh Hsegments Hexport Hopen Hpost Hunlink Hstatus).
Qed.

Lemma uploadSegmentation_success_witness :
  let s := mkState (self state_after_predict) (mkWorld ∅ {[ 7 := "CT" ]} []) in
  exists s',
    uploadSegmentation upload_io_all_fine 22 s = (Return true, s') /\
    trace (world s')
      = [] ++
        [progressInfo ("Uploading corrected segmentation to: "
                       +:+ "http://host:8000/upload_correction/abc123");
         progressInfo "Uploading segmentation to API...";
         requests_post "http://host:8000/upload_correction/abc123" "tmpp0q1.nii.gz"
           [Byte.x1f; Byte.x8b] [("original_volume_name", "CT")];
         progressInfo ("Segmentation successfully uploaded to API with ID: " +:+ "abc123")] /\
    self s' = self s /\
    scene (world s') = scene (world s) /\
    fs (world s') = delete ["tmp"; "tmpp0q1.nii.gz"] (fs (world s)).
Proof.
  intros s.
  apply (uploadSegmentation_success upload_io_all_fine 22 s
           (mkTempName ["tmp"] "p0q1") 11 "LabelMapVolume" [Byte.x1f; Byte.x8b]
           (mkResponse 200 "ok" [] ∅)).
  - discriminate.
  - reflexivity.
  - reflexivity.
  - reflexivity.
  - reflexivity.
  - eexists; reflexivity.
  - reflexivity.
  - eexists; reflexivity.
  - reflexivity.
  - eexists; reflexivity.
  - reflexivity.
Defined.

(** X10. The return value tells the whole story, in every environment:
    [uploadSegmentation] never raises; when it returns [True] it has sent
    exactly one request and raised no error signal; when it returns [False]
    it has raised exactly one error signal and sent at most one request.  It
    never raises the finished signal and never changes the logic. *)
Theorem uploadSegmentation_verdict
    (io : UploadIO) (segmentationNode : node) (s : State) :
  exists (ok : bool) s' new,
    uploadSegmentation io segmentationNode s = (Return ok, s') /\
    self s' = self s /\
    trace (world s') = trace (world s) ++ new /\
    count is_errorOccurred new = (if ok then 0 else 1) /\
    (if ok then length (post_urls new) = 1 else length (post_urls new) <= 1) /\
    count is_inferenceFinished new = 0.
Proof.
  unfold uploadSegmentation. run_m.
  destruct (truthy (_apiBaseUrl (self s))); cbn [negb]; run_m.
  2: { do 3 eexists. split; [reflexivity |]. repeat split; cbn; auto. }
  destruct (truthy_opt (_currentFileId (self s))); cbn [negb]; run_m.
  2: { do 3 eexists. split; [reflexivity |]. repeat split; cbn; auto. }
  repeat (first [next_outcome | split_status]);
    norm_trace; do 3 eexists; (split; [reflexivity |]);
    repeat split; cbn; auto.
Qed.

(** X11. A refused upload: with a URL configured, a file id stored and every
    local call coming back, a status other than 200 makes
    [uploadSegmentation] return [False] after one request and one error
    signal, whose message holds the status code and the text of the body. *)
Theorem uploadSegmentation_error_status
    (io : UploadIO) (segmentationNode : node) (s : State) (r : Response)
    (Hurl : _apiBaseUrl (self s) <> "")
    (Hid : truthy_opt (_currentFileId (self s)) = true)
    (Hio : upload_io_ok io)
    (Hpost : up_post io = Return r)
    (Hstatus : status_code r <> 200%Z) :
  exists s' new,
    uploadSegmentation io segmentationNode s = (Return false, s') /\
    trace (world s') = trace (world s) ++ new /\
    List.filter is_errorOccurred new
      = [errorOccurred ("API returned error: " +:+ str_int (status_code r)
                        +:+ " - " +:+ text r)] /\
    post_urls new = [getUploadUrl (self s) (_currentFileId (self s))].
Proof.
  destruct Hio as ([t Htmp] & [[n nm] Hnode] & [[] Hsegments] & [b Hexport]
                   & [[] Hopen] & [[] Hunlink]).
  apply truthy_true in Hurl. apply Z.eqb_neq in Hstatus.
  unfold uploadSegmentation. run_m. rewrite Hurl. cbn [negb]. run_m.
  rewrite Hid. cbn [negb]. run_m.
  rewrite Htmp. run_m. rewrite Hnode. run_m. rewrite Hsegments, Hexport. run_m.
  rewrite lookup_insert_eq, Hopen. run_m.
  destruct (_currentVolumeNode (self s)) as [v |]; run_m;
    rewrite Hpost, Hunlink; run_m; rewrite Hstatus; cbn [negb]; run_m;
    norm_trace; (do 2 eexists; split; [reflexivity |]);
    repeat split.
Qed.

Lemma uploadSegmentation_error_status_witness :
  let io := mkUploadIO (Return (mkTempName ["tmp"] "p0q1")) (Return (11, "LabelMapVolume"))
              (Return tt) (Return [Byte.x1f; Byte.x8b]) (Return tt)
              (Return (mkResponse 413 "too large" [] ∅)) (Return tt) in
  exists s' new,
    uploadSegmentation io 22 state_with_job = (Return false, s') /\
    trace (world s') = [] ++ new /\
    List.filter is_errorOccurred new
      = [errorOccurred ("API returned error: " +:+ str_int 413 +:+ " - " +:+ "too large")] /\
    post_urls new = ["http://host:8000/upload_correction/abc123"].
Proof.
  intros io.
  apply (uploadSegmentation_error_status io 22 state_with_job
           (mkResponse 413 "too large" [] ∅)).
  - discriminate.
  - reflexivity.
  - repeat split; eexists; reflexivity.
  - reflexivity.
  - discriminate.
Defined.

(** X12. An upload that fails while the label map is exported leaves the
    scene changed: the node added for the label map is still there, under
    the name the host gave it, because [RemoveNode] is not reached.  The
    call returns [False] without having sent a request. *)
Theorem uploadSegmentation_export_failure_leaves_node
    (io : UploadIO) (segmentationNode : node) (s : State)
    (n : node) (nm : string) (e : exception)
    (Hurl : _apiBaseUrl (self s) <> "")
    (Hid : truthy_opt (_currentFileId (self s)) = true)
    (Htmp : returned (up_tempfile io))
    (Hnode : up_AddNewNode io = Return (n, nm))
    (Hfail : up_ExportAllSegments io = Raise e \/
             (returned (up_ExportAllSegments io) /\ up_exportNode io = Raise e)) :
  exists s' new,
    uploadSegmentation io segmentationNode s = (Return false, s') /\
    scene (world s') !! n = Some nm /\
    trace (world s') = trace (world s) ++ new /\
    List.filter is_errorOccurred new
      = [errorOccurred ("Error during upload: " +:+ exc_str e)] /\
    post_urls new = [].
Proof.
  destruct Htmp as [t Htmp]. apply truthy_true in Hurl.
  unfold uploadSegmentation. run_m. rewrite Hurl. cbn [negb]. run_m.
  rewrite Hid. cbn [negb]. run_m.
  rewrite Htmp. run_m. rewrite Hnode. run_m.
  destruct Hfail as [Hseg | [[[] Hseg] Hexp]]; rewrite Hseg; run_m;
    try (rewrite Hexp; run_m);
    norm_trace; (do 2 eexists; split; [reflexivity |]); cbn [world scene trace];
    (split; [apply lookup_insert_eq |]); repeat split.
Qed.

Lemma uploadSegmentation_export_failure_leaves_node_witness :
  let e := Exc RuntimeError "Failed to export segments" in
  let io := mkUploadIO (Return (mkTempName ["tmp"] "p0q1")) (Return (11, "LabelMapVolume"))
              (Raise e) (Return []) (Return tt)
              (Return (mkResponse 200 "ok" [] ∅)) (Return tt) in
  exists s' new,
    uploadSegmentation io 22 state_with_job = (Return false, s') /\
    scene (world s') !! 11 = Some "LabelMapVolume" /\
    trace (world s') = [] ++ new /\
    List.filter is_errorOccurred new
      = [errorOccurred ("Error during upload: " +:+ "Failed to export segments")] /\
    post_urls new = [].
Proof.
  intros e io.
  apply (uploadSegmentation_export_failure_leaves_node io 22 state_with_job
           11 "LabelMapVolume" e).
  - discriminate.
  - reflexivity.
  - eexists; reflexivity.
  - reflexivity.
  - left. reflexivity.
Defined.

(** ** loadSegmentation *)

(** The run of a load in which nothing fails. *)
Lemma loadSegmentation_goes_through
    (io : LoadIO) (s : State) (data : list Byte.byte)
    (labelmap segmentation volume : node) (nm1 nm2 : string)
    (Hfile : fs (world s) !! out_file (self s) = Some data)
    (Hvolume : _currentVolumeNode (self s) = Some volume)
    (Hload : ld_loadLabelVolume io = Return (labelmap, nm1))
    (Hnew : ld_AddNewNode io = Return (segmentation, nm2))
    (Himport : returned (ld_ImportLabelmap io))
    (Hdistinct : labelmap <> segmentation /\ volume <> labelmap /\ volume <> segmentation) :
  exists s',
    loadSegmentation io s = (Return segmentation, s') /\
    getCurrentSegmentation (self s') = Some segmentation /\
    scene (world s') !! segmentation
      = Some (default "" (scene (world s) !! volume) +:+ "_ApiSegmentation") /\
    scene (world s') !! labelmap = None /\
    (forall m, m <> labelmap -> m <> segmentation ->
               scene (world s') !! m = scene (world s) !! m) /\
    fs (world s') = fs (world s) /\
    trace (world s') = trace (world s) /\
    _apiBaseUrl (self s') = _apiBaseUrl (self s) /\
    _currentVolumeNode (self s') = _currentVolumeNode (self s) /\
    _currentFileId (self s') = _currentFileId (self s).
Proof.
  destruct Himport as [[] Himport]. destruct Hdistinct as (H12 & Hv1 & Hv2).
  rewrite loadSegmentation_wraps. unfold loadSegmentation_try. run_m.
  unfold out_file in Hfile. rewrite Hfile.
  rewrite bool_decide_eq_true_2 by eauto. cbn [negb]. run_m.
  rewrite Hload. run_m. rewrite Hnew. run_m. rewrite Hvolume. run_m.
  rewrite Himport. run_m.
  eexists. split; [reflexivity |].
  cbn [self world scene fs trace getCurrentSegmentation _currentSegmentationNode
       _apiBaseUrl _currentVolumeNode _currentFileId].
  split; [reflexivity |]. split.
  { rewrite lookup_delete_ne, lookup_insert_eq by congruence.
    now rewrite !lookup_insert_ne by congruence. }
  split; [apply lookup_delete_eq |]. split.
  { intros m Hm1 Hm2.
    now rewrite lookup_delete_ne, !lookup_insert_ne by congruence. }
  repeat split; assumption.
Qed.

(** X13. A load that goes through.  The output file exists, a volume is
    stored, the host reads the file into a label map node and hands out a
    segmentation node, both different from each other and from the volume's
    node, and the import comes back.  Then [loadSegmentation] returns the
    segmentation node and stores it as the current segmentation; in the
    scene that node is named after the volume, [<volume name>_ApiSegmentation],
    the label map node is removed again, and every other node is as it was.
    Files and trace are untouched, and so are the other attributes. *)
Theorem loadSegmentation_success
    (io : LoadIO) (s : State) (data : list Byte.byte)
    (labelmap segmentation volume : node) (nm1 nm2 : string)
    (Hfile : fs (world s) !! out_file (self s) = Some data)
    (Hvolume : _currentVolumeNode (self s) = Some volume)
    (Hload : ld_loadLabelVolume io = Return (labelmap, nm1))
    (Hnew : ld_AddNewNode io = Return (segmentation, nm2))
    (Himport : returned (ld_ImportLabelmap io))
    (Hdistinct : labelmap <> segmentation /\ volume <> labelmap /\ volume <> segmentation) :
  exists s',
    loadSegmentation io s = (Return segmentation, s') /\
    getCurrentSegmentation (self s') = Some segmentation /\
    scene (world s') !! segmentation
      = Some (default "" (scene (world s) !! volume) +:+ "_ApiSegmentation") /\
    scene (world s') !! labelmap = None /\
    (forall m, m <> labelmap -> m <> segmentation ->
               scene (world s') !! m = scene (world s) !! m) /\
    fs (world s') = fs (world s) /\
    trace (world s') = trace (world s) /\
    _apiBaseUrl (self s') = _apiBaseUrl (self s) /\
    _currentVolumeNode (self s') = _currentVolumeNode (self s) /\
    _currentFileId (self s') = _currentFileId (self s).
Proof.
  exact (loadSegmentation_goes_through io s data labelmap segmentation volume nm1 nm2
           Hfile Hvolume Hload Hnew Himport Hdistinct).
Qed.

Lemma loadSegmentation_success_witness :
  let s := mkState (self state_after_predict)
             (mkWorld (fs (world state_after_predict)) {[ 7 := "CT" ]} []) in
  exists s',
    loadSegmentation load_io_all_fine s = (Return 22, s') /\
    getCurrentSegmentation (self s') = Some 22 /\
    scene (world s') !! 22 = Some ("CT" +:+ "_ApiSegmentation").
Proof.
  intros s.
  destruct (loadSegmentation_success load_io_all_fine s [Byte.x42] 21 22 7
              "segmentation" "Segmentation") as (s' & Hrun & Hcur & Hname & _).
  - reflexivity.
  - reflexivity.
  - reflexivity.
  - reflexivity.
  - eexists; reflexivity.
  - repeat split; discriminate.
  - exists s'. split; [exact Hrun |]. split; [exact Hcur |]. exact Hname.
Defined.

(** The effects of [loadSegmentation], whatever the environment. *)
Lemma loadSegmentation_leaves (io : LoadIO) (s : State) :
  let (o, s') := loadSegmentation io s in
  fs (world s') = fs (world s) /\
  trace (world s') = trace (world s) /\
  _apiBaseUrl (self s') = _apiBaseUrl (self s) /\
  _tmpDir (self s') = _tmpDir (self s) /\
  _currentVolumeNode (self s') = _currentVolumeNode (self s) /\
  _currentFileId (self s') = _currentFileId (self s) /\
  match o with
  | Return segmentation => _currentSegmentationNode (self s') = Some segmentation
  | Raise e => _currentSegmentationNode (self s') = _currentSegmentationNode (self s)
               /\ exc_cls e = RuntimeError
  end.
Proof.
  rewrite loadSegmentation_wraps.
  assert (Htry : let (o, s') := loadSegmentation_try io s in
                 fs (world s') = fs (world s) /\
                 trace (world s') = trace (world s) /\
                 _apiBaseUrl (self s') = _apiBaseUrl (self s) /\
                 _tmpDir (self s') = _tmpDir (self s) /\
                 _currentVolumeNode (self s') = _currentVolumeNode (self s) /\
                 _currentFileId (self s') = _currentFileId (self s) /\
                 match o with
                 | Return segmentation =>
                     _currentSegmentationNode (self s') = Some segmentation
                 | Raise _ =>
                     _currentSegmentationNode (self s') = _currentSegmentationNode (self s)
                 end).
  { unfold loadSegmentation_try. run_m.
    destruct (bool_decide _); cbn [negb]; run_m; [| easy].
    repeat next_outcome; easy. }
  destruct (loadSegmentation_try io s) as [[n | e] s1]; [exact Htry |].
  destruct Htry as (H1 & H2 & H3 & H4 & H5 & H6 & H7).
  cbn [exc_cls]. repeat split; assumption.
Qed.

(** X14. What [loadSegmentation] leaves alone, in every environment: files,
    trace (it raises no signal), base URL, temporary directory, stored
    volume and file id.  The current segmentation changes only when the call
    returns, and then to the node returned; a call that raises leaves it as
    it was. *)
Theorem loadSegmentation_effects (io : LoadIO) (s : State) :
  let (o, s') := loadSegmentation io s in
  fs (world s') = fs (world s) /\
  trace (world s') = trace (world s) /\
  _apiBaseUrl (self s') = _apiBaseUrl (self s) /\
  _tmpDir (self s') = _tmpDir (self s) /\
  _currentVolumeNode (self s') = _currentVolumeNode (self s) /\
  _currentFileId (self s') = _currentFileId (self s) /\
  match o with
  | Return segmentation => _currentSegmentationNode (self s') = Some segmentation
  | Raise e => _currentSegmentationNode (self s') = _currentSegmentationNode (self s)
               /\ exc_cls e = RuntimeError
  end.
Proof. apply loadSegmentation_leaves. Qed.

(** ** How the methods compose *)

(** The state after a predict call in which nothing fails. *)
Lemma startSegmentation_goes_through
    (io : PredictIO) (v : node) (s : State) (r : Response) :
  _apiBaseUrl (self s) <> "" -> send_io_ok io -> receive_io_ok io ->
  io_post io = Return r -> status_code r = 200%Z ->
  exists s',
    startSegmentation io v s = (Return tt, s') /\
    self s' = mkLogic (_apiBaseUrl (self s)) (_tmpDir (self s))
                      (_currentSegmentationNode (self s)) (Some v)
                      (headers_get (headers r) "X-File-ID") /\
    fs (world s') !! out_file (self s) = Some (content r) /\
    scene (world s') = scene (world s).
Proof.
  intros Hurl Hsend Hreceive Hpost Hstatus.
  rewrite (startSegmentation_with_url _ _ _ Hurl).
  unfold try_except, startSegmentation_try, bind.
  destruct (startSegmentation_send_ok io v (with_volume v s) r Hsend Hpost)
    as (t & b & ->).
  rewrite (startSegmentation_receive_200 _ _ _ Hreceive Hstatus).
  eexists. split; [reflexivity |].
  cbn [self world fs scene with_volume set_currentVolumeNode on_self modify snd
       _apiBaseUrl _tmpDir _currentSegmentationNode _currentVolumeNode].
  split; [reflexivity |]. split; [apply lookup_insert_eq | reflexivity].
Qed.

(** X15. Predict, then load.  After a predict call in which nothing fails
    (status 200), [loadSegmentation] finds both the output file and the
    stored volume: provided the host calls come back, it returns the new
    segmentation node and stores it as the current segmentation. *)
Theorem loadSegmentation_after_startSegmentation
    (io : PredictIO) (lio : LoadIO) (volumeNode : node) (s : State) (r : Response)
    (Hurl : _apiBaseUrl (self s) <> "")
    (Hsend : send_io_ok io) (Hreceive : receive_io_ok io)
    (Hpost : io_post io = Return r)
    (Hstatus : status_code r = 200%Z)
    (Hload : returned (ld_loadLabelVolume lio))
    (Hnew : returned (ld_AddNewNode lio))
    (Himport : returned (ld_ImportLabelmap lio)) :
  exists segmentation s'',
    loadSegmentation lio (snd (startSegmentation io volumeNode s))
      = (Return segmentation, s'') /\
    getCurrentSegmentation (self s'') = Some segmentation /\
    _currentFileId (self s'') = headers_get (headers r) "X-File-ID".
Proof.
  destruct (startSegmentation_goes_through io volumeNode s r Hurl Hsend Hreceive
              Hpost Hstatus) as (s' & -> & Hself & Hfile & _).
  destruct Hload as [n1 Hload], Hnew as [n2 Hnew], Himport as [[] Himport].
  cbn [snd]. rewrite loadSegmentation_wraps. unfold loadSegmentation_try. run_m.
  assert (Hout : nnUNetOutDir (self s') ++ ["segmentation.nii.gz"] = out_file (self s)).
  { now rewrite Hself. }
  rewrite Hout, Hfile.
  rewrite bool_decide_eq_true_2 by eauto. cbn [negb]. run_m.
  rewrite Hload. run_m. rewrite Hnew. run_m. rewrite Hself. run_m.
  rewrite Himport. run_m.
  do 2 eexists. split; [reflexivity |]. split; reflexivity.
Qed.

Lemma loadSegmentation_after_startSegmentation_witness :
  let r := mkResponse 200 "" [Byte.x42] {[ "x-file-id" := "abc123" ]} in
  exists segmentation s'',
    loadSegmentation load_io_all_fine
      (snd (startSegmentation (io_all_fine r) 7 configured_state))
      = (Return segmentation, s'') /\
    getCurrentSegmentation (self s'') = Some segmentation /\
    _currentFileId (self s'') = Some "abc123".
Proof.
  intros r.
  apply (loadSegmentation_after_startSegmentation (io_all_fine r) load_io_all_fine
           7 configured_state r).
  - discriminate.
  - repeat split; eexists; reflexivity.
  - repeat split; eexists; reflexivity.
  - reflexivity.
  - reflexivity.
  - eexists; reflexivity.
  - eexists; reflexivity.
  - eexists; reflexivity.
Defined.

(** X16. Predict, then upload.  After a predict call in which nothing fails
    and whose response carries a non-empty [X-File-ID], an upload in which
    nothing fails returns [True] and sends its one request to
    [{base}/upload_correction/{that id}], with the name of the volume of the
    predict call as [original_volume_name]. *)
Theorem uploadSegmentation_after_startSegmentation
    (io : PredictIO) (uio : UploadIO) (volumeNode segmentationNode : node)
    (s : State) (r r' : Response) (fileId : string)
    (t : TempName) (n : node) (nm : string) (b : list Byte.byte)
    (Hurl : _apiBaseUrl (self s) <> "")
    (Hsend : send_io_ok io) (Hreceive : receive_io_ok io)
    (Hpost : io_post io = Return r)
    (Hstatus : status_code r = 200%Z)
    (Hheader : headers_get (headers r) "X-File-ID" = Some fileId)
    (Hid : fileId <> "")
    (Htmp : up_tempfile uio = Return t)
    (Hnode : up_AddNewNode uio = Return (n, nm))
    (Hfresh : scene (world s) !! n = None)
    (Hsegments : returned (up_ExportAllSegments uio))
    (Hexport : up_exportNode uio = Return b)
    (Hopen : returned (up_open uio))
    (Hpost' : up_post uio = Return r')
    (Hunlink : returned (up_unlink uio))
    (Hstatus' : status_code r' = 200%Z) :
  exists s'' new,
    uploadSegmentation uio segmentationNode (snd (startSegmentation io volumeNode s))
      = (Return true, s'') /\
    trace (world s'')
      = trace (world (snd (startSegmentation io volumeNode s))) ++ new /\
    List.filter is_requests_post new
      = [requests_post (_apiBaseUrl (self s) +:+ "/upload_correction/" +:+ fileId)
           (basename (temp_path_of t ".nii.gz")) b
           [("original_volume_name", default "" (scene (world s) !! volumeNode))]].
Proof.
  destruct (startSegmentation_goes_through io volumeNode s r Hurl Hsend Hreceive
              Hpost Hstatus) as (s' & -> & Hself & _ & Hscene).
  cbn [snd].
  destruct (uploadSegmentation_goes_through uio segmentationNode s' t n nm b r')
    as (s'' & Hrun & Htrace & _); try assumption.
  - now rewrite Hself.
  - rewrite Hself, Hheader. cbn [_currentFileId truthy_opt]. now apply truthy_true.
  - now rewrite Hscene.
  - exists s''. eexists. split; [exact Hrun |]. split; [exact Htrace |].
    unfold upload_data, getUploadUrl. rewrite Hself, Hheader, Hscene. reflexivity.
Qed.

Lemma uploadSegmentation_after_startSegmentation_witness :
  let r := mkResponse 200 "" [Byte.x42] {[ "x-file-id" := "abc123" ]} in
  let s := mkState (self configured_state) (mkWorld ∅ {[ 7 := "CT" ]} []) in
  exists s'' new,
    uploadSegmentation upload_io_all_fine 22 (snd (startSegmentation (io_all_fine r) 7 s))
      = (Return true, s'') /\
    trace (world s'')
      = trace (world (snd (startSegmentation (io_all_fine r) 7 s))) ++ new /\
    List.filter is_requests_post new
      = [requests_post ("http://host:8000" +:+ "/upload_correction/" +:+ "abc123")
           "tmpp0q1.nii.gz" [Byte.x1f; Byte.x8b]
           [("original_volume_name", "CT")]].
Proof.
  intros r s.
  apply (uploadSegmentation_after_startSegmentation (io_all_fine r) upload_io_all_fine
           7 22 s r (mkResponse 200 "ok" [] ∅) "abc123"
           (mkTempName ["tmp"] "p0q1") 11 "LabelMapVolume" [Byte.x1f; Byte.x8b]).
  - discriminate.
  - repeat split; eexists; reflexivity.
  - repeat split; eexists; reflexivity.
  - reflexivity.
  - reflexivity.
  - reflexivity.
  - discriminate.
  - reflexivity.
  - reflexivity.
  - reflexivity.
  - eexists; reflexivity.
  - reflexivity.
  - eexists; reflexivity.
  - reflexivity.
  - eexists; reflexivity.
  - reflexivity.
Defined.

(** ** The logic with its signals connected *)

(** With nobody listening, the connected methods are the methods. *)
Lemma startSegmentation_wired_alone (io : PredictIO) (v : node) :
  startSegmentation_wired Signal_call (fun _ m => m) io (Some v) = startSegmentation io v.
Proof. reflexivity. Qed.

Lemma uploadSegmentation_wired_alone (io : UploadIO) (seg : node) :
  uploadSegmentation_wired Signal_call (fun _ m => m) io seg = uploadSegmentation io seg.
Proof. reflexivity. Qed.


(** [loadSegmentation] ends by returning a node or by raising a
    [RuntimeError]. *)
Lemma loadSegmentation_outcome (io : LoadIO) (s : State) :
  (exists n s', loadSegmentation io s = (Return n, s')) \/
  (exists msg s', loadSegmentation io s = (Raise (Exc RuntimeError msg), s')).
Proof.
  rewrite loadSegmentation_wraps.
  destruct (loadSegmentation_try io s) as [[n | e] s']; eauto.
Qed.

(** ** The handlers of the widget *)

Section Handlers.

Variable str_strip : string -> string.
Variable str_splitlines : string -> list string.

(** However [onInferenceFinished] ends, the buttons are back. *)
Lemma onInferenceFinished_buttons (io : FinishedIO) (t : WState) :
  let (o, t') := onInferenceFinished str_strip str_splitlines io t in
  widget t' = idle_buttons (widget t) (has_segmentation t').
Proof.
  unfold onInferenceFinished, has_segmentation, idle_buttons, getCurrentSegmentation.
  run_a.
  destruct (isStopping (widget t)) eqn:Hstop; run_a.
  - now rewrite Hstop.
  - destruct (logic (widget t)) eqn:Hlogic; run_a.
    + repeat next_a; unfold getCurrentSegmentation; cbn [andb]; congruence.
    + match goal with
      | |- context [loadSegmentation ?lio ?s] =>
          destruct (loadSegmentation_outcome lio s)
            as [(n & s' & ->) | (msg & s' & ->)]
      end; run_a; repeat next_a; unfold getCurrentSegmentation; cbn [andb]; congruence.
Qed.

(** X17. However [onInferenceFinished] ends, by returning or by raising,
    with the guard set or not, and whichever logic is current, it leaves the
    widget idle: apply button visible and enabled, stop button hidden,
    install button and input selector enabled, and the upload button enabled
    exactly if the widget is in API mode and the API logic holds a
    segmentation.  The other fields of the widget are untouched. *)
Theorem onInferenceFinished_leaves_idle (io : FinishedIO) (t : WState) :
  let (o, t') := onInferenceFinished str_strip str_splitlines io t in
  widget t' = idle_buttons (widget t) (has_segmentation t').
Proof. apply onInferenceFinished_buttons. Qed.

(** X18. With the API logic current and a volume selected,
    [onInferenceFinished] never raises, and (dialogs being on) it tells the
    user exactly once how things went: either the result was loaded, then
    there is one success dialog and no error dialog, the API logic holds the
    loaded node, and that node's name ends in [Segmentation]; or loading
    raised, then there is one error dialog, with traceback, and no success
    dialog, and the current segmentation is what it was. *)
Theorem onInferenceFinished_api_reports_once
    (io : FinishedIO) (t : WState) (v : node)
    (Hstop : isStopping (widget t) = false)
    (Hlogic : logic (widget t) = apiLogic)
    (Hvolume : inputSelector_currentNode (widget t) = Some v)
    (Hshow : _doShowErrorWindows (widget t) = true) :
  exists t' new,
    onInferenceFinished str_strip str_splitlines io t = (Return tt, t') /\
    trace (world (sys t')) = trace (world (sys t)) ++ new /\
    count is_load_call new = 1 /\
    ((count is_infoDisplay new = 1 /\ count is_errorDisplay new = 0 /\
      exists n name,
        getCurrentSegmentation (self (sys t')) = Some n /\
        scene (world (sys t')) !! n = Some (name +:+ "Segmentation"))
     \/
     (count is_infoDisplay new = 0 /\
      (exists msg, List.filter is_errorDisplay new = [errorDisplay msg true]) /\
      getCurrentSegmentation (self (sys t')) = getCurrentSegmentation (self (sys t)))).
Proof.
  unfold onInferenceFinished. run_a. rewrite Hstop. run_a. rewrite Hlogic. run_a.
  match goal with
  | |- context [loadSegmentation ?lio ?s] =>
      pose proof (loadSegmentation_leaves lio s) as Hleaves;
      destruct (loadSegmentation_outcome lio s)
        as [(n & s' & Hrun) | (msg & s' & Hrun)]; rewrite Hrun in Hleaves |- *
  end; run_a; cbn [world trace] in Hleaves;
    destruct Hleaves as (_ & Htr & _ & _ & _ & _ & Hcur).
  - rewrite Hvolume. run_a. rewrite Hshow. run_a. rewrite Htr. norm_trace.
    do 2 eexists. split; [reflexivity |]. cbn [sys world trace self scene].
    split; [reflexivity |]. split; [reflexivity |]. left.
    split; [reflexivity |]. split; [reflexivity |].
    exists n. eexists. split; [exact Hcur |]. apply lookup_insert_eq.
  - destruct Hcur as [Hcur _]. rewrite Hshow. run_a. rewrite Htr. norm_trace.
    do 2 eexists. split; [reflexivity |]. cbn [sys world trace self scene].
    split; [reflexivity |]. split; [reflexivity |]. right.
    split; [reflexivity |]. split; [eexists; reflexivity | exact Hcur].
Qed.

(** X19. The name of the result.  When the result is loaded (API logic
    current, nothing fails, the new nodes differ from each other and from
    the selected volume's node), [onInferenceFinished] renames the
    segmentation after the volume selected in the widget:
    [<selected volume's name>Segmentation] replaces the name the logic gave
    it.  The success dialog is shown if dialogs are on, and the upload
    button is enabled exactly in API mode. *)
Theorem onInferenceFinished_names_result
    (io : FinishedIO) (t : WState) (data : list Byte.byte)
    (labelmap segmentation stored selected : node) (nm1 nm2 : string)
    (Hstop : isStopping (widget t) = false)
    (Hlogic : logic (widget t) = apiLogic)
    (Hselected : inputSelector_currentNode (widget t) = Some selected)
    (Hfile : fs (world (sys t)) !! out_file (self (sys t)) = Some data)
    (Hstored : _currentVolumeNode (self (sys t)) = Some stored)
    (Hload : ld_loadLabelVolume (fin_api io) = Return (labelmap, nm1))
    (Hnew : ld_AddNewNode (fin_api io) = Return (segmentation, nm2))
    (Himport : returned (ld_ImportLabelmap (fin_api io)))
    (Hdistinct : labelmap <> segmentation /\ selected <> labelmap /\
                 selected <> segmentation) :
  exists t',
    onInferenceFinished str_strip str_splitlines io t = (Return tt, t') /\
    getCurrentSegmentation (self (sys t')) = Some segmentation /\
    scene (world (sys t')) !! segmentation
      = Some (default "" (scene (world (sys t)) !! selected) +:+ "Segmentation") /\
    scene (world (sys t')) !! labelmap = None /\
    uploadButton_enabled (widget t') = useApi (widget t) /\
    List.filter is_infoDisplay (trace (world (sys t')))
      = List.filter is_infoDisplay (trace (world (sys t)))
        ++ (if _doShowErrorWindows (widget t)
            then [infoDisplay "Inference ended successfully."] else []).
Proof.
  destruct Himport as [[] Himport]. destruct Hdistinct as (H12 & Hs1 & Hs2).
  unfold onInferenceFinished. run_a. rewrite Hstop. run_a. rewrite Hlogic. run_a.
  rewrite loadSegmentation_wraps. unfold loadSegmentation_try. run_a.
  unfold out_file in Hfile. rewrite Hfile.
  rewrite bool_decide_eq_true_2 by eauto. run_a.
  rewrite Hload. run_a. rewrite Hnew. run_a. rewrite Hstored. run_a.
  rewrite Himport. run_a. rewrite Hselected. run_a.
  destruct (_doShowErrorWindows (widget t)); run_a;
    (eexists; split; [reflexivity |]);
    cbn [sys self world scene trace widget uploadButton_enabled
         getCurrentSegmentation _currentSegmentationNode];
    (split; [reflexivity |]);
    (split; [rewrite lookup_insert_eq; do 2 f_equal;
             now rewrite lookup_delete_ne, !lookup_insert_ne by congruence |]);
    (split; [rewrite lookup_insert_ne by congruence; apply lookup_delete_eq |]);
    (split; [cbn; now destruct (useApi (widget t)) |]);
    rewrite !List.filter_app; cbn; now rewrite ?app_nil_r.
Qed.

(** X20. [onInferenceError] and the guard.  While the widget is stopping,
    an error signal is dropped without a trace: nothing is logged, nothing
    is shown, no button changes.  Otherwise the handler leaves the widget
    idle, writes the message to the log and, if dialogs are on, shows it in
    one error dialog without traceback; the logic, the files and the scene
    stay as they are.  An exception is reported by its [str], exactly like
    the string. *)
Theorem onInferenceError_guard (errorMsg : error_value) (t : WState) :
  let msg := "Encountered error during inference :" +:+ nl +:+
             match errorMsg with error_exc e => exc_str e | error_str s => s end in
  onInferenceError str_strip str_splitlines errorMsg t
    = (Return tt,
       if isStopping (widget t) then t
       else mkWState
              (idle_buttons (widget t) (has_segmentation t))
              (mkState (self (sys t))
                 (mkWorld (fs (world (sys t))) (scene (world (sys t)))
                    (trace (world (sys t)) ++
                     [insertPlainText (_formatMsg str_strip str_splitlines msg +:+ nl);
                      processEvents] ++
                     (if _doShowErrorWindows (widget t)
                      then [errorDisplay msg false] else []))))).
Proof.
  intros msg; subst msg.
  unfold onInferenceError; run_a.
  destruct (isStopping (widget t)) eqn:Hstop; run_a.
  - now destruct t.
  - destruct (_doShowErrorWindows (widget t)) eqn:Hshow; run_a;
      unfold idle_buttons, has_segmentation; rewrite Hstop, Hshow; cbn [andb];
      norm_trace; reflexivity.
Qed.

End Handlers.

(** ** Reasoning with pre- and postconditions *)

Section Hoare.

Context {S : Type}.

Lemma hoare_conseq {A} (Pre Pre' : S -> Prop) (m : M S A)
    (Post Post' : outcome A -> S -> Prop) :
  hoare Pre' m Post' ->
  (forall s, Pre s -> Pre' s) -> (forall o s, Post' o s -> Post o s) ->
  hoare Pre m Post.
Proof. intros H Hpre Hpost s o s' Hs Hrun. eauto. Qed.

Lemma hoare_ret {A} (Pre : S -> Prop) (a : A) (Post : outcome A -> S -> Prop) :
  (forall s, Pre s -> Post (Return a) s) -> hoare Pre (ret a) Post.
Proof. intros H s o s' Hs Hrun. injection Hrun as <- <-. auto. Qed.

Lemma hoare_raise {A} (Pre : S -> Prop) (e : exception) (Post : outcome A -> S -> Prop) :
  (forall s, Pre s -> Post (Raise e) s) -> hoare Pre (raise e) Post.
Proof. intros H s o s' Hs Hrun. injection Hrun as <- <-. auto. Qed.

(** Sequencing: the second part starts where the first returned; where the
    first raised, that is the end. *)
Lemma hoare_bind {A B} (Pre : S -> Prop) (Mid : A -> S -> Prop)
    (m : M S A) (k : A -> M S B) (Post : outcome B -> S -> Prop) :
  hoare Pre m (fun o s => match o with
                          | Return a => Mid a s
                          | Raise e => Post (Raise e) s
                          end) ->
  (forall a, hoare (Mid a) (k a) Post) ->
  hoare Pre (bind m k) Post.
Proof.
  intros Hm Hk s o s' Hs Hrun. unfold bind in Hrun.
  destruct (m s) as [[a | e] s1] eqn:Hms.
  - exact (Hk a s1 o s' (Hm s (Return a) s1 Hs Hms) Hrun).
  - injection Hrun as <- <-. exact (Hm s (Raise e) s1 Hs Hms).
Qed.

(** [try ... except Exception]: the handler starts where the body raised. *)
Lemma hoare_try_except {A} (Pre : S -> Prop) (Mid : exception -> S -> Prop)
    (body : M S A) (handler : exception -> M S A) (Post : outcome A -> S -> Prop) :
  hoare Pre body (fun o s => match o with
                             | Return a => Post (Return a) s
                             | Raise e => Mid e s
                             end) ->
  (forall e, hoare (Mid e) (handler e) Post) ->
  hoare Pre (try_except body handler) Post.
Proof.
  intros Hb Hh s o s' Hs Hrun. unfold try_except in Hrun.
  destruct (body s) as [[a | e] s1] eqn:Hbs.
  - injection Hrun as <- <-. exact (Hb s (Return a) s1 Hs Hbs).
  - exact (Hh e s1 o s' (Hb s (Raise e) s1 Hs Hbs) Hrun).
Qed.

End Hoare.

(** A computation on logic and world leaves the widget alone. *)
Lemma in_sys_widget {A} (m : M State A) (t : WState) :
  widget (snd (in_sys m t)) = widget t.
Proof. unfold in_sys, lift. now destruct (m (sys t)). Qed.

Lemma hoare_in_sys {A} (Q : Widget -> Prop) (m : M State A) :
  hoare (fun t => Q (widget t)) (in_sys m) (fun _ t => Q (widget t)).
Proof.
  intros t o t' Ht Hrun. pose proof (in_sys_widget m t) as Hw.
  rewrite Hrun in Hw. cbn [snd] in Hw. now rewrite Hw.
Qed.

(** ** The widget and the API logic together *)

Section Connected.

Variable str_strip : string -> string.
Variable str_splitlines : string -> list string.

Lemma clear_in_sys {A} (m : M State A) :
  hoare guard_clear (in_sys m) stays_clear.
Proof. exact (hoare_in_sys (fun w => isStopping w = false) m). Qed.

Lemma clear_ret {A} (a : A) : hoare guard_clear (ret a) (@stays_clear A).
Proof. now apply hoare_ret. Qed.

Lemma clear_bind {A B} (m : M WState A) (k : A -> M WState B) :
  hoare guard_clear m stays_clear ->
  (forall a, hoare guard_clear (k a) stays_clear) ->
  hoare guard_clear (bind m k) stays_clear.
Proof.
  intros Hm Hk. apply hoare_bind with (Mid := fun _ => guard_clear); [| exact Hk].
  intros t o t' Ht Hrun. specialize (Hm t o t' Ht Hrun). now destruct o.
Qed.

Lemma back_bind {A B} (m : M WState A) (k : A -> M WState B) :
  hoare guard_clear m stays_clear ->
  (forall a, hoare guard_clear (k a) back_if_returned) ->
  hoare guard_clear (bind m k) back_if_returned.
Proof.
  intros Hm Hk. apply hoare_bind with (Mid := fun _ => guard_clear); [| exact Hk].
  intros t o t' Ht Hrun. specialize (Hm t o t' Ht Hrun).
  destruct o; [exact Hm | now split].
Qed.

Lemma emit_progress_run (io : WidgetIO) (msg : string) (t : WState) :
  exists t', emit str_strip str_splitlines io (progressInfo msg) t = (Return tt, t') /\ widget t' = widget t.
Proof. unfold emit, slot. run_a. eexists. split; reflexivity. Qed.

Lemma emit_error_run (io : WidgetIO) (msg : string) (t : WState) :
  isStopping (widget t) = false ->
  exists t', emit str_strip str_splitlines io (errorOccurred msg) t = (Return tt, t') /\
             widget t' = idle_buttons (widget t) (has_segmentation t) /\
             self (sys t') = self (sys t).
Proof.
  intros Hstop. unfold emit, slot, onInferenceError. run_a. rewrite Hstop. run_a.
  destruct (_doShowErrorWindows (widget t)) eqn:Hshow; run_a;
    (eexists; split; [reflexivity |]); cbn [widget sys self];
    unfold idle_buttons, has_segmentation; rewrite Hstop, Hshow; split; reflexivity.
Qed.

Lemma emit_progress_clear (io : WidgetIO) (msg : string) :
  hoare guard_clear (emit str_strip str_splitlines io (progressInfo msg)) stays_clear.
Proof.
  intros t o t' Ht Hrun.
  destruct (emit_progress_run io msg t) as (t1 & Hrun1 & Hw).
  rewrite Hrun1 in Hrun. injection Hrun as <- <-.
  unfold stays_clear, guard_clear. now rewrite Hw.
Qed.

Lemma emit_error_closes (io : WidgetIO) (msg : string) :
  hoare guard_clear (emit str_strip str_splitlines io (errorOccurred msg)) returned_idle.
Proof.
  intros t o t' Ht Hrun.
  destruct (emit_error_run io msg t Ht) as (t1 & Hrun1 & Hw & _).
  rewrite Hrun1 in Hrun. injection Hrun as <- <-.
  split; [now exists tt |]. unfold guard_clear, shows_apply. rewrite Hw.
  cbn [idle_buttons isStopping applyButton_visible stopButton_visible]. auto.
Qed.

Lemma emit_finished_closes (io : WidgetIO) :
  hoare guard_clear (emit str_strip str_splitlines io inferenceFinished) back_if_returned.
Proof.
  intros t o t' Ht Hrun. unfold emit, slot in Hrun.
  unfold bind at 1 in Hrun.
  change (in_sys (Signal_call inferenceFinished) t)
    with (Return tt, snd (in_sys (Signal_call inferenceFinished) t)) in Hrun.
  cbv beta iota in Hrun.
  pose proof (onInferenceFinished_buttons str_strip str_splitlines (w_finished io)
                (snd (in_sys (Signal_call inferenceFinished) t))) as Hb.
  rewrite Hrun in Hb. unfold back_if_returned, guard_clear, shows_apply. rewrite Hb.
  cbn [idle_buttons isStopping applyButton_visible stopButton_visible].
  split; [exact Ht |]. now destruct o.
Qed.

Lemma startSegmentation_send_wired_clear (io : WidgetIO) (volumeNode : option node) :
  hoare guard_clear
    (startSegmentation_send_wired (emit str_strip str_splitlines io) (@in_sys)
       (w_predict io) volumeNode)
    stays_clear.
Proof.
  unfold startSegmentation_send_wired.
  repeat first [ apply clear_in_sys | apply emit_progress_clear | apply clear_ret
               | apply clear_bind; [| intros ?] ].
Qed.

Lemma startSegmentation_receive_wired_back (io : WidgetIO) (response : Response) :
  hoare guard_clear
    (startSegmentation_receive_wired (emit str_strip str_splitlines io) (@in_sys)
       (w_predict io) response)
    back_if_returned.
Proof.
  unfold startSegmentation_receive_wired.
  destruct (negb (status_code response =? 200)%Z).
  - eapply hoare_conseq; [apply emit_error_closes | auto |].
    intros o t (_ & Hc & Hp). split; [exact Hc | now destruct o].
  - apply back_bind; [first [apply clear_in_sys | apply emit_progress_clear] | intros _].
    apply back_bind; [first [apply clear_in_sys | apply emit_progress_clear] | intros fileId].
    apply back_bind;
      [destruct (negb (truthy_opt fileId));
       [apply emit_progress_clear | apply clear_ret] | intros _].
    apply back_bind; [first [apply clear_in_sys | apply emit_progress_clear] | intros outDir].
    apply back_bind; [first [apply clear_in_sys | apply emit_progress_clear] | intros _].
    apply back_bind; [first [apply clear_in_sys | apply emit_progress_clear] | intros _].
    apply back_bind; [first [apply clear_in_sys | apply emit_progress_clear] | intros _].
    apply back_bind; [first [apply clear_in_sys | apply emit_progress_clear] | intros _].
    apply emit_finished_closes.
Qed.

(** In the hands of the widget, a predict call always comes back, and it
    comes back with the apply button shown. *)
Lemma apiLogic_startSegmentation_closes (io : WidgetIO) (volumeNode : option node) :
  hoare guard_clear
    (apiLogic_startSegmentation str_strip str_splitlines io volumeNode)
    returned_idle.
Proof.
  intros t o t' Ht. unfold apiLogic_startSegmentation, startSegmentation_wired.
  unfold bind at 1. unfold in_sys at 1, lift, gets. cbv beta iota.
  destruct (negb (truthy (_apiBaseUrl (self (sys t))))).
  - apply emit_error_closes.
    destruct t as [w s]. exact Ht.
  - unfold bind at 1.
    change (in_sys (set_currentVolumeNode volumeNode) (mkWState (widget t) (sys t)))
      with (Return tt, snd (in_sys (set_currentVolumeNode volumeNode)
                              (mkWState (widget t) (sys t)))).
    cbv beta iota.
    apply (hoare_try_except guard_clear (fun _ => guard_clear)); [| | exact Ht].
    + apply hoare_conseq with (Pre' := guard_clear) (Post' := back_if_returned);
        [| auto |].
      * apply back_bind; [apply startSegmentation_send_wired_clear |].
        intros response. apply startSegmentation_receive_wired_back.
      * intros [[] | e] s (Hc & Hp); [| exact Hc].
        split; [now exists tt | now split].
    + intros e.
      apply hoare_bind with (Mid := fun _ t => guard_clear t /\ shows_apply t).
      * eapply hoare_conseq; [apply emit_error_closes | auto |].
        intros [[] | e'] s ([a Ha] & Hc & Hp); [now split | discriminate Ha].
      * intros _ s o' s' [Hc Hp] Hrun.
        pose proof (in_sys_widget (logging_error_ ("API error: " +:+ exc_str e)) s) as Hw.
        rewrite Hrun in Hw. cbn [snd] in Hw.
        assert (Ho : o' = Return tt).
        { revert Hrun. unfold in_sys, lift, logging_error_, on_world, modify.
          now intros [= <- _]. }
        split; [now exists tt |].
        unfold guard_clear, shows_apply in *. now rewrite Hw.
Qed.

Lemma _runSegmentation_closes (io : WidgetIO) :
  hoare (fun t => guard_clear t /\ useApi (widget t) = true /\
                  logic (widget t) = apiLogic)
    (_runSegmentation str_strip str_splitlines io)
    returned_idle.
Proof.
  intros t o t' (Hc & Hapi & Hlogic).
  unfold _runSegmentation, logic_startSegmentation, getCurrentVolumeNode.
  run_a. rewrite Hapi. cbn [negb andb]. run_a. rewrite Hlogic.
  apply apiLogic_startSegmentation_closes. exact Hc.
Qed.

(** X21. In API mode (flag set, API logic current, guard clear), a click on
    the apply button of an idle widget always comes back, and it leaves the
    widget idle again: apply button shown, stop button hidden.  This holds
    in every environment: whether a volume is selected or not, whether a URL
    is entered or not, whatever the server answers and whichever call
    raises. *)
Theorem onApply_api_ends_idle (io : WidgetIO) (a : App)
    (Hclear : guard_clear (wstate a))
    (Hidle : shows_apply (wstate a))
    (Hapi : useApi (widget (wstate a)) = true)
    (Hlogic : logic (widget (wstate a)) = apiLogic) :
  exists a',
    onApply str_strip str_splitlines io a = (Return tt, a') /\
    guard_clear (wstate a') /\ shows_apply (wstate a').
Proof.
  unfold onApply. run_a.
  destruct (inputSelector_currentNode (widget (wstate a))) as [v |] eqn:Hv; run_a.
  2: { destruct (_doShowErrorWindows (widget (wstate a))); run_a;
       eexists; (split; [reflexivity |]); split; assumption. }
  rewrite Hapi. run_a.
  destruct (truthy (apiUrl (panel a))) eqn:Hurl; run_a.
  2: { destruct (_doShowErrorWindows (widget (wstate a))); run_a;
       eexists; (split; [reflexivity |]); split; assumption. }
  match goal with
  | |- context [_runSegmentation _ _ io ?t] =>
      pose proof (_runSegmentation_closes io t) as Hrun;
      destruct (_runSegmentation str_strip str_splitlines io t) as [o t'] eqn:Heq
  end.
  destruct (Hrun _ _ (conj Hclear (conj Hapi Hlogic)) eq_refl) as ([[] ->] & Hc & Hp).
  eexists. split; [reflexivity |]. now split.
Qed.

(** X22. A click on the upload button settles in one of two ways, whatever
    the environment does (a segmentation being there, a URL entered, guard
    clear, dialogs on): either one request went out and the user sees the
    thank-you dialog and no error dialog; or the user sees two error dialogs
    and no thank-you: first the logic's own error, without traceback, through
    [onInferenceError], then the widget's "Failed to upload", with
    traceback.  The click never raises. *)
Theorem onUploadClicked_verdict (io : WidgetIO) (a : App) (segmentation : node)
    (Hseg : getCurrentSegmentation (self (sys (wstate a))) = Some segmentation)
    (Hurl : apiUrl (panel a) <> "")
    (Hclear : isStopping (widget (wstate a)) = false)
    (Hshow : _doShowErrorWindows (widget (wstate a)) = true) :
  exists a' new,
    onUploadClicked str_strip str_splitlines io a = (Return tt, a') /\
    trace (world (sys (wstate a'))) = trace (world (sys (wstate a))) ++ new /\
    ((List.filter is_infoDisplay new
        = [infoDisplay "Segmentation successfully uploaded to API. Thank you for your contribution!"]
      /\ List.filter is_errorDisplay new = []
      /\ length (post_urls new) = 1)
     \/
     (List.filter is_infoDisplay new = []
      /\ (exists msg, List.filter is_errorDisplay new
            = [errorDisplay ("Encountered error during inference :" +:+ nl +:+ msg) false;
               errorDisplay "Failed to upload segmentation. Check logs for details." true])
      /\ length (post_urls new) <= 1)).
Proof.
  destruct a as [[w s] p]. destruct w. cbn in Hseg, Hurl, Hclear, Hshow. subst.
  apply truthy_true in Hurl.
  unfold onUploadClicked, apiLogic_uploadSegmentation, uploadSegmentation_wired,
    emit, slot, onInferenceError, getCurrentSegmentation in *.
  run_a. rewrite Hseg. run_a. rewrite Hurl. run_a.
  repeat next_a; norm_trace; do 2 eexists; (split; [reflexivity |]);
    cbn [wstate sys world trace]; (split; [reflexivity |]);
    first [ left; repeat split; reflexivity
          | right; split; [reflexivity |]; split; [eexists; reflexivity | cbn; lia] ].
Qed.

End Connected.

(** ** Clicks that start nothing, the two modes, the install *)

Section Clicks.

Variable str_strip : string -> string.
Variable str_splitlines : string -> list string.

(** X23. Without a segmentation, or without a URL in the panel, a click on
    the upload button only reports: the message goes to the log and, if
    dialogs are on, into one error dialog.  Nothing is sent, the logic's
    URL is not updated, and widget, files, scene and panel stay as they
    are. *)
Theorem onUploadClicked_refuses (io : WidgetIO) (a : App)
    (H : getCurrentSegmentation (self (sys (wstate a))) = None \/ apiUrl (panel a) = "") :
  exists msg,
    (msg = "No segmentation available to upload." \/ msg = "API URL is not configured.") /\
    onUploadClicked str_strip str_splitlines io a
      = (Return tt,
         mkApp
           (mkWState (widget (wstate a))
              (mkState (self (sys (wstate a)))
                 (mkWorld (fs (world (sys (wstate a)))) (scene (world (sys (wstate a))))
                    (trace (world (sys (wstate a))) ++
                     [insertPlainText (_formatMsg str_strip str_splitlines msg +:+ nl);
                      processEvents] ++
                     (if _doShowErrorWindows (widget (wstate a))
                      then [errorDisplay msg true] else [])))))
           (panel a)).
Proof.
  unfold onUploadClicked. run_a.
  destruct (getCurrentSegmentation (self (sys (wstate a)))) as [n |] eqn:Hseg.
  - destruct H as [H | H]; [discriminate |]. rewrite H. change (truthy "") with false. run_a.
    exists "API URL is not configured.". split; [now right |].
    destruct (_doShowErrorWindows (widget (wstate a))); run_a; norm_trace; reflexivity.
  - run_a. exists "No segmentation available to upload.". split; [now left |].
    destruct (_doShowErrorWindows (widget (wstate a))); run_a; norm_trace; reflexivity.
Qed.

(** X24. A click on the apply button that cannot start: no volume is
    selected, or the widget is in API mode and the panel holds no URL.  The
    click returns after its report (log line and, if dialogs are on, one
    error dialog with the reason); no logic is called and nothing is sent;
    the buttons, the logic's state, the files and the scene stay as they
    are.  Without a volume not even the log is cleared; otherwise it is
    cleared before the report. *)
Theorem onApply_refuses (io : WidgetIO) (a : App)
    (H : inputSelector_currentNode (widget (wstate a)) = None \/
         (useApi (widget (wstate a)) = true /\ apiUrl (panel a) = "")) :
  exists a' msg new,
    onApply str_strip str_splitlines io a = (Return tt, a') /\
    widget (wstate a') = widget (wstate a) /\
    self (sys (wstate a')) = self (sys (wstate a)) /\
    fs (world (sys (wstate a'))) = fs (world (sys (wstate a))) /\
    scene (world (sys (wstate a'))) = scene (world (sys (wstate a))) /\
    trace (world (sys (wstate a'))) = trace (world (sys (wstate a))) ++ new /\
    count is_logic_call new = 0 /\
    post_urls new = [] /\
    List.filter is_errorDisplay new
      = (if _doShowErrorWindows (widget (wstate a)) then [errorDisplay msg true] else []) /\
    (msg = "Please select a valid volume to proceed."
     \/ msg = "Please enter an API URL to proceed with API-based segmentation.") /\
    match inputSelector_currentNode (widget (wstate a)) with
    | None => panel a' = panel a
    | Some _ => logTextEdit_start (panel a') = length (trace (world (sys (wstate a))))
    end.
Proof.
  unfold onApply, getCurrentVolumeNode. run_a.
  destruct (inputSelector_currentNode (widget (wstate a))) as [v |] eqn:Hv.
  - destruct H as [H | [Hapi Hurl]]; [discriminate |].
    run_a. rewrite Hapi. run_a. rewrite Hurl. change (truthy "") with false. run_a.
    destruct (_doShowErrorWindows (widget (wstate a))); run_a; norm_trace;
      do 3 eexists; (split; [reflexivity |]); cbn [wstate widget sys self world fs scene trace];
      repeat (split; [reflexivity |]); (split; [now right | reflexivity]).
  - run_a.
    destruct (_doShowErrorWindows (widget (wstate a))); run_a; norm_trace;
      do 3 eexists; (split; [reflexivity |]); cbn [wstate widget sys self world fs scene trace panel];
      repeat (split; [reflexivity |]); (split; [now left |]); now destruct a.
Qed.

(** X25. A URL of slashes only passes the widget's own check (it is not
    empty), but the logic stores it as the empty string and refuses: the
    click on apply ends with the logic's error, shown without traceback,
    instead of the widget's request to enter a URL.  Nothing is sent, and
    the widget, which had switched to the stop button, is idle again. *)
Theorem onApply_url_of_slashes (io : WidgetIO) (a : App) (n : nat) (v : node)
    (Hv : inputSelector_currentNode (widget (wstate a)) = Some v)
    (Hapi : useApi (widget (wstate a)) = true)
    (Hlogic : logic (widget (wstate a)) = apiLogic)
    (Hclear : isStopping (widget (wstate a)) = false)
    (Hurl : apiUrl (panel a) = repeat_char "/" (S n)) :
  let msg := "Encountered error during inference :" +:+ nl +:+ "API URL is not configured." in
  exists a',
    onApply str_strip str_splitlines io a = (Return tt, a') /\
    getApiUrl (self (sys (wstate a'))) = "" /\
    widget (wstate a') = idle_buttons (widget (wstate a)) (has_segmentation (wstate a)) /\
    trace (world (sys (wstate a')))
      = trace (world (sys (wstate a))) ++
        [insertPlainText (_formatMsg str_strip str_splitlines "Start" +:+ nl);
         processEvents;
         insertPlainText (_formatMsg str_strip str_splitlines (stars 80) +:+ nl);
         processEvents;
         logic_call "startSegmentation";
         errorOccurred "API URL is not configured.";
         insertPlainText (_formatMsg str_strip str_splitlines msg +:+ nl);
         processEvents] ++
        (if _doShowErrorWindows (widget (wstate a))
         then [errorDisplay msg false] else []).
Proof.
  intros msg; subst msg.
  unfold onApply, getCurrentVolumeNode. run_a. rewrite Hv. run_a. rewrite Hapi. run_a.
  rewrite Hurl. change (truthy (repeat_char "/" (S n))) with true. run_a.
  unfold _runSegmentation, logic_startSegmentation, getCurrentVolumeNode. run_a.
  rewrite Hapi. cbn [negb andb]. run_a. rewrite Hlogic.
  unfold apiLogic_startSegmentation, startSegmentation_wired, setApiUrl. run_a.
  rewrite (rstrip_repeat_char "/" (S n)). change (truthy "") with false. run_a.
  unfold emit, slot, onInferenceError. run_a. rewrite Hclear. run_a.
  destruct (_doShowErrorWindows (widget (wstate a))) eqn:Hshow; run_a; norm_trace;
    (eexists; split; [reflexivity |]); cbn [wstate widget sys self world trace getApiUrl _apiBaseUrl];
    (split; [reflexivity |]); (split; [| reflexivity]);
    unfold idle_buttons, has_segmentation, getCurrentSegmentation;
    cbn [wstate widget sys self _currentSegmentationNode logic isStopping useApi
         _doShowErrorWindows inputSelector_currentNode];
    rewrite Hapi, Hlogic, Hclear, Hv, Hshow; reflexivity.
Qed.

(** Switching modes. *)

(** X26. Switching to local mode and back to API mode leaves the same state
    as switching to API mode at once: local mode keeps nothing of its own.
    In API mode the widget's logic is the API logic, the logic's URL is the
    panel's without trailing slashes, and the upload button is enabled
    exactly if the logic holds a segmentation; in local mode the logic is
    the local one, the API logic keeps its URL and its job, and the upload
    button is disabled even if there is a segmentation. *)
Theorem mode_switch_round_trip (a : App) :
  let api := snd (onApiRadioButtonToggled true a) in
  let local := snd (onLocalRadioButtonToggled true a) in
  snd (onApiRadioButtonToggled true local) = api /\
  logic (widget (wstate api)) = apiLogic /\
  getApiUrl (self (sys (wstate api))) = rstrip "/" (apiUrl (panel a)) /\
  uploadButton_enabled (widget (wstate api)) = has_segmentation (wstate a) /\
  logic (widget (wstate local)) = localLogic /\
  self (sys (wstate local)) = self (sys (wstate a)) /\
  uploadButton_enabled (widget (wstate local)) = false.
Proof.
  unfold onApiRadioButtonToggled, onLocalRadioButtonToggled, _updateModeBasedUI,
    has_segmentation, getCurrentSegmentation, setApiUrl, getApiUrl.
  run_a. cbn [andb]. repeat split.
Qed.

(** The log lines of the install. *)
Lemma progress_all_run (msgs : list string) (t : WState) :
  progress_all str_strip str_splitlines msgs t
    = (Return tt,
       mkWState (widget t)
         (mkState (self (sys t))
            (mkWorld (fs (world (sys t))) (scene (world (sys t)))
               (trace (world (sys t)) ++ log_lines str_strip str_splitlines msgs)))).
Proof.
  revert t. induction msgs as [| msg msgs IH]; intros t.
  - cbn. rewrite app_nil_r. now destruct t as [w [l []]].
  - cbn [progress_all]. run_a. rewrite IH. cbn [widget sys self world fs scene trace].
    unfold log_lines. cbn [flat_map]. now rewrite <- !app_assoc.
Qed.

Lemma log_lines_text (msgs : list string) :
  forallb is_log_text (log_lines str_strip str_splitlines msgs) = true.
Proof. induction msgs as [| msg msgs IH]; [reflexivity | exact IH]. Qed.

Lemma filter_log_text (p : event -> bool) (tr : list event) :
  (forall ev, is_log_text ev = true -> p ev = false) ->
  forallb is_log_text tr = true -> List.filter p tr = [].
Proof.
  intros Hp. induction tr as [| ev tr IH]; [reflexivity |].
  cbn [forallb List.filter]. intros [Hev Htr]%andb_prop.
  rewrite (Hp ev Hev). now apply IH.
Qed.

(** X27. [onInstall], by what the install logic hands back.  If it returns
    a verdict, [onInstall] returns the same verdict; the buttons it had
    disabled are enabled again (the upload button only in API mode with a
    segmentation), the version label shows the installed version, and, when
    a report is asked for and dialogs are on, the user sees one dialog:
    the success dialog or the error dialog, by the verdict.  If the install
    logic raises, the exception leaves [onInstall], the buttons stay
    disabled and the version label is not refreshed. *)
Theorem onInstall_by_verdict (io : WidgetIO) (doReportFinished : bool) (a : App) :
  exists a' new,
    snd (onInstall str_strip str_splitlines io doReportFinished a) = a' /\
    trace (world (sys (wstate a'))) = trace (world (sys (wstate a))) ++ new /\
    applyButton_visible (widget (wstate a')) = applyButton_visible (widget (wstate a)) /\
    match w_install_result io with
    | Return success =>
        let shown := doReportFinished && _doShowErrorWindows (widget (wstate a)) in
        fst (onInstall str_strip str_splitlines io doReportFinished a) = Return success /\
        installButton_enabled (widget (wstate a')) = true /\
        applyButton_enabled (widget (wstate a')) = true /\
        inputSelector_enabled (widget (wstate a')) = true /\
        uploadButton_enabled (widget (wstate a'))
          = useApi (widget (wstate a)) && has_segmentation (wstate a) /\
        currentVersionLabel_text (panel a') = w_installed_version io /\
        List.filter is_infoDisplay new
          = (if shown && success then [infoDisplay "Install finished correctly."] else []) /\
        List.filter is_errorDisplay new
          = (if shown && negb success then [errorDisplay "Install failed." true] else [])
    | Raise e =>
        fst (onInstall str_strip str_splitlines io doReportFinished a) = Raise e /\
        installButton_enabled (widget (wstate a')) = false /\
        applyButton_enabled (widget (wstate a')) = false /\
        inputSelector_enabled (widget (wstate a')) = false /\
        uploadButton_enabled (widget (wstate a')) = false /\
        currentVersionLabel_text (panel a') = currentVersionLabel_text (panel a)
    end.
Proof.
  pose proof (log_lines_text (w_install_progress io)) as Htext.
  assert (Hinfo : List.filter is_infoDisplay
                    (log_lines str_strip str_splitlines (w_install_progress io)) = [])
    by (apply filter_log_text; [now intros [] | exact Htext]).
  assert (Herr : List.filter is_errorDisplay
                   (log_lines str_strip str_splitlines (w_install_progress io)) = [])
    by (apply filter_log_text; [now intros [] | exact Htext]).
  unfold onInstall, updateInstalledVersion, has_segmentation, getCurrentSegmentation.
  destruct doReportFinished; run_a; rewrite progress_all_run; run_a;
    destruct (w_install_result io) as [[] | e]; run_a;
    try (destruct (_doShowErrorWindows (widget (wstate a))); run_a);
    norm_trace; do 2 eexists; (split; [reflexivity |]);
    cbn [wstate widget sys self world trace panel];
    (split; [reflexivity |]); (split; [reflexivity |]);
    cbn [fst installButton_enabled applyButton_enabled inputSelector_enabled
         uploadButton_enabled currentVersionLabel_text andb negb];
    rewrite ?List.filter_app, ?Hinfo, ?Herr; cbn [List.filter is_infoDisplay is_errorDisplay app];
    repeat split; rewrite ?andb_false_r, ?List.filter_app, ?Hinfo, ?Herr; reflexivity.
Qed.

Lemma post_urls_log_text (tr : list event) :
  forallb is_log_text tr = true -> post_urls tr = [].
Proof.
  induction tr as [| ev tr IH]; [reflexivity |].
  cbn [forallb]. intros [Hev Htr]%andb_prop.
  destruct ev; try discriminate Hev; exact (IH Htr).
Qed.

(** X28. Local mode, segmentation not started.  When the install that
    [onApply] runs first hands back [False], or when the install logic asks
    for a restart, the click returns without starting anything: the only
    logic called is the install, nothing is sent, and the apply button
    stays as it was, enabled.  A failed install ends without any dialog;
    the restart is asked for in one info dialog (if dialogs are on). *)
Theorem onApply_local_not_started (io : WidgetIO) (a : App) (v : node) (success : bool)
    (Hv : inputSelector_currentNode (widget (wstate a)) = Some v)
    (Hlocal : useApi (widget (wstate a)) = false)
    (Hinstall : w_install_result io = Return success)
    (Hno : success = false \/ w_needsRestart io = true) :
  exists a' new,
    onApply str_strip str_splitlines io a = (Return tt, a') /\
    trace (world (sys (wstate a'))) = trace (world (sys (wstate a))) ++ new /\
    List.filter is_logic_call new = [logic_call "setupPythonRequirements"] /\
    post_urls new = [] /\
    self (sys (wstate a')) = self (sys (wstate a)) /\
    applyButton_visible (widget (wstate a')) = applyButton_visible (widget (wstate a)) /\
    stopButton_visible (widget (wstate a')) = stopButton_visible (widget (wstate a)) /\
    applyButton_enabled (widget (wstate a')) = true /\
    List.filter is_errorDisplay new = [] /\
    List.filter is_infoDisplay new
      = (if success && _doShowErrorWindows (widget (wstate a))
         then [infoDisplay "Please restart 3D Slicer to proceed with segmentation."]
         else []).
Proof.
  pose proof (log_lines_text (w_install_progress io)) as Htext.
  assert (Hinfo : List.filter is_infoDisplay
                    (log_lines str_strip str_splitlines (w_install_progress io)) = [])
    by (apply filter_log_text; [now intros [] | exact Htext]).
  assert (Herr : List.filter is_errorDisplay
                   (log_lines str_strip str_splitlines (w_install_progress io)) = [])
    by (apply filter_log_text; [now intros [] | exact Htext]).
  assert (Hcall : List.filter is_logic_call
                    (log_lines str_strip str_splitlines (w_install_progress io)) = [])
    by (apply filter_log_text; [now intros [] | exact Htext]).
  pose proof (post_urls_log_text _ Htext) as Hpost.
  unfold onApply, onInstall, updateInstalledVersion, getCurrentVolumeNode.
  run_a. rewrite Hv. run_a. rewrite Hlocal. run_a. rewrite progress_all_run. run_a.
  rewrite Hinstall. run_a.
  destruct success; cbn [negb].
  - destruct Hno as [Hno | Hno]; [discriminate |]. rewrite Hno. run_a.
    destruct (_doShowErrorWindows (widget (wstate a))); run_a; norm_trace;
      do 2 eexists; (split; [reflexivity |]);
      cbn [wstate widget sys self world trace applyButton_visible stopButton_visible
           applyButton_enabled andb];
      (split; [reflexivity |]);
      unfold post_urls in *;
      repeat split; try reflexivity; cbn -[log_lines];
      rewrite ?List.filter_app, ?omap_app, ?Hinfo, ?Herr, ?Hcall, ?Hpost; reflexivity.
  - run_a. norm_trace.
    do 2 eexists; (split; [reflexivity |]);
      cbn [wstate widget sys self world trace applyButton_visible stopButton_visible
           applyButton_enabled andb];
      (split; [reflexivity |]);
      unfold post_urls in *;
      repeat split; try reflexivity; cbn -[log_lines];
      rewrite ?List.filter_app, ?omap_app, ?Hinfo, ?Herr, ?Hcall, ?Hpost; reflexivity.
Qed.

End Clicks.

(** ** A click on apply from end to end *)

Section EndToEnd.

Variable str_strip : string -> string.
Variable str_splitlines : string -> list string.

(** X29. The whole way of a successful click on apply in API mode.  With a
    volume selected, a URL that is more than slashes, every call going
    through and the server answering 200, the click sends one request, to
    the predict URL made of the panel's URL without trailing slashes; the
    API logic then holds that URL, the selected volume, the file id of the
    response and the loaded segmentation, which is named after the selected
    volume, [<name>Segmentation]; the widget is idle again with the upload
    button enabled, and the user sees the success dialog (if dialogs are on)
    and no error dialog. *)
Theorem onApply_api_success
    (io : WidgetIO) (a : App) (r : Response)
    (v labelmap segmentation : node) (nm1 nm2 : string)
    (Hclear : isStopping (widget (wstate a)) = false)
    (Hv : inputSelector_currentNode (widget (wstate a)) = Some v)
    (Hapi : useApi (widget (wstate a)) = true)
    (Hlogic : logic (widget (wstate a)) = apiLogic)
    (Hurl : rstrip "/" (apiUrl (panel a)) <> "")
    (Hsend : send_io_ok (w_predict io))
    (Hreceive : receive_io_ok (w_predict io))
    (Hpost : io_post (w_predict io) = Return r)
    (Hstatus : status_code r = 200%Z)
    (Hload : ld_loadLabelVolume (fin_api (w_finished io)) = Return (labelmap, nm1))
    (Hnew : ld_AddNewNode (fin_api (w_finished io)) = Return (segmentation, nm2))
    (Himport : returned (ld_ImportLabelmap (fin_api (w_finished io))))
    (Hdistinct : labelmap <> segmentation /\ v <> labelmap /\ v <> segmentation) :
  exists a' new,
    onApply str_strip str_splitlines io a = (Return tt, a') /\
    trace (world (sys (wstate a'))) = trace (world (sys (wstate a))) ++ new /\
    post_urls new = [rstrip "/" (apiUrl (panel a)) +:+ "/predict"] /\
    self (sys (wstate a'))
      = mkLogic (rstrip "/" (apiUrl (panel a))) (_tmpDir (self (sys (wstate a))))
                (Some segmentation) (Some v) (headers_get (headers r) "X-File-ID") /\
    scene (world (sys (wstate a'))) !! segmentation
      = Some (default "" (scene (world (sys (wstate a))) !! v) +:+ "Segmentation") /\
    widget (wstate a') = idle_buttons (widget (wstate a)) true /\
    List.filter is_errorDisplay new = [] /\
    List.filter is_infoDisplay new
      = (if _doShowErrorWindows (widget (wstate a))
         then [infoDisplay "Inference ended successfully."] else []).
Proof.
  destruct Hsend as ([tn Htemp] & [b Hexport] & [[] Hopen] & [[] Hunlink]).
  destruct Hreceive as ([[] Hmkdir] & [[] Hopen_wb] & [[] Hwrite]).
  assert (Hpanel : truthy (apiUrl (panel a)) = true).
  { apply truthy_true. intros H. rewrite H in Hurl. now apply Hurl. }
  apply truthy_true in Hurl.
  destruct a as [[w [l wd]] p]. destruct w as [lg st sh ua av ae sv ie se cn ue].
  cbn [wstate widget sys self world panel isStopping inputSelector_currentNode useApi logic
       _doShowErrorWindows] in *.
  subst.
  unfold onApply, getCurrentVolumeNode. run_a.
  rewrite Hpanel. run_a.
  unfold _runSegmentation, logic_startSegmentation, getCurrentVolumeNode. run_a.
  cbn [andb]. run_a.
  unfold apiLogic_startSegmentation, startSegmentation_wired, setApiUrl. run_a.
  rewrite Hurl. run_a.
  unfold startSegmentation_send_wired, startSegmentation_receive_wired, exportNode_opt,
    emit, slot. run_a.
  rewrite Htemp. run_a. rewrite Hexport. run_a.
  rewrite lookup_insert_eq. run_a. rewrite Hopen. run_a. rewrite Hpost. run_a.
  rewrite Hunlink. run_a. rewrite Hstatus. cbn [Z.eqb Pos.eqb negb]. run_a.
  destruct Himport as [[] Himport]. destruct Hdistinct as (H12 & Hv1 & Hv2).
  destruct (truthy_opt (headers_get (headers r) "X-File-ID")); cbn [negb]; run_a;
    rewrite Hmkdir; run_a; rewrite Hopen_wb; run_a; rewrite Hwrite; run_a;
    unfold onInferenceFinished; run_a;
    rewrite loadSegmentation_wraps; unfold loadSegmentation_try; run_a;
    unfold nnUNetOutDir; cbn [_tmpDir];
    rewrite !lookup_insert_eq; rewrite bool_decide_eq_true_2 by eauto; run_a;
    rewrite Hload; run_a; rewrite Hnew; run_a; rewrite Himport; run_a;
    destruct sh; run_a; norm_trace;
    (do 2 eexists; split; [reflexivity |]);
    cbn [wstate widget sys self world scene trace];
    (split; [reflexivity |]); (split; [reflexivity |]); (split; [reflexivity |]);
    (split; [rewrite lookup_insert_eq; do 2 f_equal;
             now rewrite lookup_delete_ne, !lookup_insert_ne by congruence |]);
    repeat split.
Qed.

(** X30. In API mode every click on apply that gets past the widget's own
    checks ends with exactly one dialog (dialogs being on), whatever the
    environment does: either the success dialog or one error dialog, never
    both and never two; and at most one request has gone out. *)
Theorem onApply_api_one_dialog (io : WidgetIO) (a : App) (v : node)
    (Hclear : isStopping (widget (wstate a)) = false)
    (Hshow : _doShowErrorWindows (widget (wstate a)) = true)
    (Hv : inputSelector_currentNode (widget (wstate a)) = Some v)
    (Hapi : useApi (widget (wstate a)) = true)
    (Hlogic : logic (widget (wstate a)) = apiLogic)
    (Hpanel : apiUrl (panel a) <> "") :
  exists a' new,
    onApply str_strip str_splitlines io a = (Return tt, a') /\
    trace (world (sys (wstate a'))) = trace (world (sys (wstate a))) ++ new /\
    count is_infoDisplay new + count is_errorDisplay new = 1 /\
    length (post_urls new) <= 1.
Proof.
  apply truthy_true in Hpanel.
  destruct a as [[w [l wd]] p]. destruct w as [lg st sh ua av ae sv ie se cn ue].
  cbn [wstate widget sys self world panel isStopping inputSelector_currentNode useApi logic
       _doShowErrorWindows] in *.
  subst.
  unfold onApply, getCurrentVolumeNode. run_a.
  rewrite Hpanel. run_a.
  unfold _runSegmentation, logic_startSegmentation, getCurrentVolumeNode. run_a.
  cbn [andb]. run_a.
  unfold apiLogic_startSegmentation, startSegmentation_wired, setApiUrl,
    startSegmentation_send_wired, startSegmentation_receive_wired, exportNode_opt,
    emit, slot, onInferenceError, onInferenceFinished. run_a.
  repeat first
    [ match goal with
      | |- context [loadSegmentation ?lio ?s] =>
          pose proof (loadSegmentation_leaves lio s) as Hleaves;
          destruct (loadSegmentation_outcome lio s)
            as [(n & s' & Hrun) | (msg & s' & Hrun)]; rewrite Hrun in Hleaves |- *;
          cbn [world trace] in Hleaves;
          destruct Hleaves as (_ & Htr & _); run_a
      end
    | next_a ];
    rewrite ?Htr; norm_trace; do 2 eexists; (split; [reflexivity |]);
    cbn [wstate sys world trace]; (split; [reflexivity |]);
    (split; [reflexivity | cbn; lia]).
Qed.

End EndToEnd.

(** ** The handlers on sample states *)

Lemma onInferenceFinished_api_reports_once_witness :
  let t := mkWState running_widget state_after_predict in
  exists t' new,
    onInferenceFinished strip_one_line splitlines_one_line
      (mkFinishedIO load_io_all_fine (Return 22)) t = (Return tt, t') /\
    trace (world (sys t')) = trace (world (sys t)) ++ new /\
    count is_load_call new = 1 /\
    ((count is_infoDisplay new = 1 /\ count is_errorDisplay new = 0 /\
      exists n name,
        getCurrentSegmentation (self (sys t')) = Some n /\
        scene (world (sys t')) !! n = Some (name +:+ "Segmentation"))
     \/
     (count is_infoDisplay new = 0 /\
      (exists msg, List.filter is_errorDisplay new = [errorDisplay msg true]) /\
      getCurrentSegmentation (self (sys t')) = getCurrentSegmentation (self (sys t)))).
Proof.
  intros t.
  apply (onInferenceFinished_api_reports_once strip_one_line splitlines_one_line
           (mkFinishedIO load_io_all_fine (Return 22)) t 7); reflexivity.
Defined.

Lemma onInferenceFinished_names_result_witness :
  let t := mkWState running_widget state_after_predict in
  exists t',
    onInferenceFinished strip_one_line splitlines_one_line
      (mkFinishedIO load_io_all_fine (Return 22)) t = (Return tt, t') /\
    getCurrentSegmentation (self (sys t')) = Some 22 /\
    scene (world (sys t')) !! 22 = Some ("CT" +:+ "Segmentation") /\
    scene (world (sys t')) !! 21 = None /\
    uploadButton_enabled (widget t') = true /\
    List.filter is_infoDisplay (trace (world (sys t')))
      = [] ++ [infoDisplay "Inference ended successfully."].
Proof.
  intros t.
  apply (onInferenceFinished_names_result strip_one_line splitlines_one_line
           (mkFinishedIO load_io_all_fine (Return 22)) t [Byte.x42] 21 22 7 7
           "segmentation" "Segmentation").
  - reflexivity.
  - reflexivity.
  - reflexivity.
  - reflexivity.
  - reflexivity.
  - reflexivity.
  - reflexivity.
  - eexists; reflexivity.
  - repeat split; discriminate.
Defined.

Lemma onApply_api_ends_idle_witness :
  exists a',
    onApply strip_one_line splitlines_one_line (widget_io_all_fine response_with_id) idle_app
      = (Return tt, a') /\
    guard_clear (wstate a') /\ shows_apply (wstate a').
Proof.
  apply (onApply_api_ends_idle strip_one_line splitlines_one_line
           (widget_io_all_fine response_with_id) idle_app).
  - reflexivity.
  - split; reflexivity.
  - reflexivity.
  - reflexivity.
Defined.

Lemma onUploadClicked_verdict_witness :
  let a := app_with_result in
  exists a' new,
    onUploadClicked strip_one_line splitlines_one_line
      (widget_io_all_fine response_with_id) a = (Return tt, a') /\
    trace (world (sys (wstate a'))) = trace (world (sys (wstate a))) ++ new /\
    ((List.filter is_infoDisplay new
        = [infoDisplay "Segmentation successfully uploaded to API. Thank you for your contribution!"]
      /\ List.filter is_errorDisplay new = []
      /\ length (post_urls new) = 1)
     \/
     (List.filter is_infoDisplay new = []
      /\ (exists msg, List.filter is_errorDisplay new
            = [errorDisplay ("Encountered error during inference :" +:+ nl +:+ msg) false;
               errorDisplay "Failed to upload segmentation. Check logs for details." true])
      /\ length (post_urls new) <= 1)).
Proof.
  intros a.
  apply (onUploadClicked_verdict strip_one_line splitlines_one_line
           (widget_io_all_fine response_with_id) a 22).
  - reflexivity.
  - discriminate.
  - reflexivity.
  - reflexivity.
Defined.

Lemma onUploadClicked_refuses_witness :
  exists msg,
    (msg = "No segmentation available to upload." \/ msg = "API URL is not configured.") /\
    onUploadClicked strip_one_line splitlines_one_line
      (widget_io_all_fine response_with_id) idle_app
      = (Return tt,
         mkApp
           (mkWState idle_widget
              (mkState (self configured_state)
                 (mkWorld ∅ {[ 7 := "CT" ]}
                    ([] ++
                     [insertPlainText (msg +:+ nl); processEvents] ++
                     [errorDisplay msg true]))))
           api_panel).
Proof.
  apply (onUploadClicked_refuses strip_one_line splitlines_one_line
           (widget_io_all_fine response_with_id) idle_app).
  left. reflexivity.
Defined.

Lemma onApply_refuses_witness :
  let a := idle_app_with_url "" in
  exists a' msg new,
    onApply strip_one_line splitlines_one_line (widget_io_all_fine response_with_id) a
      = (Return tt, a') /\
    widget (wstate a') = widget (wstate a) /\
    self (sys (wstate a')) = self (sys (wstate a)) /\
    fs (world (sys (wstate a'))) = fs (world (sys (wstate a))) /\
    scene (world (sys (wstate a'))) = scene (world (sys (wstate a))) /\
    trace (world (sys (wstate a'))) = trace (world (sys (wstate a))) ++ new /\
    count is_logic_call new = 0 /\
    post_urls new = [] /\
    List.filter is_errorDisplay new = [errorDisplay msg true] /\
    (msg = "Please select a valid volume to proceed."
     \/ msg = "Please enter an API URL to proceed with API-based segmentation.") /\
    match inputSelector_currentNode (widget (wstate a)) with
    | None => panel a' = panel a
    | Some _ => logTextEdit_start (panel a') = length (trace (world (sys (wstate a))))
    end.
Proof.
  intros a.
  apply (onApply_refuses strip_one_line splitlines_one_line
           (widget_io_all_fine response_with_id) a).
  right. split; reflexivity.
Defined.

Lemma onApply_url_of_slashes_witness :
  let a := idle_app_with_url "//" in
  let msg := "Encountered error during inference :" +:+ nl +:+ "API URL is not configured." in
  exists a',
    onApply strip_one_line splitlines_one_line (widget_io_all_fine response_with_id) a
      = (Return tt, a') /\
    getApiUrl (self (sys (wstate a'))) = "" /\
    widget (wstate a') = idle_widget /\
    trace (world (sys (wstate a')))
      = [] ++
        [insertPlainText ("Start" +:+ nl);
         processEvents;
         insertPlainText (stars 80 +:+ nl);
         processEvents;
         logic_call "startSegmentation";
         errorOccurred "API URL is not configured.";
         insertPlainText (msg +:+ nl);
         processEvents] ++
        [errorDisplay msg false].
Proof.
  intros a.
  apply (onApply_url_of_slashes strip_one_line splitlines_one_line
           (widget_io_all_fine response_with_id) a 1 7); reflexivity.
Defined.

Lemma onApply_local_not_started_witness :
  exists a' new,
    onApply strip_one_line splitlines_one_line widget_io_install_fails local_app
      = (Return tt, a') /\
    trace (world (sys (wstate a'))) = trace (world (sys (wstate local_app))) ++ new /\
    List.filter is_logic_call new = [logic_call "setupPythonRequirements"] /\
    post_urls new = [] /\
    self (sys (wstate a')) = self (sys (wstate local_app)) /\
    applyButton_visible (widget (wstate a')) = true /\
    stopButton_visible (widget (wstate a')) = false /\
    applyButton_enabled (widget (wstate a')) = true /\
    List.filter is_errorDisplay new = [] /\
    List.filter is_infoDisplay new = [].
Proof.
  apply (onApply_local_not_started strip_one_line splitlines_one_line
           widget_io_install_fails local_app 7 false).
  - reflexivity.
  - reflexivity.
  - reflexivity.
  - left. reflexivity.
Defined.

Lemma onApply_api_success_witness :
  let a := idle_app in
  exists a' new,
    onApply strip_one_line splitlines_one_line (widget_io_all_fine response_with_id) a
      = (Return tt, a') /\
    trace (world (sys (wstate a'))) = trace (world (sys (wstate a))) ++ new /\
    post_urls new = ["http://host:8000" +:+ "/predict"] /\
    self (sys (wstate a'))
      = mkLogic "http://host:8000" ["tmp"; "qt"] (Some 22) (Some 7) (Some "abc123") /\
    scene (world (sys (wstate a'))) !! 22 = Some ("CT" +:+ "Segmentation") /\
    widget (wstate a') = idle_buttons idle_widget true /\
    List.filter is_errorDisplay new = [] /\
    List.filter is_infoDisplay new = [infoDisplay "Inference ended successfully."].
Proof.
  intros a.
  apply (onApply_api_success strip_one_line splitlines_one_line
           (widget_io_all_fine response_with_id) a response_with_id 7 21 22
           "segmentation" "Segmentation").
  - reflexivity.
  - reflexivity.
  - reflexivity.
  - reflexivity.
  - discriminate.
  - repeat split; eexists; reflexivity.
  - repeat split; eexists; reflexivity.
  - reflexivity.
  - reflexivity.
  - reflexivity.
  - reflexivity.
  - eexists; reflexivity.
  - repeat split; discriminate.
Defined.

Lemma onApply_api_one_dialog_witness :
  let a := idle_app in
  exists a' new,
    onApply strip_one_line splitlines_one_line (widget_io_all_fine response_with_id) a
      = (Return tt, a') /\
    trace (world (sys (wstate a'))) = trace (world (sys (wstate a))) ++ new /\
    count is_infoDisplay new + count is_errorDisplay new = 1 /\
    length (post_urls new) <= 1.
Proof.
  intros a.
  apply (onApply_api_one_dialog strip_one_line splitlines_one_line
           (widget_io_all_fine response_with_id) a 7).
  - reflexivity.
  - reflexivity.
  - reflexivity.
  - reflexivity.
  - reflexivity.
  - discriminate.
Defined.
